(** * AgenticEDA: the cleaning, readiness, ingestion, export and advisory code

    A shallow embedding of [utils/cleaning.py], [utils/eda.py],
    [utils/llm.py] and the relevant parts of [app.py], over a small model of
    the pandas operations those files call.

    Conventions.
    - A float64 value is a kernel binary64 float ([PrimFloat.float]); the
      missing value of a float column is NaN.
    - A Python call that may raise returns [Py.result]; an object mutated
      through a reference ([df], [transformation_log]) is threaded through
      as an explicit state and returned.
    - What lies outside the repository (the CSV parser, the text-generation
      service, the template engine, the clock, the buttons the user pressed)
      is a [Variable] of a Section. *)

From Stdlib Require Import ZArith String Ascii List Bool Lia.
From Stdlib Require Import Floats.PrimFloat Floats.SpecFloat Floats.FloatOps.
From Stdlib Require Floats.FloatAxioms.
From Stdlib Require Uint63 DecimalString.
From stdpp Require Import base list strings.

Local Open Scope string_scope.
Local Open Scope list_scope.

(* ===================================================================== *)
(** * Python values, exceptions and string formatting                     *)
(* ===================================================================== *)

Module Py.

(** The exception classes this program can meet. [Exception] stands for
    every other subclass of Python's [Exception] (a parse error, a
    network error); the payload is what [str(e)] prints. *)
Inductive exn : Type :=
| AttributeError (msg : string)
| OSError (msg : string)
| Exception (msg : string).

Definition exn_str (e : exn) : string :=
  match e with
  | AttributeError m => m
  | OSError m => m
  | Exception m => m
  end.

Inductive result (A : Type) : Type :=
| Return (a : A)
| Raise (e : exn).
Arguments Return {A} a.
Arguments Raise {A} e.

Definition bind {A B} (r : result A) (k : A -> result B) : result B :=
  match r with
  | Return a => k a
  | Raise e => Raise e
  end.

(** [str(n)] for a non-negative int. *)
Definition str_of_nat (n : nat) : string :=
  DecimalString.NilEmpty.string_of_uint (Nat.to_uint n).

Definition str_of_Z (z : Z) : string :=
  DecimalString.NilEmpty.string_of_uint (N.to_uint (Z.to_N z)).

(** [str((r, c))] for a tuple of two ints, as an f-string prints it. *)
Definition str_of_shape (sh : nat * nat) : string :=
  "(" +:+ str_of_nat sh.1 +:+ ", " +:+ str_of_nat sh.2 +:+ ")".

(** [sep.join(lines)]. *)
Fixpoint join (sep : string) (lines : list string) : string :=
  match lines with
  | [] => ""
  | [l] => l
  | l :: rest => l +:+ sep +:+ join sep rest
  end.

(** [s.lower()] on the letters A-Z; every other character is kept. No
    character outside A-Z lower-cases to one of d, a, t, e. *)
Definition lower_ascii (c : ascii) : ascii :=
  let n := nat_of_ascii c in
  if (65 <=? n)%nat && (n <=? 90)%nat then ascii_of_nat (n + 32) else c.

Fixpoint lower (s : string) : string :=
  match s with
  | EmptyString => EmptyString
  | String c s' => String (lower_ascii c) (lower s')
  end.

(** [sub in s]. *)
Fixpoint str_in (sub s : string) : bool :=
  if String.prefix sub s then true
  else match s with
       | EmptyString => false
       | String _ s' => str_in sub s'
       end.

Definition is_space (c : ascii) : bool :=
  let n := nat_of_ascii c in
  ((9 <=? n)%nat && (n <=? 13)%nat) || (28 <=? n)%nat && (n <=? 32)%nat.

Fixpoint lstrip (s : string) : string :=
  match s with
  | String c s' => if is_space c then lstrip s' else s
  | EmptyString => EmptyString
  end.

Fixpoint rstrip (s : string) : string :=
  match s with
  | EmptyString => EmptyString
  | String c s' =>
      match rstrip s' with
      | EmptyString => if is_space c then EmptyString else String c EmptyString
      | r => String c r
      end
  end.

(** [s.strip()]. *)
Definition strip (s : string) : string := rstrip (lstrip s).

(** Rounding of the non-negative rational [num / den] to the nearest
    integer, ties to even: how [format] rounds the exact value of a float. *)
Definition round_half_even (num den : Z) : Z :=
  let q := (num / den)%Z in
  let r := (num mod den)%Z in
  match (2 * r ?= den)%Z with
  | Lt => q
  | Gt => (q + 1)%Z
  | Eq => if Z.even q then q else (q + 1)%Z
  end.

(** [f"{x:.1f}"]: the exact binary value of [x], rounded to one decimal. *)
Definition format_1f (x : float) : string :=
  match Prim2SF x with
  | S754_nan => "nan"
  | S754_infinity s => if s then "-inf" else "inf"
  | S754_zero s => if s then "-0.0" else "0.0"
  | S754_finite s m e =>
      let tenths :=
        if (0 <=? e)%Z then (Z.pos m * 10 * 2 ^ e)%Z
        else round_half_even (Z.pos m * 10) (2 ^ (- e)) in
      (if s then "-" else "") +:+ str_of_Z (tenths / 10) +:+ "."
        +:+ str_of_Z (tenths mod 10)
  end.

(** [float(n)] for a non-negative int below 2^63. *)
Definition float_of_nat (n : nat) : float :=
  PrimFloat.of_uint63 (Uint63.of_Z (Z.of_nat n)).

End Py.

Abbreviation Return := Py.Return.
Abbreviation Raise := Py.Raise.

(* ===================================================================== *)
(** * The pandas operations the program calls                             *)
(* ===================================================================== *)

Module pd.

(** What a cell of an [object] column read from CSV holds: text, or the
    float NaN that marks a missing field. *)
Inductive pyobj : Type :=
| PStr (s : string)
| PNaN.

(** The dtypes [read_csv] infers, with [parse_dates] for the last one. *)
Inductive dtype : Type :=
| int64 | float64 | bool_ | object_ | datetime64_ns.

(** A column: a homogeneous array. A datetime cell is a timestamp or NaT. *)
Inductive Series : Type :=
| SInt (v : list Z)
| SFloat (v : list float)
| SBool (v : list bool)
| SObject (v : list pyobj)
| SDatetime (v : list (option Z)).

Definition Series_dtype (s : Series) : dtype :=
  match s with
  | SInt _ => int64
  | SFloat _ => float64
  | SBool _ => bool_
  | SObject _ => object_
  | SDatetime _ => datetime64_ns
  end.

Definition Series_len (s : Series) : nat :=
  match s with
  | SInt v => length v
  | SFloat v => length v
  | SBool v => length v
  | SObject v => length v
  | SDatetime v => length v
  end.

Definition pyobj_isnull (o : pyobj) : bool :=
  match o with PNaN => true | PStr _ => false end.

(** [s.isnull()]. *)
Definition Series_isnull (s : Series) : list bool :=
  match s with
  | SInt v => map (fun _ => false) v
  | SFloat v => map is_nan v
  | SBool v => map (fun _ => false) v
  | SObject v => map pyobj_isnull v
  | SDatetime v => map (fun t => match t with None => true | Some _ => false end) v
  end.

(** [.sum()] of a boolean array. *)
Definition bool_sum (m : list bool) : nat := length (List.filter id m).

(** [.mean()] of a boolean array: NaN on no rows, else sum / count. *)
Definition bool_mean (m : list bool) : float :=
  match m with
  | [] => nan
  | _ => PrimFloat.div (Py.float_of_nat (bool_sum m)) (Py.float_of_nat (length m))
  end.

Definition float_sum (v : list float) : float :=
  fold_left PrimFloat.add v 0%float.

(** [nanmean]: the mean over the values that are not NaN, NaN when there
    is none. The order in which the library adds the values is its own;
    here they are added left to right. *)
Definition nanmean (v : list float) : float :=
  let present := List.filter (fun x => negb (is_nan x)) v in
  match present with
  | [] => nan
  | _ => PrimFloat.div (float_sum present) (Py.float_of_nat (length present))
  end.

Definition float_of_Z (z : Z) : float :=
  if (z <? 0)%Z then PrimFloat.opp (PrimFloat.of_uint63 (Uint63.of_Z (- z)))
  else PrimFloat.of_uint63 (Uint63.of_Z z).

(** [s.mean()] (skipna). The program calls it on numeric columns only;
    on a column that has no mean the model answers NaN. *)
Definition Series_mean (s : Series) : float :=
  match s with
  | SFloat v => nanmean v
  | SInt v => nanmean (map float_of_Z v)
  | SBool v => bool_mean v
  | SObject _ => nan
  | SDatetime _ => nan
  end.

(** [s.fillna(value)] with a float [value]: every NaN of a float column
    becomes [value]. An int or bool column has nothing to fill. The
    program never fills an object or datetime column. *)
Definition Series_fillna (value : float) (s : Series) : Series :=
  match s with
  | SFloat v => SFloat (map (fun x => if is_nan x then value else x) v)
  | _ => s
  end.

Definition pyobj_str (o : pyobj) : string :=
  match o with PStr s => s | PNaN => "nan" end.

(** [s.astype(str)] on an object column: [str(x)] of every cell. *)
Definition Series_astype_str (s : Series) : Series :=
  match s with
  | SObject v => SObject (map (fun o => PStr (pyobj_str o)) v)
  | _ => s
  end.

(** A data frame: row labels and labelled columns, in column order. *)
Record DataFrame : Type := mkDataFrame {
  index : list Z;
  data : list (string * Series)
}.

(** [df.columns]. *)
Definition columns (df : DataFrame) : list string := map fst (data df).

(** [df.dtypes.items()]. *)
Definition dtypes (df : DataFrame) : list (string * dtype) :=
  map (fun cs => (cs.1, Series_dtype cs.2)) (data df).

(** [df.shape]. *)
Definition shape (df : DataFrame) : nat * nat :=
  (length (index df), length (data df)).

(** [df.empty]: some axis has length 0. *)
Definition empty (df : DataFrame) : bool :=
  (length (index df) =? 0)%nat || (length (data df) =? 0)%nat.

Fixpoint assoc (col : string) (cs : list (string * Series)) : option Series :=
  match cs with
  | [] => None
  | (c, s) :: rest => if String.eqb c col then Some s else assoc col rest
  end.

(** [df[col]]: the column labelled [col] ([None]: KeyError). *)
Definition getitem (df : DataFrame) (col : string) : option Series :=
  assoc col (data df).

Fixpoint assoc_alter (f : Series -> Series) (col : string)
    (cs : list (string * Series)) : list (string * Series) :=
  match cs with
  | [] => []
  | (c, s) :: rest =>
      if String.eqb c col then (c, f s) :: rest
      else (c, s) :: assoc_alter f col rest
  end.

(** An in-place update of the column [df[col]]: the frame sees it. *)
Definition update_col (f : Series -> Series) (df : DataFrame) (col : string)
    : DataFrame :=
  {| index := index df; data := assoc_alter f col (data df) |}.

Fixpoint assoc_set (col : string) (s : Series)
    (cs : list (string * Series)) : list (string * Series) :=
  match cs with
  | [] => [(col, s)]
  | (c, x) :: rest =>
      if String.eqb c col then (c, s) :: rest
      else (c, x) :: assoc_set col s rest
  end.

(** [df[col] = s]: replaces the column, or adds it as the last one. *)
Definition setitem (df : DataFrame) (col : string) (s : Series) : DataFrame :=
  {| index := index df; data := assoc_set col s (data df) |}.

Definition is_number (d : dtype) : bool :=
  match d with int64 | float64 => true | _ => false end.

Definition is_object (d : dtype) : bool :=
  match d with object_ => true | _ => false end.

(** [df.select_dtypes(include=...).columns]. *)
Definition select_dtypes (include : dtype -> bool) (df : DataFrame)
    : list string :=
  map fst (List.filter (fun cs => include (Series_dtype cs.2)) (data df)).

(** ** Rows and duplicates *)

Inductive cell : Type :=
| CInt (z : Z)
| CFloat (x : float)
| CBool (b : bool)
| CObj (o : pyobj)
| CTime (t : option Z).

Definition cells (s : Series) : list cell :=
  match s with
  | SInt v => map CInt v
  | SFloat v => map CFloat v
  | SBool v => map CBool v
  | SObject v => map CObj v
  | SDatetime v => map CTime v
  end.

(** When two cells count as the same value for [duplicated]: equal
    numbers (so 0.0 and -0.0), equal text, equal timestamps, and two
    missing values of one column. *)
Definition cell_eqb (a b : cell) : bool :=
  match a, b with
  | CInt x, CInt y => (x =? y)%Z
  | CFloat x, CFloat y => PrimFloat.eqb x y || (is_nan x && is_nan y)
  | CBool x, CBool y => Bool.eqb x y
  | CObj (PStr x), CObj (PStr y) => String.eqb x y
  | CObj PNaN, CObj PNaN => true
  | CTime (Some x), CTime (Some y) => (x =? y)%Z
  | CTime None, CTime None => true
  | _, _ => false
  end.

Abbreviation row := (list cell).

Fixpoint row_eqb (r1 r2 : row) : bool :=
  match r1, r2 with
  | [], [] => true
  | a :: r1', b :: r2' => cell_eqb a b && row_eqb r1' r2'
  | _, _ => false
  end.

(** The rows of [n] labelled positions over the given columns. *)
Fixpoint transpose (n : nat) (cols : list (list cell)) : list row :=
  match cols with
  | [] => replicate n []
  | c :: rest => zip_with cons c (transpose n rest)
  end.

Definition rows (df : DataFrame) : list row :=
  transpose (length (index df)) (map (fun cs => cells cs.2) (data df)).

(** [duplicated(keep='first')]: a row is marked when an earlier row
    holds the same values in every column. *)
Fixpoint duplicated_from (seen : list row) (rs : list row) : list bool :=
  match rs with
  | [] => []
  | r :: rest => existsb (row_eqb r) seen :: duplicated_from (r :: seen) rest
  end.

Definition duplicated (df : DataFrame) : list bool :=
  duplicated_from [] (rows df).

(** Boolean indexing: the entries of [l] whose mask bit is set. *)
Fixpoint take_mask {A : Type} (m : list bool) (l : list A) : list A :=
  match m, l with
  | b :: m', x :: l' => if b then x :: take_mask m' l' else take_mask m' l'
  | _, _ => []
  end.

Definition Series_take (m : list bool) (s : Series) : Series :=
  match s with
  | SInt v => SInt (take_mask m v)
  | SFloat v => SFloat (take_mask m v)
  | SBool v => SBool (take_mask m v)
  | SObject v => SObject (take_mask m v)
  | SDatetime v => SDatetime (take_mask m v)
  end.

(** [df.drop_duplicates(inplace=True)]: an empty frame is left as it is;
    otherwise the rows not marked by [duplicated] are kept, with their
    labels. *)
Definition drop_duplicates (df : DataFrame) : DataFrame :=
  if empty df then df
  else
    let keep := map negb (duplicated df) in
    {| index := take_mask keep (index df);
       data := map (fun cs => (cs.1, Series_take keep cs.2)) (data df) |}.

(** Every column is as long as the index. *)
Definition wf (df : DataFrame) : Prop :=
  Forall (fun cs => Series_len cs.2 = length (index df)) (data df).

End pd.

(* ===================================================================== *)
(** * utils/cleaning.py                                                   *)
(* ===================================================================== *)

Module cleaning.
Import pd.

Definition impute_entry (col : string) : string :=
  "df['" +:+ col +:+ "'].fillna(df['" +:+ col
    +:+ "'].mean(), inplace=True)  # Imputed missing values in '" +:+ col +:+ "'".

(** One turn of the loop over [numeric_cols]. *)
Definition impute_body (st : DataFrame * list string) (col : string)
    : DataFrame * list string :=
  let '(df, transformation_log) := st in
  match getitem df col with
  | Some s =>
      if (0 <? bool_sum (Series_isnull s))%nat then
        (update_col (Series_fillna (Series_mean s)) df col,
         transformation_log ++ [impute_entry col])
      else (df, transformation_log)
  | None => (df, transformation_log)
  end.

Definition impute_missing_values (df : DataFrame)
    (transformation_log : list string) : DataFrame * list string :=
  let numeric_cols := select_dtypes is_number df in
  fold_left impute_body numeric_cols (df, transformation_log).

Definition drop_entry (initial_shape final_shape : nat * nat) : string :=
  "df.drop_duplicates(inplace=True)  # Dropped duplicates. Shape from "
    +:+ Py.str_of_shape initial_shape +:+ " to " +:+ Py.str_of_shape final_shape.

Definition drop_duplicates (df : DataFrame)
    (transformation_log : list string) : DataFrame * list string :=
  let initial_shape := shape df in
  let df := pd.drop_duplicates df in
  (df, transformation_log ++ [drop_entry initial_shape (shape df)]).

End cleaning.

(* ===================================================================== *)
(** * utils/eda.py                                                        *)
(* ===================================================================== *)

Module eda.
Import pd.

Definition missing_message (col : string) (pct : float) : string :=
  "Column '" +:+ col +:+ "' has " +:+ Py.format_1f (PrimFloat.mul pct 100%float)
    +:+ "% missing values.".

Definition encoding_message (col : string) : string :=
  "Column '" +:+ col +:+ "' is categorical/text type and may need encoding.".

Definition datetime_message (col : string) : string :=
  "Column '" +:+ col +:+ "' is a datetime and may need feature engineering.".

Definition decision_tree_note : string :=
  "Decision Trees can handle both numerical and categorical data.".

Definition self_supervised_note : string :=
  "Self-supervised learning typically requires a large amount of unlabeled data.".

(** [df.isnull().mean().items()]. *)
Definition missing (df : DataFrame) : list (string * float) :=
  map (fun cs => (cs.1, bool_mean (Series_isnull cs.2))) (data df).

Definition missing_body (messages : list string) (item : string * float)
    : list string :=
  let '(col, pct) := item in
  if PrimFloat.ltb 0%float pct then messages ++ [missing_message col pct]
  else messages.

Definition dtype_body (messages : list string) (item : string * dtype)
    : list string :=
  let '(col, dt) := item in
  match dt with
  | object_ => messages ++ [encoding_message col]
  | datetime64_ns => messages ++ [datetime_message col]
  | _ => messages
  end.

Definition check_ml_readiness (df : DataFrame) (ml_task : string)
    : list string :=
  let messages := [] in
  let messages := fold_left missing_body (missing df) messages in
  let messages := fold_left dtype_body (dtypes df) messages in
  if String.eqb ml_task "Decision Tree" then
    messages ++ [decision_tree_note]
  else if String.eqb ml_task "Self-supervised Learning" then
    messages ++ [self_supervised_note]
  else messages.

(** [generate_eda_report]: the statistics table and the log handed to the
    template. The template engine and [describe(...).to_html(...)] are
    outside the repository; the template is the one the repository ships
    and [describe] has already run on the same frame earlier in [main]. *)
Section Report.
Variable describe_to_html : DataFrame -> string.
Variable template_render : string -> string -> list string -> string.

Definition generate_eda_report (df : DataFrame)
    (transformation_log : list string) : string :=
  let summary_html := describe_to_html df in
  template_render "EDA Report" summary_html transformation_log.
End Report.

End eda.

(* ===================================================================== *)
(** * The [os] module and utils/llm.py                                    *)
(* ===================================================================== *)

Module os.

(** The process environment. *)
Definition environ : Type := list (string * string).

Fixpoint getenv (env : environ) (key : string) : option string :=
  match env with
  | [] => None
  | (k, v) :: rest => if String.eqb k key then Some v else getenv rest key
  end.

(** Looking up, in the module [os], a name to call on a key. The module
    binds [getenv]; it binds no [get_env], and Python answers a name the
    module does not bind with AttributeError. *)
Definition getattr (name : string)
    : Py.result (environ -> string -> option string) :=
  if String.eqb name "getenv" then Return getenv
  else Raise (Py.AttributeError
                ("module 'os' has no attribute '" +:+ name +:+ "'")).

(** [os.path.join(dir, name)]. *)
Definition path_join (dir name : string) : string := dir +:+ "/" +:+ name.

End os.

Module llm.

Definition newline : string := String (ascii_of_nat 10) EmptyString.

Definition key_not_set : string :=
  "OpenAI API key not set. Please set the OPENAI_API_KEY environment variable.".

(** Python's [not x] on the value [os.getenv] gives back. *)
Definition falsy (v : option string) : bool :=
  match v with
  | None => true
  | Some s => String.eqb s ""
  end.

Section Service.
(** [client.chat.completions.create(model, messages, max_tokens, ...)]
    followed by [.choices[0].message.content]: the reply text, or the
    exception the client raised. *)
Variable chat_completion :
  string -> string -> string -> nat -> Py.result string.

Definition cleaning_prompt (data_summary ml_task : string) : string :=
  "Given the following data summary:" +:+ newline +:+ newline
    +:+ data_summary +:+ newline +:+ newline
    +:+ "What data cleaning steps would you recommend to prepare the data for a machine learning task?"
    +:+ "And given that the selected ML task is: " +:+ ml_task
    +:+ newline +:+ newline.

Definition get_cleaning_suggestions (env : os.environ)
    (data_summary ml_task : string) : Py.result string :=
  Py.bind (os.getattr "get_env") (fun get_env =>
  let openai_api_key := get_env env "OPEN_AI_KEY" in
  if falsy openai_api_key then Return key_not_set
  else
    let prompt := cleaning_prompt data_summary ml_task in
    match chat_completion (default "" openai_api_key) "gpt-3.5-turbo" prompt 150 with
    | Py.Return content => Return (Py.strip content)
    | Py.Raise e => Return ("Error fetching LLM suggestions: " +:+ Py.exn_str e)
    end).

Definition checks_prompt (data_summary ml_task : string) : string :=
  "Given the following data summary:" +:+ newline +:+ newline
    +:+ data_summary +:+ newline +:+ newline
    +:+ "And given that the selected ML task is: " +:+ ml_task
    +:+ newline +:+ newline
    +:+ "Please suggest additional visualizations or checks that should be performed to ensure the dataset is ready for the ML task. "
    +:+ "Provide complete, runnable Python code that defines a function named 'additional_checks(df)' which, when executed, produces these visualizations or checks. "
    +:+ "Include necessary imports (e.g., matplotlib and seaborn) and ensure the code is self-contained.".

Definition get_additional_checks (env : os.environ)
    (data_summary ml_task : string) : Py.result string :=
  Py.bind (os.getattr "get_env") (fun get_env =>
  let openai_api_key := get_env env "OPEN_AI_KEY" in
  if falsy openai_api_key then Return key_not_set
  else
    let prompt := checks_prompt data_summary ml_task in
    match chat_completion (default "" openai_api_key) "gpt-3.5-turbo" prompt 300 with
    | Py.Return code => Return (Py.strip code)
    | Py.Raise e => Return ("Error fetching additional checks: " +:+ Py.exn_str e)
    end).
End Service.

End llm.

(* ===================================================================== *)
(** * app.py                                                              *)
(* ===================================================================== *)

Module app.
Import pd.

(** What [main] shows to the user through [st.info], [st.warning],
    [st.error] and [st.success]. *)
Inductive ui_event : Type :=
| st_info (msg : string)
| st_warning (msg : string)
| st_error (msg : string)
| st_success (msg : string).

(** The file system as the exports see it: the files written so far, and
    for every path whether a write to it fails (with which message). *)
Record FS : Type := mkFS {
  files : string -> option string;
  write_error : string -> option string
}.

(** [with open(path, "w") as f: f.write(content)]. *)
Definition open_write (fs : FS) (path content : string) : Py.result FS :=
  match write_error fs path with
  | Some msg => Raise (Py.OSError msg)
  | None =>
      Return {| files := fun p => if String.eqb p path then Some content
                                  else files fs p;
                write_error := write_error fs |}
  end.

(** The objects a run of [main] works on: the frame [df] refers to, the
    module-level [transformation_log], the file system and the page. *)
Record session : Type := mkSession {
  df : DataFrame;
  transformation_log : list string;
  fs : FS;
  ui : list ui_event
}.

(** Statements of [main]: they change the session and either finish or
    raise; what was done before a raise stays done. *)
Definition M (A : Type) : Type := session -> Py.result A * session.

Definition ret {A} (a : A) : M A := fun s => (Return a, s).

Definition bind {A B} (m : M A) (k : A -> M B) : M B :=
  fun s =>
    match m s with
    | (Py.Return a, s') => k a s'
    | (Py.Raise e, s') => (Raise e, s')
    end.

Notation "x <- m ;; k" := (bind m (fun x => k))
  (at level 100, m at next level, right associativity).
Notation "m ;;; k" := (bind m (fun _ => k))
  (at level 100, right associativity).

Definition get_df : M DataFrame := fun s => (Return (df s), s).

Definition get_log : M (list string) :=
  fun s => (Return (transformation_log s), s).

Definition show (e : ui_event) : M unit :=
  fun s => (Return tt,
            {| df := df s; transformation_log := transformation_log s;
               fs := fs s; ui := ui s ++ [e] |}).

Definition write_file (path content : string) : M unit :=
  fun s =>
    match open_write (fs s) path content with
    | Py.Return fs' =>
        (Return tt,
         {| df := df s; transformation_log := transformation_log s;
            fs := fs'; ui := ui s |})
    | Py.Raise e => (Raise e, s)
    end.

Definition when (b : bool) (m : M unit) : M unit :=
  if b then m else ret tt.

(** [try: body except Exception as e: handler(e)]. *)
Definition try_except (body : M unit) (handler : Py.exn -> M unit) : M unit :=
  fun s =>
    match body s with
    | (Py.Return _, s') => (Return tt, s')
    | (Py.Raise e, s') => handler e s'
    end.

Definition script_header (generated_on : string) : list string :=
  [ "# Transformation Script";
    "# Generated on: " +:+ generated_on;
    "";
    "import pandas as pd";
    "";
    "def transform_data(df):";
    "    # Transformation steps applied" ].

(** The text [export_transformation_script] writes. *)
Definition script_content (generated_on : string) (log : list string) : string :=
  let script_lines := script_header generated_on in
  let script_lines :=
    fold_left (fun script_lines step => script_lines ++ ["    " +:+ step])
      log script_lines in
  let script_lines := script_lines ++ ["    return df"] in
  Py.join llm.newline script_lines.

(** ** Ingestion: lines 59-82 of [main] *)

(** The uploaded file: its bytes and the read position. *)
Record UploadedFile : Type := mkFile {
  content : string;
  pos : nat
}.

Fixpoint string_drop (n : nat) (s : string) : string :=
  match n, s with
  | S n', String _ s' => string_drop n' s'
  | _, _ => s
  end.

(** [uploaded_file.seek(n)]. *)
Definition seek (f : UploadedFile) (n : nat) : UploadedFile :=
  {| content := content f; pos := n |}.

(** [col in date_columns]. *)
Definition str_elem (col : string) (cols : list string) : bool :=
  existsb (String.eqb col) cols.

Definition is_date_like (col : string) : bool :=
  Py.str_in "date" (Py.lower col).

(** One turn of the loop that turns object columns into text. *)
Definition coerce_body (date_columns : list string) (df : DataFrame)
    (col : string) : DataFrame :=
  if negb (str_elem col date_columns) then
    match getitem df col with
    | Some s => setitem df col (Series_astype_str s)
    | None => df
    end
  else df.

Section Externals.
(** The clock and its formatting. *)
Variable datetime : Type.
Variable strftime : datetime -> string -> string.
(** [df.to_csv(index=False)] as text, and the two report collaborators. *)
Variable to_csv : DataFrame -> string.
Variable describe_to_html : DataFrame -> string.
Variable template_render : string -> string -> list string -> string.
(** Which buttons the user pressed for this run. *)
Variable button : string -> bool.
(** The CSV parser on the bytes it is given, with the [parse_dates] hint. *)
Variable parse_csv : string -> option (list string) -> Py.result DataFrame.

Definition export_transformation_script (now : datetime)
    (log : list string) : M string :=
  let text := script_content (strftime now "%Y-%m-%d %H:%M:%S") log in
  let export_path := os.path_join "export" "transformation_script.py" in
  write_file export_path text ;;;
  ret export_path.

Definition export_eda_report (now : datetime) (df : DataFrame)
    (log : list string) : M string :=
  let report_html :=
    eda.generate_eda_report describe_to_html template_render df log in
  let report_path :=
    os.path_join "export"
      ("eda_report_" +:+ strftime now "%Y%m%d_%H%M%S" +:+ ".html") in
  write_file report_path report_html ;;;
  ret report_path.

Definition export_csv (now : datetime) : M unit :=
  df <- get_df ;;
  let csv_export_path :=
    os.path_join "export"
      ("cleaned_data_" +:+ strftime now "%Y%m%d_%H%M%S" +:+ ".csv") in
  write_file csv_export_path (to_csv df) ;;;
  show (st_success ("Cleaned data exported to " +:+ csv_export_path)).

Definition export_script (now : datetime) : M unit :=
  log <- get_log ;;
  script_path <- export_transformation_script now log ;;
  show (st_success ("Transformation script exported to " +:+ script_path)).

Definition export_report (now : datetime) : M unit :=
  df <- get_df ;;
  log <- get_log ;;
  report_path <- export_eda_report now df log ;;
  show (st_success ("EDA report exported to " +:+ report_path)).

(** Lines 155-168 of [main]: the three export buttons, in order. *)
Definition export_options (t1 t2 t3 : datetime) : M unit :=
  when (button "Export Cleaned Data as CSV") (export_csv t1) ;;;
  when (button "Export Transformation Script") (export_script t2) ;;;
  when (button "Export EDA Report (HTML)") (export_report t3).

(** The handler of [main]'s [try] (lines 170-172). *)
Definition main_handler (e : Py.exn) : M unit :=
  show (st_error ("Error reading the CSV file: " +:+ Py.exn_str e)).

(** The export section of [main] under its [try]/[except]. *)
Definition main_exports (t1 t2 t3 : datetime) : M unit :=
  try_except (export_options t1 t2 t3) main_handler.

(** [pd.read_csv(uploaded_file, parse_dates=...)]: parses what is left
    from the read position and leaves the position at the end. *)
Definition read_csv (f : UploadedFile) (parse_dates : option (list string))
    : Py.result DataFrame * UploadedFile :=
  (parse_csv (string_drop (pos f) (content f)) parse_dates,
   {| content := content f; pos := String.length (content f) |}).

(** Lines 61-82 of [main]: the result, the file afterwards and the
    notices shown. *)
Definition ingest (uploaded_file : UploadedFile)
    : Py.result DataFrame * UploadedFile * list ui_event :=
  let '(r, uploaded_file) := read_csv uploaded_file None in
  match r with
  | Py.Raise e => (Raise e, uploaded_file, [])
  | Py.Return df =>
      let uploaded_file := seek uploaded_file 0 in
      let date_columns := List.filter is_date_like (columns df) in
      let '(r, uploaded_file, notice) :=
        match date_columns with
        | _ :: _ =>
            let '(r, f) := read_csv uploaded_file (Some date_columns) in
            (r, f, st_info ("Date parsing applied to columns: "
                              +:+ Py.join ", " date_columns))
        | [] =>
            let '(r, f) := read_csv uploaded_file None in
            (r, f, st_warning "No date columns detected in the dataset")
        end in
      match r with
      | Py.Raise e => (Raise e, uploaded_file, [])
      | Py.Return df =>
          let df :=
            fold_left (coerce_body date_columns)
              (select_dtypes is_object df) df in
          (Return df, uploaded_file, [notice])
      end
  end.
End Externals.

End app.

(* ===================================================================== *)
(** * The specification's notions, stated on the model                    *)
(* ===================================================================== *)

Module Spec.
Import pd.

(** "A numeric column with at least one missing value." *)
Definition needs_imputation (s : Series) : bool :=
  is_number (Series_dtype s) && (0 <? bool_sum (Series_isnull s))%nat.

(** What imputation makes of one column. *)
Definition imputed (s : Series) : Series :=
  if needs_imputation s then Series_fillna (Series_mean s) s else s.

(** The labels of the columns imputation affects, in column order. *)
Definition affected (df : DataFrame) : list string :=
  map fst (List.filter (fun cs => needs_imputation cs.2) (data df)).

(** "Row [i] is an exact duplicate of an earlier row across all columns." *)
Definition duplicate_of_earlier (rs : list row) (i : nat) : Prop :=
  exists j r r',
    (j < i)%nat /\ rs !! j = Some r /\ rs !! i = Some r' /\ row_eqb r' r = true.

(** [s] contains [sub] as a substring. *)
Definition contains (s sub : string) : Prop :=
  exists pre post, s = pre +:+ sub +:+ post.

(** The cleaning actions a user can trigger, and a run of them. *)
Inductive action : Type := Impute | DropDuplicates.

Definition apply_action (st : DataFrame * list string) (a : action)
    : DataFrame * list string :=
  match a with
  | Impute => cleaning.impute_missing_values st.1 st.2
  | DropDuplicates => cleaning.drop_duplicates st.1 st.2
  end.

Definition run (acts : list action) (st : DataFrame * list string)
    : DataFrame * list string :=
  fold_left apply_action acts st.

(** The entries one action appends when it starts from the frame [df]. *)
Definition entries_of (a : action) (df : DataFrame) : list string :=
  match a with
  | Impute => map cleaning.impute_entry (affected df)
  | DropDuplicates =>
      [cleaning.drop_entry (shape df) (shape (pd.drop_duplicates df))]
  end.

(** The entries of a whole run, action after action. *)
Fixpoint entries_of_run (acts : list action) (df : DataFrame) : list string :=
  match acts with
  | [] => []
  | a :: rest =>
      entries_of a df ++ entries_of_run rest (apply_action (df, []) a).1
  end.

(** The readiness message of one column's missing fraction, of one
    column's dtype, and of the task. *)
Definition missing_note (item : string * float) : list string :=
  if PrimFloat.ltb 0%float item.2 then [eda.missing_message item.1 item.2]
  else [].

Definition dtype_note (item : string * dtype) : list string :=
  match item.2 with
  | object_ => [eda.encoding_message item.1]
  | datetime64_ns => [eda.datetime_message item.1]
  | _ => []
  end.

Definition task_note (ml_task : string) : list string :=
  if String.eqb ml_task "Decision Tree" then [eda.decision_tree_note]
  else if String.eqb ml_task "Self-supervised Learning"
       then [eda.self_supervised_note]
       else [].

(** The messages about the columns, whatever the task. *)
Definition column_notes (df : DataFrame) : list string :=
  flat_map missing_note (eda.missing df) ++ flat_map dtype_note (dtypes df).

(** The lines of the exported script. *)
Definition script_lines (generated_on : string) (log : list string)
    : list string :=
  app.script_header generated_on
    ++ map (fun step => "    " +:+ step) log ++ ["    return df"].

(** What ingestion makes of one column of the second parse. *)
Definition coerced (date_columns : list string) (cs : string * Series)
    : string * Series :=
  if is_object (Series_dtype cs.2) && negb (app.str_elem cs.1 date_columns)
  then (cs.1, Series_astype_str cs.2)
  else cs.

(** Every cell of the column is text. *)
Definition all_text (s : Series) : Prop :=
  match s with
  | SObject v => Forall (fun o => exists t, o = PStr t) v
  | _ => False
  end.

(** A statement of [main] that leaves the frame and the log as they
    are, does not change which writes fail, and raises nothing but the
    OSError of a write that fails. *)
Definition export_like {A : Type} (m : app.M A) : Prop :=
  forall s : app.session,
    app.df (m s).2 = app.df s
    /\ app.transformation_log (m s).2 = app.transformation_log s
    /\ app.write_error (app.fs (m s).2) = app.write_error (app.fs s)
    /\ (forall e, (m s).1 = Raise e ->
          exists path msg,
            e = Py.OSError msg /\ app.write_error (app.fs s) path = Some msg).

(** Imputation called [n] times in a row. *)
Fixpoint impute_times (n : nat) (st : DataFrame * list string)
    : DataFrame * list string :=
  match n with
  | O => st
  | S n' =>
      let '(df, log) := impute_times n' st in
      cleaning.impute_missing_values df log
  end.

End Spec.

(* ===================================================================== *)
(** * Sample frames                                                       *)
(* ===================================================================== *)

Module Samples.
Import pd.

(** [id,value,date_created] with [value] missing in two rows; rows 1 and
    2 hold the same values. *)
Definition orders : DataFrame :=
  {| index := [0; 1; 2; 3]%Z;
     data := [ ("id", SInt [1; 2; 2; 4]%Z);
               ("value", SFloat [10%float; nan; nan; 30%float]);
               ("date_created", SDatetime [Some 1; Some 2; Some 2; None]%Z) ] |}.

(** A frame with nothing missing. *)
Definition complete : DataFrame :=
  {| index := [0; 1]%Z;
     data := [ ("id", SInt [1; 2]%Z); ("value", SFloat [1.5%float; 2.5%float]) ] |}.


(** [score] has no value at all. *)
Definition blank : DataFrame :=
  {| index := [0; 1]%Z;
     data := [ ("id", SInt [1; 2]%Z); ("score", SFloat [nan; nan]) ] |}.



(** An upload of three columns, and a parser that knows this one file:
    it reads [Created_Date] as timestamps when told to, as text otherwise;
    [note] mixes a number, text and an empty field. *)
Definition upload_text : string :=
  "id,note,Created_Date
1,7,2024-01-01
2,ok,2024-01-02
3,,2024-01-03".

Definition upload_raw : DataFrame :=
  {| index := [0; 1; 2]%Z;
     data := [ ("id", SInt [1; 2; 3]%Z);
               ("note", SObject [PStr "7"; PStr "ok"; PNaN]);
               ("Created_Date",
                SObject [PStr "2024-01-01"; PStr "2024-01-02"; PStr "2024-01-03"]) ] |}.

Definition upload_dated : DataFrame :=
  {| index := [0; 1; 2]%Z;
     data := [ ("id", SInt [1; 2; 3]%Z);
               ("note", SObject [PStr "7"; PStr "ok"; PNaN]);
               ("Created_Date", SDatetime [Some 19723; Some 19724; Some 19725]%Z) ] |}.

Definition upload_parser (bytes : string) (parse_dates : option (list string))
    : Py.result DataFrame :=
  if String.eqb bytes upload_text then
    match parse_dates with
    | Some ["Created_Date"] => Return upload_dated
    | _ => Return upload_raw
    end
  else Raise (Py.Exception "Error tokenizing data").

End Samples.

(* ===================================================================== *)
(** * utils/eda.py: the missing-data plot                                 *)
(* ===================================================================== *)

Module plots.
Import pd.

(** [df.isnull().sum()]: for every column, how many cells are missing. *)
Definition missing_counts (df : DataFrame) : list (string * nat) :=
  map (fun cs => (cs.1, bool_sum (Series_isnull cs.2))) (data df).

Section Figure.
(** The plotting backend: the figure of a bar plot over the labels [x] and
    the heights [y], with the title, axis label and tick rotation that
    [generate_missing_data_plot] sets. *)
Variable figure : Type.
Variable barplot : list string -> list nat -> figure.

Definition generate_missing_data_plot (df : DataFrame) : figure :=
  let missing_counts := missing_counts df in
  barplot (map fst missing_counts) (map snd missing_counts).
End Figure.

End plots.

(* ===================================================================== *)
(** * app.py: a run of [main]                                             *)
(* ===================================================================== *)

Module main.
Import pd.

(** What a run of [main] works on once a frame is loaded: the session of
    the export section, and [st.session_state.llm_code] ([None]: the key
    is not in the session state). Calls that only draw on the page
    ([st.title], [st.subheader], [st.dataframe], [st.write], [st.pyplot],
    [st.code]) change none of it; they are taken to return and are left
    out. *)
Record page : Type := mkPage {
  session : app.session;
  llm_code : option (option string)
}.

Definition P (A : Type) : Type := page -> Py.result A * page.

Definition ret {A} (a : A) : P A := fun p => (Return a, p).

Definition bind {A B} (m : P A) (k : A -> P B) : P B :=
  fun p =>
    match m p with
    | (Py.Return a, p') => k a p'
    | (Py.Raise e, p') => (Raise e, p')
    end.

Notation "x <- m ;; k" := (bind m (fun x => k))
  (at level 100, m at next level, right associativity).
Notation "m ;;; k" := (bind m (fun _ => k))
  (at level 100, right associativity).

(** A statement of the export section, run on the page's session. *)
Definition lift {A} (m : app.M A) : P A :=
  fun p =>
    let '(r, s) := m (session p) in
    (r, {| session := s; llm_code := llm_code p |}).

(** A call that returns or raises and touches nothing of the page. *)
Definition call {A} (r : Py.result A) : P A := fun p => (r, p).

Definition when (b : bool) (m : P unit) : P unit :=
  if b then m else ret tt.

Fixpoint for_each {A} (f : A -> P unit) (l : list A) : P unit :=
  match l with
  | [] => ret tt
  | x :: rest => f x ;;; for_each f rest
  end.

Definition try_except (body : P unit) (handler : Py.exn -> P unit) : P unit :=
  fun p =>
    match body p with
    | (Py.Return _, p') => (Return tt, p')
    | (Py.Raise e, p') => handler e p'
    end.

Definition st_info (msg : string) : P unit := lift (app.show (app.st_info msg)).
Definition st_error (msg : string) : P unit := lift (app.show (app.st_error msg)).
Definition st_success (msg : string) : P unit :=
  lift (app.show (app.st_success msg)).

Definition get_df : P DataFrame := lift app.get_df.

(** [df = op(df, transformation_log)] for a cleaning operation [op]. *)
Definition clean (op : DataFrame -> list string -> DataFrame * list string)
    : P unit :=
  fun p =>
    let s := session p in
    let '(df, log) := op (app.df s) (app.transformation_log s) in
    (Return tt,
     {| session := {| app.df := df; app.transformation_log := log;
                      app.fs := app.fs s; app.ui := app.ui s |};
        llm_code := llm_code p |}).

(** [if 'llm_code' not in st.session_state: st.session_state.llm_code = None]. *)
Definition init_llm_code (code : option (option string))
    : option (option string) :=
  match code with
  | None => Some None
  | Some v => Some v
  end.

(** [st.session_state.llm_code = code]. *)
Definition set_llm_code (code : string) : P unit :=
  fun p => (Return tt, {| session := session p; llm_code := Some (Some code) |}).

(** Python's truth value of [st.session_state.llm_code]. *)
Definition truthy (code : option (option string)) : bool :=
  match code with
  | Some (Some s) => negb (String.eqb s "")
  | _ => false
  end.

Definition code_text (code : option (option string)) : string :=
  match code with
  | Some (Some s) => s
  | _ => ""
  end.

(** What the rest of the process keeps between two statements of [main]
    that are not about a loaded frame. *)
Record world : Type := mkWorld {
  transformation_log : list string;
  fs : app.FS;
  ui : list app.ui_event;
  session_code : option (option string)
}.

Section Externals.
(** The sidebar: the selected task, the ticked boxes, the pressed buttons. *)
Variable ml_task : string.
Variable checkbox : string -> bool.
Variable button : string -> bool.
(** The process environment and the text-generation service. *)
Variable env : os.environ.
Variable chat_completion :
  string -> string -> string -> nat -> Py.result string.
(** [eda.generate_summary(df)], as the text its [to_string()] gives where
    the code asks for it; [describe] raises on a frame it cannot describe
    (one without columns). *)
Variable generate_summary : DataFrame -> Py.result string.
(** [exec(code_str, local_namespace)]: it raises, or gives the namespace's
    [additional_checks] if the code defines one; calling that on the frame
    may change the frame and may raise. *)
Variable exec_code :
  string -> Py.result (option (DataFrame -> Py.result unit * DataFrame)).
(** The collaborators of ingestion and of the exports. *)
Variable datetime : Type.
Variable strftime : datetime -> string -> string.
Variable to_csv : DataFrame -> string.
Variable describe_to_html : DataFrame -> string.
Variable template_render : string -> string -> list string -> string.
Variable parse_csv : string -> option (list string) -> Py.result DataFrame.

(** [local_namespace['additional_checks'](df)]. *)
Definition call_checks
    (additional_checks : DataFrame -> Py.result unit * DataFrame) : P unit :=
  fun p =>
    let s := session p in
    let '(r, df) := additional_checks (app.df s) in
    (r, {| session := {| app.df := df;
                         app.transformation_log := app.transformation_log s;
                         app.fs := app.fs s; app.ui := app.ui s |};
           llm_code := llm_code p |}).

(** Lines 139-153: the button that runs the generated code. *)
Definition run_additional_checks : P unit :=
  fun p =>
    if truthy (llm_code p) then
      let code_str := code_text (llm_code p) in
      try_except
        (local_namespace <- call (exec_code code_str) ;;
         match local_namespace with
         | Some additional_checks =>
             st_info "Running additional_checks..." ;;;
             call_checks additional_checks
         | None =>
             st_error "The provided code does not define a function named 'additional_checks'."
         end)
        (fun e =>
           st_error ("Error executing the additional checks code: "
                       +:+ Py.exn_str e))
        p
    else
      st_error "No additional checks code available. Please click 'Get Additional Checks Suggestions' first." p.

(** Lines 84-168 of [main]: everything between ingestion and the end of
    the [try], on the loaded frame. *)
Definition analysis (t1 t2 t3 : datetime) : P unit :=
  df <- get_df ;;
  summary <- call (generate_summary df) ;;
  for_each st_info (eda.check_ml_readiness df ml_task) ;;;
  when (button "Get LLM Cleaning Suggestions")
    (suggestion <- call (llm.get_cleaning_suggestions chat_completion env
                           summary ml_task) ;;
     ret tt) ;;;
  when (checkbox "Impute Missing Values")
    (clean cleaning.impute_missing_values ;;;
     st_success "Missing values imputed using column means.") ;;;
  when (checkbox "Drop Duplicate Rows")
    (clean cleaning.drop_duplicates ;;;
     st_success "Duplicate rows dropped.") ;;;
  df <- get_df ;;
  updated_summary <- call (generate_summary df) ;;
  for_each st_info (eda.check_ml_readiness df ml_task) ;;;
  when (button "Get Additional Checks Suggestions")
    (additional_code <- call (llm.get_additional_checks chat_completion env
                                summary ml_task) ;;
     set_llm_code additional_code) ;;;
  when (button "Run Additional Checks Code") run_additional_checks ;;;
  lift (app.export_options datetime strftime to_csv describe_to_html
          template_render button t1 t2 t3).

(** The handler of [main]'s [try]. *)
Definition handler (e : Py.exn) : P unit :=
  st_error ("Error reading the CSV file: " +:+ Py.exn_str e).

Definition world_of (p : page) : world :=
  {| transformation_log := app.transformation_log (session p);
     fs := app.fs (session p);
     ui := app.ui (session p);
     session_code := llm_code p |}.

(** [main()]: the session state is initialised; with an upload, the file
    is ingested and analysed under one [try]; what the run leaves behind
    is the world and the file. *)
Definition main (uploaded_file : option app.UploadedFile)
    (t1 t2 t3 : datetime) (w : world) : world * option app.UploadedFile :=
  let code := init_llm_code (session_code w) in
  match uploaded_file with
  | None =>
      ({| transformation_log := transformation_log w; fs := fs w; ui := ui w;
          session_code := code |}, None)
  | Some f =>
      match app.ingest parse_csv f with
      | (Py.Raise e, f', notices) =>
          ({| transformation_log := transformation_log w; fs := fs w;
              ui := ui w ++ notices
                      ++ [app.st_error ("Error reading the CSV file: "
                                          +:+ Py.exn_str e)];
              session_code := code |}, Some f')
      | (Py.Return df, f', notices) =>
          let p := {| session := {| app.df := df;
                                    app.transformation_log := transformation_log w;
                                    app.fs := fs w;
                                    app.ui := ui w ++ notices |};
                      llm_code := code |} in
          (world_of (try_except (analysis t1 t2 t3) handler p).2, Some f')
      end
  end.
End Externals.

End main.

(* ===================================================================== *)
(** * Further notions                                                     *)
(* ===================================================================== *)

Module Notions.
Import pd.

(** No character of [s] is a line feed. *)
Fixpoint single_line (s : string) : Prop :=
  match s with
  | EmptyString => True
  | String c s' => c <> ascii_of_nat 10 /\ single_line s'
  end.

(** A statement of [main] that changes files only at paths in [paths]. *)
Definition writes_within {A : Type} (paths : list string) (m : app.M A) : Prop :=
  forall (s : app.session) (p : string),
    ~ In p paths ->
    app.files (app.fs (m s).2) p = app.files (app.fs s) p.

(** [session_state.llm_code] holds no code to run. *)
Definition no_code (code : option (option string)) : Prop :=
  main.truthy code = false.

(** The frame and the log after the cleaning options ticked in the
    sidebar: imputation first, duplicate removal second. *)
Definition cleaned (checkbox : string -> bool) (df : DataFrame)
    (log : list string) : DataFrame * list string :=
  let '(df, log) :=
    if checkbox "Impute Missing Values"
    then cleaning.impute_missing_values df log else (df, log) in
  if checkbox "Drop Duplicate Rows"
  then cleaning.drop_duplicates df log else (df, log).

Definition cleaning_notices (checkbox : string -> bool) : list app.ui_event :=
  (if checkbox "Impute Missing Values"
   then [app.st_success "Missing values imputed using column means."]
   else [])
  ++ (if checkbox "Drop Duplicate Rows"
      then [app.st_success "Duplicate rows dropped."] else []).

(** A statement of [main] that only adds to what the page shows. *)
Definition shows_more {A : Type} (m : app.M A) : Prop :=
  forall s : app.session,
    exists events, app.ui (m s).2 = app.ui s ++ events.

(** What a step may do to a page that holds no code: it leaves the
    session's code as it is, only appends to the log and to what is
    shown, and changes files at [paths] only. *)
Definition gentle (paths : list string) (p p' : main.page) : Prop :=
  no_code (main.llm_code p) ->
  main.llm_code p' = main.llm_code p
  /\ (exists more,
        app.transformation_log (main.session p')
        = app.transformation_log (main.session p) ++ more)
  /\ (exists events,
        app.ui (main.session p') = app.ui (main.session p) ++ events)
  /\ (forall path, ~ In path paths ->
        app.files (app.fs (main.session p')) path
        = app.files (app.fs (main.session p)) path).

Definition stays_gentle {A : Type} (paths : list string) (m : main.P A) : Prop :=
  forall p, gentle paths p (m p).2.

(** Two steps that do the same on every page that holds no code. *)
Definition same_without_code {A : Type} (m1 m2 : main.P A) : Prop :=
  forall p, no_code (main.llm_code p) -> m1 p = m2 p.

End Notions.

(* ===================================================================== *)
(** * A session to run [main] on                                          *)
(* ===================================================================== *)

Module Scenario.

(** A process that has logged, written and shown nothing, with no
    [llm_code] in its session state. *)
Definition fresh : main.world :=
  {| main.transformation_log := [];
     main.fs := app.mkFS (fun _ => None) (fun _ => None);
     main.ui := [];
     main.session_code := None |}.

(** An upload that parses to [Samples.orders], whose only date-like
    column is already a datetime column. *)
Definition orders_file : app.UploadedFile :=
  app.mkFile "id,value,date_created" 0.

Definition orders_parser (bytes : string) (parse_dates : option (list string))
    : Py.result pd.DataFrame :=
  Return Samples.orders.

(** One run of [main] on that upload for the task "Other", with both
    cleaning boxes ticked and the buttons [button] pressed; [exec_code]
    finds no function in the code it is given. *)
Definition run_with
    (exec_code :
       string ->
       Py.result (option (pd.DataFrame -> Py.result unit * pd.DataFrame)))
    (button : string -> bool) (w : main.world)
    : main.world * option app.UploadedFile :=
  main.main "Other" (fun _ => true) button [] (fun _ _ _ _ => Return "")
    (fun _ => Return "summary") exec_code unit
    (fun _ _ => "20240501_100000") (fun _ => "csv") (fun _ => "<table>")
    (fun _ _ _ => "<html>") orders_parser (Some orders_file) tt tt tt w.

Definition run (button : string -> bool) : main.world * option app.UploadedFile :=
  run_with (fun _ => Return None) button fresh.

End Scenario.

(* ===================================================================== *)
(** * The model on small inputs                                           *)
(* ===================================================================== *)

Example format_1f_half : Py.format_1f (0.5 * 100)%float = "50.0".
Proof. vm_compute. reflexivity. Qed.

Example format_1f_third :
  Py.format_1f (pd.bool_mean [true; false; false] * 100)%float = "33.3".
Proof. vm_compute. reflexivity. Qed.

Example format_1f_tie_to_even : Py.format_1f 0.25%float = "0.2".
Proof. vm_compute. reflexivity. Qed.

Example format_1f_large : Py.format_1f 123456.75%float = "123456.8".
Proof. vm_compute. reflexivity. Qed.

Example is_date_like_mixed_case : app.is_date_like "Last_UpDATE" = true.
Proof. vm_compute. reflexivity. Qed.

Example is_date_like_no : app.is_date_like "value" = false.
Proof. vm_compute. reflexivity. Qed.

Example impute_orders :
  cleaning.impute_missing_values Samples.orders []
  = ({| pd.index := [0; 1; 2; 3]%Z;
        pd.data :=
          [ ("id", pd.SInt [1; 2; 2; 4]%Z);
            ("value", pd.SFloat [10%float; 20%float; 20%float; 30%float]);
            ("date_created", pd.SDatetime [Some 1; Some 2; Some 2; None]%Z) ] |},
     ["df['value'].fillna(df['value'].mean(), inplace=True)  # Imputed missing values in 'value'"]).
Proof. vm_compute. reflexivity. Qed.

Example drop_duplicates_orders :
  cleaning.drop_duplicates Samples.orders []
  = ({| pd.index := [0; 1; 3]%Z;
        pd.data :=
          [ ("id", pd.SInt [1; 2; 4]%Z);
            ("value", pd.SFloat [10%float; nan; 30%float]);
            ("date_created", pd.SDatetime [Some 1; Some 2; None]%Z) ] |},
     ["df.drop_duplicates(inplace=True)  # Dropped duplicates. Shape from (4, 3) to (3, 3)"]).
Proof. vm_compute. reflexivity. Qed.

Example mean_of_infinities :
  pd.Series_mean (pd.SFloat [infinity; neg_infinity; nan]) = nan.
Proof. vm_compute. reflexivity. Qed.

Example readiness_orders :
  eda.check_ml_readiness Samples.orders "Decision Tree"
  = [ "Column 'value' has 50.0% missing values.";
      "Column 'date_created' has 25.0% missing values.";
      "Column 'date_created' is a datetime and may need feature engineering.";
      "Decision Trees can handle both numerical and categorical data." ].
Proof. vm_compute. reflexivity. Qed.

(* ===================================================================== *)
(** * Lists, association lists and masks                                  *)
(* ===================================================================== *)

Section ListFacts.
Context {A B : Type}.

(** A loop that only appends to its accumulator. *)
Lemma fold_left_snoc_flat (f : list A -> B -> list A) (g : B -> list A)
    (l : list B) (acc : list A) :
  (forall acc x, f acc x = acc ++ g x) ->
  fold_left f l acc = acc ++ flat_map g l.
Proof.
  intros Hf. revert acc. induction l as [|x l IH]; intros acc; simpl.
  - by rewrite app_nil_r.
  - by rewrite IH, Hf, <- app_assoc.
Qed.

Lemma take_mask_map (f : A -> B) (m : list bool) (l : list A) :
  pd.take_mask m (map f l) = map f (pd.take_mask m l).
Proof.
  revert l. induction m as [|b m IH]; intros [|x l]; simpl; try done.
  destruct b; simpl; by rewrite IH.
Qed.

Lemma take_mask_length_same (m : list bool) (l1 : list A) (l2 : list B) :
  length l1 = length l2 ->
  length (pd.take_mask m l1) = length (pd.take_mask m l2).
Proof.
  revert l1 l2. induction m as [|b m IH]; intros [|x l1] [|y l2] H;
    simpl in *; try done.
  injection H as H. destruct b; simpl; auto.
Qed.

Lemma take_mask_sublist (m : list bool) (l : list A) :
  sublist (pd.take_mask m l) l.
Proof.
  revert l. induction m as [|b m IH]; intros [|x l]; simpl;
    try apply sublist_nil_l.
  destruct b; [apply sublist_skip | apply sublist_cons]; apply IH.
Qed.

Lemma take_mask_all_true (m : list bool) (l : list A) :
  Forall (fun b => b = true) m -> (length l <= length m)%nat ->
  pd.take_mask m l = l.
Proof.
  intros Hm. revert l. induction Hm as [|b m Hb Hm IH]; intros [|x l] Hl;
    simpl in *; try done; try lia.
  subst b. f_equal. apply IH. lia.
Qed.

End ListFacts.

Lemma lookup_app_plus {A : Type} (l1 l2 : list A) (i : nat) :
  (l1 ++ l2) !! (length l1 + i)%nat = l2 !! i.
Proof. induction l1 as [|x l1 IH]; simpl; auto. Qed.

Lemma take_mask_zip_with {A B C : Type} (f : A -> B -> C) (m : list bool)
    (l1 : list A) (l2 : list B) :
  pd.take_mask m (zip_with f l1 l2)
  = zip_with f (pd.take_mask m l1) (pd.take_mask m l2).
Proof.
  revert l1 l2. induction m as [|b m IH]; intros [|x l1] [|y l2]; simpl;
    try done.
  - destruct b; simpl; [done|]. by destruct (pd.take_mask m l1).
  - destruct b; simpl; by rewrite IH.
Qed.

Lemma take_mask_replicate {A : Type} (m : list bool) (n : nat) (x : A) :
  pd.take_mask m (replicate n x)
  = replicate (length (pd.take_mask m (replicate n x))) x.
Proof.
  revert n. induction m as [|b m IH]; intros [|n]; simpl; try done.
  destruct b; simpl; by rewrite <- IH.
Qed.

(* ===================================================================== *)
(** * Rows, masks and duplicates                                          *)
(* ===================================================================== *)

Lemma cells_length (s : pd.Series) : length (pd.cells s) = pd.Series_len s.
Proof. destruct s; simpl; apply length_map. Qed.

Lemma cells_take (m : list bool) (s : pd.Series) :
  pd.cells (pd.Series_take m s) = pd.take_mask m (pd.cells s).
Proof. destruct s; simpl; by rewrite take_mask_map. Qed.

Lemma transpose_length (n : nat) (cols : list (list pd.cell)) :
  Forall (fun c => length c = n) cols -> length (pd.transpose n cols) = n.
Proof.
  induction 1 as [|c cols Hc _ IH]; simpl.
  - apply length_replicate.
  - rewrite length_zip_with, IH, Hc. lia.
Qed.

Lemma transpose_take_mask (m : list bool) (n : nat) (cols : list (list pd.cell)) :
  pd.take_mask m (pd.transpose n cols)
  = pd.transpose (length (pd.take_mask m (replicate n tt)))
      (map (pd.take_mask m) cols).
Proof.
  induction cols as [|c cols IH]; simpl.
  - rewrite take_mask_replicate. f_equal.
    apply take_mask_length_same. by rewrite !length_replicate.
  - by rewrite take_mask_zip_with, IH.
Qed.

Lemma rows_length (df : pd.DataFrame) :
  pd.wf df -> length (pd.rows df) = length (pd.index df).
Proof.
  intros Hwf. unfold pd.rows. apply transpose_length.
  rewrite Forall_map. eapply Forall_impl; [exact Hwf|].
  intros [c s] H; simpl in *. by rewrite cells_length.
Qed.

Lemma duplicated_from_length (seen rs : list pd.row) :
  length (pd.duplicated_from seen rs) = length rs.
Proof.
  revert seen. induction rs as [|r rs IH]; intros seen; simpl; [done|].
  by rewrite IH.
Qed.

Lemma duplicated_from_lookup (seen rs : list pd.row) (i : nat) (r : pd.row) :
  rs !! i = Some r ->
  pd.duplicated_from seen rs !! i
  = Some (existsb (pd.row_eqb r) (rev (take i rs) ++ seen)).
Proof.
  revert seen i. induction rs as [|r0 rs IH]; intros seen [|i] H;
    simpl in *; try done.
  - by injection H as ->.
  - rewrite (IH _ _ H). by rewrite <- app_assoc.
Qed.

Lemma existsb_earlier (rs : list pd.row) (i : nat) (r : pd.row) :
  rs !! i = Some r ->
  existsb (pd.row_eqb r) (rev (take i rs)) = true
  <-> Spec.duplicate_of_earlier rs i.
Proof.
  intros Hi. rewrite existsb_exists. split.
  - intros (r0 & Hin & Heq). apply in_rev, list_elem_of_In in Hin.
    apply list_elem_of_lookup in Hin as [j Hj].
    apply lookup_take_Some in Hj as [Hj Hlt].
    exists j, r0, r. auto.
  - intros (j & r0 & r' & Hlt & Hj & Hi' & Heq).
    rewrite Hi in Hi'. injection Hi' as <-.
    exists r0. split; [|done].
    rewrite <- in_rev. apply list_elem_of_In, list_elem_of_lookup.
    exists j. by rewrite lookup_take_lt.
Qed.

(** The mask of [duplicated] marks exactly the duplicates of an earlier row. *)
Lemma duplicated_from_nil_spec (rs : list pd.row) (i : nat) :
  pd.duplicated_from [] rs !! i = Some true
  <-> Spec.duplicate_of_earlier rs i.
Proof.
  destruct (rs !! i) as [r|] eqn:Hi.
  - rewrite (duplicated_from_lookup _ _ _ _ Hi), app_nil_r.
    rewrite <- (existsb_earlier _ _ _ Hi). split; [by intros [= ->]|by intros ->].
  - split.
    + intros H. apply lookup_lt_Some in H. apply lookup_ge_None in Hi.
      rewrite duplicated_from_length in H. lia.
    + intros (j & r0 & r' & _ & _ & Hi' & _). congruence.
Qed.

Lemma existsb_false_incl {X : Type} (p : X -> bool) (l l' : list X) :
  (forall x, In x l -> In x l') -> existsb p l' = false -> existsb p l = false.
Proof.
  intros Hincl H. apply not_true_is_false. intros Ht.
  apply existsb_exists in Ht as (x & Hx & Hp).
  assert (existsb p l' = true) by (apply existsb_exists; eauto). congruence.
Qed.

(** Among the rows [duplicated] keeps, none is marked again. *)
Lemma duplicated_from_kept (seen seen' rs : list pd.row) :
  (forall r, In r seen' -> In r seen) ->
  Forall (fun b => b = false)
    (pd.duplicated_from seen'
       (pd.take_mask (map negb (pd.duplicated_from seen rs)) rs)).
Proof.
  revert seen seen'. induction rs as [|r rs IH]; intros seen seen' Hincl;
    simpl; [constructor|].
  destruct (existsb (pd.row_eqb r) seen) eqn:Hr; simpl.
  - apply IH. intros r0 Hr0. right. auto.
  - constructor.
    + by apply (existsb_false_incl _ seen' seen).
    + apply IH. intros r0 [->|Hr0]; [by left|right; auto].
Qed.

Lemma wf_drop_duplicates (df : pd.DataFrame) :
  pd.wf df -> pd.wf (pd.drop_duplicates df).
Proof.
  intros Hwf. unfold pd.drop_duplicates. destruct (pd.empty df); [done|].
  unfold pd.wf in *; simpl. rewrite Forall_map.
  eapply Forall_impl; [exact Hwf|]. intros [c s] H; simpl in *.
  rewrite <- cells_length, cells_take.
  apply take_mask_length_same. by rewrite cells_length.
Qed.

Lemma rows_drop_duplicates (df : pd.DataFrame) :
  pd.empty df = false ->
  pd.rows (pd.drop_duplicates df)
  = pd.take_mask (map negb (pd.duplicated df)) (pd.rows df).
Proof.
  intros He. unfold pd.drop_duplicates. rewrite He.
  unfold pd.rows at 1; simpl.
  unfold pd.rows. rewrite transpose_take_mask.
  f_equal.
  - apply take_mask_length_same. by rewrite length_replicate.
  - rewrite !map_map. apply map_ext. intros [c s]; simpl. apply cells_take.
Qed.

Lemma Series_take_all (m : list bool) (s : pd.Series) :
  Forall (fun b => b = true) m -> (pd.Series_len s <= length m)%nat ->
  pd.Series_take m s = s.
Proof.
  intros Hm Hl. destruct s; simpl in *; f_equal; by apply take_mask_all_true.
Qed.

(** [drop_duplicates] on a frame is idempotent. *)
Lemma pd_drop_duplicates_idem (df : pd.DataFrame) :
  pd.wf df ->
  pd.drop_duplicates (pd.drop_duplicates df) = pd.drop_duplicates df.
Proof.
  intros Hwf.
  destruct (pd.empty df) eqn:He.
  { unfold pd.drop_duplicates. by rewrite He, He. }
  pose proof (wf_drop_duplicates _ Hwf) as Hwf'.
  pose proof (rows_length _ Hwf') as Hlen.
  set (df' := pd.drop_duplicates df) in *.
  unfold pd.drop_duplicates at 1. destruct (pd.empty df') eqn:He'; [done|].
  assert (Hall : Forall (fun b => b = true) (map negb (pd.duplicated df'))).
  { unfold pd.duplicated, df'. rewrite rows_drop_duplicates by done.
    rewrite Forall_map. eapply Forall_impl.
    - apply (duplicated_from_kept [] []). auto.
    - by intros b ->. }
  assert (Hm : length (map negb (pd.duplicated df')) = length (pd.index df')).
  { unfold pd.duplicated. by rewrite length_map, duplicated_from_length. }
  destruct df' as [ix dat] eqn:Hdf'. simpl in *. f_equal.
  - apply take_mask_all_true; [done|lia].
  - rewrite <- (map_id dat) at 2. apply map_ext_Forall.
    eapply Forall_impl; [exact Hwf'|]. intros [c s] Hs; simpl in *.
    f_equal. apply Series_take_all; [done|lia].
Qed.

(* ===================================================================== *)
(** * Columns looked up by label                                          *)
(* ===================================================================== *)

Lemma assoc_app_fresh (c : string) (pre l : list (string * pd.Series)) :
  ~ In c (map fst pre) -> pd.assoc c (pre ++ l) = pd.assoc c l.
Proof.
  induction pre as [|[c0 s0] pre IH]; simpl; [done|]. intros Hn.
  destruct (String.eqb_spec c0 c) as [->|_]; [tauto|]. apply IH. tauto.
Qed.

Lemma assoc_alter_app_fresh (f : pd.Series -> pd.Series) (c : string)
    (pre l : list (string * pd.Series)) :
  ~ In c (map fst pre) ->
  pd.assoc_alter f c (pre ++ l) = pre ++ pd.assoc_alter f c l.
Proof.
  induction pre as [|[c0 s0] pre IH]; simpl; [done|]. intros Hn.
  destruct (String.eqb_spec c0 c) as [->|_]; [tauto|]. f_equal. apply IH. tauto.
Qed.

Lemma assoc_set_app_fresh (c : string) (s s' : pd.Series)
    (pre l : list (string * pd.Series)) :
  ~ In c (map fst pre) ->
  pd.assoc_set c s' (pre ++ (c, s) :: l) = pre ++ (c, s') :: l.
Proof.
  induction pre as [|[c0 s0] pre IH]; simpl.
  - by rewrite String.eqb_refl.
  - intros Hn. destruct (String.eqb_spec c0 c) as [->|_]; [tauto|].
    f_equal. apply IH. tauto.
Qed.

Lemma NoDup_labels_middle (pre l : list (string * pd.Series)) (c : string)
    (s s' : pd.Series) :
  List.NoDup (map fst (pre ++ (c, s) :: l)) ->
  ~ In c (map fst pre) /\ List.NoDup (map fst ((pre ++ [(c, s')]) ++ l)).
Proof.
  intros H. split.
  - rewrite map_app in H. simpl in H.
    apply List.NoDup_remove_2 in H. intros Hin. apply H, in_or_app. by left.
  - rewrite <- app_assoc. rewrite !map_app in *. exact H.
Qed.

Lemma assoc_In (c : string) (s : pd.Series) (l : list (string * pd.Series)) :
  List.NoDup (map fst l) -> In (c, s) l -> pd.assoc c l = Some s.
Proof.
  induction l as [|[c0 s0] l IH]; simpl; [done|].
  intros Hnd [Heq|Hin].
  - inversion Heq; subst. by rewrite String.eqb_refl.
  - apply List.NoDup_cons_iff in Hnd as [Hn Hnd].
    destruct (String.eqb_spec c0 c) as [->|_].
    + exfalso. apply Hn. change c with (c, s).1. by apply in_map.
    + by apply IH.
Qed.

(* ===================================================================== *)
(** * Imputation, column by column                                        *)
(* ===================================================================== *)


Lemma bool_sum_cons (b : bool) (m : list bool) :
  pd.bool_sum (b :: m) = ((if b then 1 else 0) + pd.bool_sum m)%nat.
Proof. by destruct b. Qed.



Lemma impute_fold (ix : list Z) (cs pre : list (string * pd.Series))
    (log : list string) :
  List.NoDup (map fst (pre ++ cs)) ->
  fold_left cleaning.impute_body
    (map fst (List.filter (fun cs => pd.is_number (pd.Series_dtype cs.2)) cs))
    (pd.mkDataFrame ix (pre ++ cs), log)
  = (pd.mkDataFrame ix (pre ++ map (fun cs => (cs.1, Spec.imputed cs.2)) cs),
     log ++ map cleaning.impute_entry
       (map fst (List.filter (fun cs => Spec.needs_imputation cs.2) cs))).
Proof.
  revert pre log. induction cs as [|[c s] cs IH]; intros pre log Hnd; simpl.
  - by rewrite !app_nil_r.
  - destruct (NoDup_labels_middle pre cs c s s Hnd) as [Hfresh Hnd'].
    assert (Hneeds : Spec.needs_imputation s
                     = pd.is_number (pd.Series_dtype s)
                       && (0 <? pd.bool_sum (pd.Series_isnull s))%nat) by done.
    unfold Spec.imputed at 1. rewrite Hneeds.
    destruct (pd.is_number (pd.Series_dtype s)) eqn:Hnum; simpl.
    + assert (Hget : pd.getitem (pd.mkDataFrame ix (pre ++ (c, s) :: cs)) c
                     = Some s).
      { unfold pd.getitem; simpl. rewrite assoc_app_fresh by done.
        simpl. by rewrite String.eqb_refl. }
      rewrite Hget.
      destruct (0 <? pd.bool_sum (pd.Series_isnull s))%nat eqn:Hmiss; simpl.
      * unfold pd.update_col; simpl.
        rewrite assoc_alter_app_fresh by done. simpl. rewrite String.eqb_refl.
        destruct (NoDup_labels_middle pre cs c s
                    (pd.Series_fillna (pd.Series_mean s) s) Hnd) as [_ Hnd''].
        rewrite (cons_middle _ pre cs), app_assoc, IH by done.
        by rewrite <- !app_assoc.
      * rewrite (cons_middle _ pre cs), app_assoc, IH by done.
        by rewrite <- !app_assoc.
    + rewrite (cons_middle _ pre cs), app_assoc, IH by done.
      by rewrite <- !app_assoc.
Qed.

(** Under distinct labels the loop of [impute_missing_values] treats every
    column on its own. *)
Lemma impute_columnwise (df : pd.DataFrame) (log : list string) :
  List.NoDup (pd.columns df) ->
  cleaning.impute_missing_values df log
  = (pd.mkDataFrame (pd.index df)
       (map (fun cs => (cs.1, Spec.imputed cs.2)) (pd.data df)),
     log ++ map cleaning.impute_entry (Spec.affected df)).
Proof.
  intros Hnd. destruct df as [ix cs].
  exact (impute_fold ix cs [] log Hnd).
Qed.


(** A float that is NaN is the NaN: the kernel's floats have one. *)
Lemma is_nan_eq (x : float) : is_nan x = true -> x = nan.
Proof.
  intros H. rewrite <- (FloatAxioms.SF2Prim_Prim2SF x).
  unfold is_nan in H. rewrite FloatAxioms.eqb_spec in H.
  destruct (Prim2SF x) as [s|s| |s m e] eqn:Hx; try done.
  - by destruct s.
  - exfalso. unfold SFeqb, SFcompare in H.
    destruct s; rewrite Z.compare_refl in H;
      change (Pos.compare_cont Eq m m) with (Pos.compare m m) in H;
      rewrite Pos.compare_refl in H; simpl in H; discriminate.
Qed.

Lemma columns_map_values (f : pd.Series -> pd.Series)
    (l : list (string * pd.Series)) :
  map fst (map (fun cs => (cs.1, f cs.2)) l) = map fst l.
Proof. rewrite map_map. by apply map_ext. Qed.

Lemma columns_impute (df : pd.DataFrame) (log : list string) :
  List.NoDup (pd.columns df) ->
  pd.columns (cleaning.impute_missing_values df log).1 = pd.columns df.
Proof.
  intros Hnd. rewrite impute_columnwise by done. apply columns_map_values.
Qed.

Lemma columns_drop_duplicates (df : pd.DataFrame) :
  pd.columns (pd.drop_duplicates df) = pd.columns df.
Proof.
  unfold pd.drop_duplicates. destruct (pd.empty df); [done|].
  apply columns_map_values.
Qed.

(** An all-missing float column has the mean NaN and is its own imputation. *)
Lemma imputed_all_missing (v : list float) :
  forallb is_nan v = true -> Spec.imputed (pd.SFloat v) = pd.SFloat v.
Proof.
  intros Hall. unfold Spec.imputed.
  destruct (Spec.needs_imputation (pd.SFloat v)); [|done].
  simpl. f_equal. rewrite <- (map_id v) at 2. apply map_ext_in.
  intros x Hx. rewrite forallb_forall in Hall.
  rewrite (Hall x Hx). unfold pd.nanmean.
  replace (List.filter (fun x => negb (is_nan x)) v) with (@nil float).
  - symmetry. by apply is_nan_eq, Hall.
  - clear x Hx. induction v as [|y v IH]; [done|]. simpl.
    rewrite (Hall y) by (by left). simpl. apply IH.
    intros z Hz. apply Hall. by right.
Qed.

Lemma needs_imputation_all_missing (v : list float) :
  v <> [] -> forallb is_nan v = true ->
  Spec.needs_imputation (pd.SFloat v) = true.
Proof.
  intros Hne Hall. unfold Spec.needs_imputation. simpl.
  destruct v as [|x v]; [done|]. simpl in *.
  apply andb_true_iff in Hall as [-> _]. rewrite bool_sum_cons.
  apply Nat.ltb_lt. lia.
Qed.

Lemma affected_In (df : pd.DataFrame) (c : string) (s : pd.Series) :
  In (c, s) (pd.data df) -> Spec.needs_imputation s = true ->
  In c (Spec.affected df).
Proof.
  intros Hin Hn. unfold Spec.affected.
  change c with (c, s).1. apply in_map, filter_In. by split.
Qed.

Lemma In_map_imputed (df : pd.DataFrame) (c : string) (s : pd.Series) :
  In (c, s) (pd.data df) ->
  In (c, Spec.imputed s)
    (map (fun cs => (cs.1, Spec.imputed cs.2)) (pd.data df)).
Proof.
  intros Hin.
  change (c, Spec.imputed s)
    with ((fun cs : string * pd.Series => (cs.1, Spec.imputed cs.2)) (c, s)).
  by apply in_map.
Qed.

(** Running imputation again and again on a frame with an all-missing
    float column: the column stays, and each call makes the log longer. *)
Lemma impute_times_all_missing (df : pd.DataFrame) (log : list string)
    (c : string) (v : list float) (n : nat) :
  List.NoDup (pd.columns df) -> In (c, pd.SFloat v) (pd.data df) ->
  v <> [] -> forallb is_nan v = true ->
  List.NoDup (pd.columns (Spec.impute_times n (df, log)).1)
  /\ In (c, pd.SFloat v) (pd.data (Spec.impute_times n (df, log)).1)
  /\ (length log + n <= length (Spec.impute_times n (df, log)).2)%nat.
Proof.
  intros Hnd Hin Hne Hall. induction n as [|n (IHnd & IHin & IHlen)]; simpl.
  - repeat split; try done. lia.
  - destruct (Spec.impute_times n (df, log)) as [dfn logn]; simpl in *.
    split; [by rewrite columns_impute|].
    rewrite impute_columnwise by done. simpl. split.
    + rewrite <- (imputed_all_missing v Hall). by apply In_map_imputed.
    + rewrite length_app, length_map.
      assert (In c (Spec.affected dfn)) as Hc
        by (eapply affected_In; eauto using needs_imputation_all_missing).
      destruct (Spec.affected dfn); [done|]. simpl. lia.
Qed.

(* ===================================================================== *)
(** * Log entries                                                         *)
(* ===================================================================== *)







(* ===================================================================== *)
(** * Cleaning: what the two operations do to the frame and to the log    *)
(* ===================================================================== *)




(** C10. A float column with rows but no value is left as it is by
    [impute_missing_values], which logs an entry for it all the same; after
    any number [n] of calls the column is still there, entirely missing, the
    next call logs the entry once more, and the log has grown by at least
    [n] entries. *)
Theorem C10_all_missing_column_logged_on_every_call
    (df : pd.DataFrame) (log : list string) (c : string) (v : list float)
    (n : nat) :
  List.NoDup (pd.columns df) ->
  In (c, pd.SFloat v) (pd.data df) ->
  v <> [] -> forallb is_nan v = true ->
  let before := Spec.impute_times n (df, log) in
  let after := cleaning.impute_missing_values before.1 before.2 in
  pd.getitem before.1 c = Some (pd.SFloat v)
  /\ pd.getitem after.1 c = Some (pd.SFloat v)
  /\ (exists earlier later,
        after.2 = before.2 ++ earlier ++ [cleaning.impute_entry c] ++ later)
  /\ (length log + n <= length before.2)%nat
  /\ (length log + S n <= length after.2)%nat.
Proof.
  intros Hnd Hin Hne Hall before after.
  destruct (impute_times_all_missing df log c v n Hnd Hin Hne Hall)
    as (Hnd' & Hin' & Hlen).
  destruct (impute_times_all_missing df log c v (S n) Hnd Hin Hne Hall)
    as (Hnd'' & Hin'' & Hlen'').
  fold before in Hnd', Hin', Hlen.
  change (Spec.impute_times (S n) (df, log)) with
    (let '(df0, log0) := before in cleaning.impute_missing_values df0 log0)
    in Hnd'', Hin'', Hlen''.
  assert (Hafter : (let '(df0, log0) := before in
                    cleaning.impute_missing_values df0 log0) = after)
    by (subst after; by destruct before).
  rewrite Hafter in Hnd'', Hin'', Hlen''.
  split; [by apply assoc_In|]. split; [by apply assoc_In|].
  split; [|split; [done|done]].
  subst after. rewrite impute_columnwise by done. simpl.
  assert (Hc : In c (Spec.affected before.1))
    by (eapply affected_In; eauto using needs_imputation_all_missing).
  apply (in_map cleaning.impute_entry) in Hc.
  apply in_split in Hc as (earlier & later & ->). by exists earlier, later.
Qed.

Lemma C10_all_missing_column_logged_on_every_call_witness :
  pd.getitem
    (cleaning.impute_missing_values
       (Spec.impute_times 2 (Samples.blank, [])).1
       (Spec.impute_times 2 (Samples.blank, [])).2).1 "score"
  = Some (pd.SFloat [nan; nan])
  /\ (0 + 3 <= length
        (cleaning.impute_missing_values
           (Spec.impute_times 2 (Samples.blank, [])).1
           (Spec.impute_times 2 (Samples.blank, [])).2).2)%nat.
Proof.
  assert (Hnd : List.NoDup (pd.columns Samples.blank)) by (apply NoDup_ListNoDup; compute_done).
  assert (Hin : In ("score", pd.SFloat [nan; nan]) (pd.data Samples.blank))
    by (simpl; auto).
  assert (Hne : [nan; nan] <> @nil float) by discriminate.
  destruct (C10_all_missing_column_logged_on_every_call
              Samples.blank [] "score" [nan; nan] 2 Hnd Hin Hne eq_refl)
    as (_ & Hcol & _ & _ & Hlen).
  exact (conj Hcol Hlen).
Defined.

Lemma apply_action_entries (a : Spec.action) (df : pd.DataFrame)
    (log : list string) :
  List.NoDup (pd.columns df) ->
  Spec.apply_action (df, log) a
  = ((Spec.apply_action (df, []) a).1, log ++ Spec.entries_of a df)
  /\ List.NoDup (pd.columns (Spec.apply_action (df, []) a).1).
Proof.
  intros Hnd. destruct a; simpl.
  - rewrite !impute_columnwise by done. simpl. split; [done|].
    unfold pd.columns; simpl. by rewrite columns_map_values.
  - unfold cleaning.drop_duplicates; simpl. split; [done|].
    by rewrite columns_drop_duplicates.
Qed.

Lemma run_entries (acts : list Spec.action) (df : pd.DataFrame)
    (log : list string) :
  List.NoDup (pd.columns df) ->
  (Spec.run acts (df, log)).2 = log ++ Spec.entries_of_run acts df.
Proof.
  revert df log. induction acts as [|a acts IH]; intros df log Hnd; simpl.
  - by rewrite app_nil_r.
  - destruct (apply_action_entries a df log Hnd) as [Heq Hnd'].
    unfold Spec.run in *. simpl. rewrite Heq, IH by done.
    by rewrite app_assoc.
Qed.

(** C2, as the code has it. A call of [drop_duplicates] appends exactly one
    entry, whatever it did to the data. A call of [impute_missing_values]
    appends one entry per affected column: none when no numeric column has a
    missing value, several when several have. Over any run of such calls
    the log is the earlier log followed by the entries of each call, call
    after call. *)
Theorem C2_log_growth_per_action
    (df : pd.DataFrame) (log : list string) (acts : list Spec.action) :
  List.NoDup (pd.columns df) ->
  (cleaning.drop_duplicates df log).2
  = log ++ [cleaning.drop_entry (pd.shape df) (pd.shape (pd.drop_duplicates df))]
  /\ (cleaning.impute_missing_values df log).2
     = log ++ map cleaning.impute_entry (Spec.affected df)
  /\ length (cleaning.impute_missing_values df log).2
     = (length log + length (Spec.affected df))%nat
  /\ (Spec.run acts (df, log)).2 = log ++ Spec.entries_of_run acts df
  /\ (forall df0, length (Spec.entries_of Spec.DropDuplicates df0) = 1%nat)
  /\ (forall df0, length (Spec.entries_of Spec.Impute df0)
                  = length (Spec.affected df0)).
Proof.
  intros Hnd. split; [done|].
  rewrite impute_columnwise by done. simpl.
  split; [done|]. split; [by rewrite length_app, length_map|].
  split; [by apply run_entries|].
  split; intros df0; simpl; [done|apply length_map].
Qed.

Lemma C2_log_growth_per_action_witness :
  (Spec.run [Spec.DropDuplicates; Spec.Impute; Spec.Impute; Spec.DropDuplicates]
     (Samples.orders, [])).2
  = [ "df.drop_duplicates(inplace=True)  # Dropped duplicates. Shape from (4, 3) to (3, 3)";
      "df['value'].fillna(df['value'].mean(), inplace=True)  # Imputed missing values in 'value'";
      "df.drop_duplicates(inplace=True)  # Dropped duplicates. Shape from (3, 3) to (3, 3)" ].
Proof.
  assert (Hnd : List.NoDup (pd.columns Samples.orders))
    by (apply NoDup_ListNoDup; compute_done).
  destruct (C2_log_growth_per_action Samples.orders []
              [Spec.DropDuplicates; Spec.Impute; Spec.Impute; Spec.DropDuplicates]
              Hnd) as (_ & _ & _ & Hrun & _).
  rewrite Hrun. vm_compute. reflexivity.
Defined.

(** C2, as the claim states it: every call of a cleaning action would
    append exactly one entry. On a frame with nothing missing,
    [impute_missing_values] appends none. *)
Lemma C2_counterexample_impute_appends_nothing :
  ~ (forall (df : pd.DataFrame) (log : list string),
        length (cleaning.impute_missing_values df log).2 = S (length log)).
Proof.
  intros H. specialize (H Samples.complete []). vm_compute in H. discriminate.
Qed.

Lemma shape_fst_drop (df : pd.DataFrame) :
  (pd.shape (pd.drop_duplicates df)).2 = (pd.shape df).2.
Proof.
  unfold pd.drop_duplicates. destruct (pd.empty df); [done|].
  unfold pd.shape; simpl. apply length_map.
Qed.

(** C5. On a frame whose columns are as long as its index, dropping
    duplicates a second time gives the frame the first call gave, and the
    second call appends one entry whose two shapes are the same. *)
Theorem C5_drop_duplicates_idempotent
    (df : pd.DataFrame) (log : list string) :
  pd.wf df ->
  let once := cleaning.drop_duplicates df log in
  let twice := cleaning.drop_duplicates once.1 once.2 in
  twice.1 = once.1
  /\ twice.2
     = once.2 ++ [cleaning.drop_entry (pd.shape once.1) (pd.shape once.1)]
  /\ pd.drop_duplicates (pd.drop_duplicates df) = pd.drop_duplicates df.
Proof.
  intros Hwf once twice. subst once twice.
  unfold cleaning.drop_duplicates; simpl.
  rewrite pd_drop_duplicates_idem by done. done.
Qed.

Lemma C5_drop_duplicates_idempotent_witness :
  pd.wf Samples.orders
  /\ (cleaning.drop_duplicates
        (cleaning.drop_duplicates Samples.orders []).1
        (cleaning.drop_duplicates Samples.orders []).2).2
     = [ "df.drop_duplicates(inplace=True)  # Dropped duplicates. Shape from (4, 3) to (3, 3)";
         "df.drop_duplicates(inplace=True)  # Dropped duplicates. Shape from (3, 3) to (3, 3)" ].
Proof.
  assert (Hwf : pd.wf Samples.orders) by (repeat constructor).
  split; [exact Hwf|].
  destruct (C5_drop_duplicates_idempotent Samples.orders [] Hwf)
    as (_ & Hlog & _).
  rewrite Hlog. vm_compute. reflexivity.
Defined.

(* ===================================================================== *)
(** * Equal cells, equal rows                                             *)
(* ===================================================================== *)

Lemma SFeqb_finite_inv (s s' : bool) (m m' : positive) (e e' : Z) :
  SFeqb (S754_finite s m e) (S754_finite s' m' e') = true ->
  s = s' /\ m = m' /\ e = e'.
Proof.
  unfold SFeqb, SFcompare.
  change (Pos.compare_cont Eq m m') with (Pos.compare m m').
  destruct s, s'; try done;
    destruct (Z.compare_spec e e'); try done;
    destruct (Pos.compare_spec m m'); try done; by subst.
Qed.

Lemma SFeqb_trans (a b c : spec_float) :
  SFeqb a b = true -> SFeqb b c = true -> SFeqb a c = true.
Proof.
  destruct a as [sa|sa| |sa ma ea], b as [sb|sb| |sb mb eb],
    c as [sc|sc| |sc mc ec]; try done;
    try (by destruct sa); try (by destruct sb); try (by destruct sc);
    try (by destruct sa, sb); try (by destruct sb, sc);
    try (by destruct sa, sb, sc).
  intros (-> & -> & ->)%SFeqb_finite_inv (-> & -> & ->)%SFeqb_finite_inv.
  unfold SFeqb, SFcompare. rewrite Z.compare_refl.
  change (Pos.compare_cont Eq mc mc) with (Pos.compare mc mc).
  rewrite Pos.compare_refl. by destruct sc.
Qed.

Lemma eqb_not_nan (x y : float) :
  PrimFloat.eqb x y = true -> is_nan x = false /\ is_nan y = false.
Proof.
  unfold is_nan. rewrite !FloatAxioms.eqb_spec.
  destruct (Prim2SF x) as [sa|sa| |sa ma ea],
    (Prim2SF y) as [sb|sb| |sb mb eb]; try done;
    try (by destruct sa); try (by destruct sb); try (by destruct sa, sb).
  intros (-> & -> & ->)%SFeqb_finite_inv.
  unfold SFeqb, SFcompare. rewrite Z.compare_refl.
  change (Pos.compare_cont Eq mb mb) with (Pos.compare mb mb).
  rewrite Pos.compare_refl. by destruct sb.
Qed.

Lemma cell_eqb_refl (a : pd.cell) : pd.cell_eqb a a = true.
Proof.
  destruct a as [z|x|b|[s|]|[t|]]; simpl; try done.
  - apply Z.eqb_refl.
  - unfold is_nan. by destruct (PrimFloat.eqb x x).
  - by destruct b.
  - apply String.eqb_refl.
  - apply Z.eqb_refl.
Qed.

Lemma cell_eqb_trans (a b c : pd.cell) :
  pd.cell_eqb a b = true -> pd.cell_eqb b c = true -> pd.cell_eqb a c = true.
Proof.
  destruct a as [x|x|x|[x|]|[x|]], b as [y|y|y|[y|]|[y|]],
    c as [z|z|z|[z|]|[z|]]; simpl; try done.
  - intros ->%Z.eqb_eq ->%Z.eqb_eq. apply Z.eqb_refl.
  - intros Hxy Hyz.
    apply orb_true_iff in Hxy as [Hxy|[Hx Hy]%andb_true_iff];
      apply orb_true_iff in Hyz as [Hyz|[Hy' Hz]%andb_true_iff].
    + apply orb_true_iff. left. rewrite FloatAxioms.eqb_spec in *.
      by eapply SFeqb_trans.
    + apply eqb_not_nan in Hxy as [_ Hy]. congruence.
    + apply eqb_not_nan in Hyz as [Hy' _]. congruence.
    + rewrite Hx, Hz. apply orb_true_r.
  - intros ->%Bool.eqb_prop ->%Bool.eqb_prop. apply Bool.eqb_reflx.
  - intros ->%String.eqb_eq ->%String.eqb_eq. apply String.eqb_refl.
  - intros ->%Z.eqb_eq ->%Z.eqb_eq. apply Z.eqb_refl.
Qed.

Lemma row_eqb_refl (r : pd.row) : pd.row_eqb r r = true.
Proof. induction r as [|a r IH]; simpl; [done|]. by rewrite cell_eqb_refl. Qed.

Lemma row_eqb_trans (r1 r2 r3 : pd.row) :
  pd.row_eqb r1 r2 = true -> pd.row_eqb r2 r3 = true ->
  pd.row_eqb r1 r3 = true.
Proof.
  revert r2 r3. induction r1 as [|a r1 IH]; intros [|b r2] [|c r3];
    simpl; try done.
  intros [Hab H12]%andb_true_iff [Hbc H23]%andb_true_iff.
  apply andb_true_iff. split; [by eapply cell_eqb_trans|by eapply IH].
Qed.

(** Every row repeats a row at or before it that repeats no earlier row:
    the first of its group. *)
Lemma first_occurrence (rs : list pd.row) (i : nat) (r : pd.row) :
  rs !! i = Some r ->
  exists j r0,
    (j <= i)%nat /\ rs !! j = Some r0 /\ pd.row_eqb r r0 = true
    /\ ~ Spec.duplicate_of_earlier rs j.
Proof.
  revert r. induction (lt_wf i) as [i _ IH]. intros r Hi.
  destruct (pd.duplicated_from [] rs !! i) as [[]|] eqn:Hd.
  - apply duplicated_from_nil_spec in Hd
      as (j' & r' & r'' & Hlt & Hj' & Hi' & Heq).
    rewrite Hi in Hi'. injection Hi' as <-.
    destruct (IH j' Hlt r' Hj') as (j & r0 & Hle & Hj & Heq0 & Hfirst).
    exists j, r0. repeat split; try done; [lia|by eapply row_eqb_trans].
  - exists i, r. repeat split; try done; [apply row_eqb_refl|].
    intros Hdup%duplicated_from_nil_spec. congruence.
  - apply lookup_ge_None in Hd. apply lookup_lt_Some in Hi.
    rewrite duplicated_from_length in Hd. lia.
Qed.

Lemma rows_no_index (df : pd.DataFrame) :
  pd.wf df -> pd.index df = [] -> pd.rows df = [].
Proof.
  intros Hwf Hix. apply length_zero_iff_nil.
  by rewrite rows_length, Hix.
Qed.

Lemma duplicate_of_earlier_in_range (rs : list pd.row) (i : nat) :
  Spec.duplicate_of_earlier rs i -> (i < length rs)%nat.
Proof. intros (j & r & r' & _ & _ & Hi & _). by eapply lookup_lt_Some. Qed.

(** The mask of the rows [drop_duplicates] keeps. *)
Lemma keep_mask_spec (rs : list pd.row) (i : nat) :
  map negb (pd.duplicated_from [] rs) !! i = Some false
  <-> Spec.duplicate_of_earlier rs i.
Proof.
  rewrite <- duplicated_from_nil_spec.
  change (map negb (pd.duplicated_from [] rs))
    with (negb <$> pd.duplicated_from [] rs).
  rewrite list_lookup_fmap.
  destruct (pd.duplicated_from [] rs !! i) as [[]|]; simpl; split; congruence.
Qed.

Lemma keep_mask_first (rs : list pd.row) (i : nat) (r : pd.row) :
  rs !! i = Some r ->
  exists j r0,
    (j <= i)%nat /\ map negb (pd.duplicated_from [] rs) !! j = Some true
    /\ rs !! j = Some r0 /\ pd.row_eqb r r0 = true.
Proof.
  intros Hi. destruct (first_occurrence rs i r Hi) as (j & r0 & Hle & Hj & Heq & Hfirst).
  exists j, r0. repeat split; try done.
  destruct (map negb (pd.duplicated_from [] rs) !! j) as [[]|] eqn:Hk; [done| |].
  - by apply keep_mask_spec in Hk.
  - apply lookup_ge_None in Hk. apply lookup_lt_Some in Hj.
    rewrite length_map, duplicated_from_length in Hk. lia.
Qed.

(** C6. On a frame with at least one column, whose columns are as long as
    its index, [drop_duplicates] removes exactly the rows that repeat an
    earlier row in every column: there is a mask over the rows, unset
    exactly at those rows, and the frame afterwards holds the rows and the
    row labels the mask keeps, in their order, so that they form a
    subsequence of the rows before. Every row, kept or not, repeats a kept
    row at or before it (the first occurrence of its group). The columns
    keep their labels, and one entry is appended, recording the shape
    before and the shape after. *)
Theorem C6_drop_duplicates_keeps_first_occurrences
    (df : pd.DataFrame) (log : list string) :
  pd.wf df -> pd.data df <> [] ->
  let out := cleaning.drop_duplicates df log in
  (exists keep : list bool,
      length keep = length (pd.rows df)
      /\ (forall i, keep !! i = Some false
                    <-> Spec.duplicate_of_earlier (pd.rows df) i)
      /\ (forall i r, pd.rows df !! i = Some r ->
            exists j r0,
              (j <= i)%nat /\ keep !! j = Some true
              /\ pd.rows df !! j = Some r0 /\ pd.row_eqb r r0 = true)
      /\ pd.rows out.1 = pd.take_mask keep (pd.rows df)
      /\ pd.index out.1 = pd.take_mask keep (pd.index df))
  /\ sublist (zip (pd.index out.1) (pd.rows out.1))
             (zip (pd.index df) (pd.rows df))
  /\ pd.columns out.1 = pd.columns df
  /\ out.2
     = log ++ [ "df.drop_duplicates(inplace=True)  # Dropped duplicates. Shape from "
                +:+ Py.str_of_shape (length (pd.index df), length (pd.data df))
                +:+ " to "
                +:+ Py.str_of_shape (length (pd.index out.1), length (pd.data df)) ].
Proof.
  intros Hwf Hcols out. subst out. unfold cleaning.drop_duplicates. simpl.
  assert (Hmask : exists keep : list bool,
             length keep = length (pd.rows df)
             /\ (forall i, keep !! i = Some false
                           <-> Spec.duplicate_of_earlier (pd.rows df) i)
             /\ (forall i r, pd.rows df !! i = Some r ->
                   exists j r0,
                     (j <= i)%nat /\ keep !! j = Some true
                     /\ pd.rows df !! j = Some r0 /\ pd.row_eqb r r0 = true)
             /\ pd.rows (pd.drop_duplicates df) = pd.take_mask keep (pd.rows df)
             /\ pd.index (pd.drop_duplicates df)
                = pd.take_mask keep (pd.index df)).
  { destruct (pd.empty df) eqn:He.
    - assert (Hix : pd.index df = []).
      { unfold pd.empty in He. apply orb_true_iff in He as [He|He].
        - apply Nat.eqb_eq in He. by apply length_zero_iff_nil.
        - apply Nat.eqb_eq, length_zero_iff_nil in He. done. }
      pose proof (rows_no_index df Hwf Hix) as Hrows.
      exists []. unfold pd.drop_duplicates. rewrite He, Hrows, Hix.
      split; [done|]. split; [|split; [|done]].
      + intros i. split; [done|].
        intros Hd%duplicate_of_earlier_in_range. simpl in Hd. lia.
      + intros i r Hi. by destruct i.
    - exists (map negb (pd.duplicated df)). split; [|split; [|split; [|split]]].
      + unfold pd.duplicated. by rewrite length_map, duplicated_from_length.
      + intros i. apply keep_mask_spec.
      + intros i r Hi. by apply keep_mask_first.
      + by apply rows_drop_duplicates.
      + unfold pd.drop_duplicates. by rewrite He. }
  split; [exact Hmask|]. split; [|split].
  - destruct Hmask as (keep & _ & _ & _ & -> & ->).
    rewrite <- (take_mask_zip_with pair). apply take_mask_sublist.
  - apply columns_drop_duplicates.
  - do 3 f_equal. unfold cleaning.drop_entry, pd.shape.
    pose proof (shape_fst_drop df) as Hc. unfold pd.shape in Hc. simpl in Hc.
    by rewrite Hc.
Qed.

Lemma C6_drop_duplicates_keeps_first_occurrences_witness :
  pd.wf Samples.orders
  /\ pd.index (cleaning.drop_duplicates Samples.orders []).1 = [0; 1; 3]%Z
  /\ (cleaning.drop_duplicates Samples.orders []).2
     = [ "df.drop_duplicates(inplace=True)  # Dropped duplicates. Shape from (4, 3) to (3, 3)" ].
Proof.
  assert (Hwf : pd.wf Samples.orders) by (repeat constructor).
  assert (Hcols : pd.data Samples.orders <> []) by discriminate.
  destruct (C6_drop_duplicates_keeps_first_occurrences
              Samples.orders [] Hwf Hcols) as (_ & _ & _ & Hlog).
  split; [exact Hwf|]. split; [vm_compute; reflexivity|].
  rewrite Hlog. vm_compute. reflexivity.
Defined.

(* ===================================================================== *)
(** * Readiness messages                                                  *)
(* ===================================================================== *)

Lemma isnull_length (s : pd.Series) :
  length (pd.Series_isnull s) = pd.Series_len s.
Proof. destruct s; simpl; apply length_map. Qed.

Lemma missing_body_note (messages : list string) (item : string * float) :
  eda.missing_body messages item = messages ++ Spec.missing_note item.
Proof.
  destruct item as [c p]. unfold eda.missing_body, Spec.missing_note. simpl.
  destruct (PrimFloat.ltb 0 p); [done|by rewrite app_nil_r].
Qed.

Lemma dtype_body_note (messages : list string) (item : string * pd.dtype) :
  eda.dtype_body messages item = messages ++ Spec.dtype_note item.
Proof.
  destruct item as [c []]; unfold eda.dtype_body, Spec.dtype_note; simpl;
    by rewrite ?app_nil_r.
Qed.

Lemma check_ml_readiness_notes (df : pd.DataFrame) (ml_task : string) :
  eda.check_ml_readiness df ml_task
  = Spec.column_notes df ++ Spec.task_note ml_task.
Proof.
  unfold eda.check_ml_readiness, Spec.column_notes, Spec.task_note.
  rewrite (fold_left_snoc_flat _ _ _ _ dtype_body_note).
  rewrite (fold_left_snoc_flat _ _ _ _ missing_body_note). simpl.
  destruct (String.eqb ml_task "Decision Tree"); [done|].
  destruct (String.eqb ml_task "Self-supervised Learning"); [done|].
  by rewrite app_nil_r.
Qed.






(* ===================================================================== *)
(** * Advisory calls                                                      *)
(* ===================================================================== *)

(** C1, on the code. Both advisory functions start by calling
    [os.get_env], a name the module [os] does not bind: whatever the
    environment, the summary, the task and the service, each call raises
    AttributeError, and neither the fixed "not set" text nor an
    error-describing text is returned. *)
Theorem C1_advisory_calls_raise
    (chat_completion : string -> string -> string -> nat -> Py.result string)
    (env : os.environ) (data_summary ml_task : string) :
  llm.get_cleaning_suggestions chat_completion env data_summary ml_task
  = Raise (Py.AttributeError "module 'os' has no attribute 'get_env'")
  /\ llm.get_additional_checks chat_completion env data_summary ml_task
     = Raise (Py.AttributeError "module 'os' has no attribute 'get_env'")
  /\ llm.get_cleaning_suggestions chat_completion [] data_summary ml_task
     <> Return llm.key_not_set
  /\ llm.get_additional_checks chat_completion [] data_summary ml_task
     <> Return llm.key_not_set.
Proof. repeat split; done. Qed.

(* ===================================================================== *)
(** * The exported script                                                 *)
(* ===================================================================== *)

Lemma script_content_lines (generated_on : string) (log : list string) :
  app.script_content generated_on log
  = Py.join llm.newline (Spec.script_lines generated_on log).
Proof.
  unfold app.script_content, Spec.script_lines.
  rewrite (fold_left_snoc_flat _ (fun step => ["    " +:+ step]))
    by done.
  by rewrite <- app_assoc.
Qed.

(** C8. For every log, the text [export_transformation_script] writes is
    the header, whose last two lines open the function [transform_data(df)],
    then every log entry as it is behind four spaces, in log order, then
    [return df], joined by newlines; nothing in it depends on what the
    entries say. The file goes to [export/transformation_script.py] and the
    path is returned, unless the write fails. With an empty log the function
    body is the comment line and [return df]. *)
Theorem C8_script_wraps_log_entries
    (datetime : Type) (strftime : datetime -> string -> string)
    (now : datetime) (log : list string) (s : app.session) :
  let generated_on := strftime now "%Y-%m-%d %H:%M:%S" in
  let lines := Spec.script_lines generated_on log in
  app.script_content generated_on log = Py.join llm.newline lines
  /\ length lines = (length log + 8)%nat
  /\ lines !! 5%nat = Some "def transform_data(df):"
  /\ (forall i entry, log !! i = Some entry ->
                      lines !! (7 + i)%nat = Some ("    " +:+ entry))
  /\ lines !! (7 + length log)%nat = Some "    return df"
  /\ app.script_content generated_on []
     = Py.join llm.newline
         [ "# Transformation Script";
           "# Generated on: " +:+ generated_on;
           "";
           "import pandas as pd";
           "";
           "def transform_data(df):";
           "    # Transformation steps applied";
           "    return df" ]
  /\ app.export_transformation_script datetime strftime now log s
     = match app.write_error (app.fs s) "export/transformation_script.py" with
       | Some msg => (Raise (Py.OSError msg), s)
       | None =>
           (Return "export/transformation_script.py",
            {| app.df := app.df s;
               app.transformation_log := app.transformation_log s;
               app.fs :=
                 {| app.files := fun p =>
                      if String.eqb p "export/transformation_script.py"
                      then Some (Py.join llm.newline lines)
                      else app.files (app.fs s) p;
                    app.write_error := app.write_error (app.fs s) |};
               app.ui := app.ui s |})
       end.
Proof.
  intros generated_on lines. subst lines.
  split; [apply script_content_lines|]. split; [|split; [done|split; [|split; [|split]]]].
  - unfold Spec.script_lines. rewrite !length_app, length_map. simpl. lia.
  - intros i entry Hi. unfold Spec.script_lines.
    change (7 + i)%nat with (length (app.script_header generated_on) + i)%nat.
    rewrite lookup_app_plus.
    rewrite lookup_app_l by (rewrite length_map; by eapply lookup_lt_Some).
    change (map (fun step => "    " +:+ step) log)
      with ((fun step => "    " +:+ step) <$> log).
    by rewrite list_lookup_fmap, Hi.
  - unfold Spec.script_lines.
    change (7 + length log)%nat
      with (length (app.script_header generated_on) + length log)%nat.
    rewrite lookup_app_plus.
    rewrite <- (length_map (fun step => "    " +:+ step) log) at 1.
    rewrite <- (Nat.add_0_r (length (map _ log))).
    by rewrite lookup_app_plus.
  - done.
  - unfold app.export_transformation_script, app.bind, app.write_file,
      app.open_write, app.ret.
    rewrite script_content_lines.
    change (os.path_join "export" "transformation_script.py")
      with "export/transformation_script.py".
    by destruct (app.write_error (app.fs s) "export/transformation_script.py").
Qed.

Lemma C8_script_wraps_log_entries_witness :
  app.script_content "2024-05-01 10:00:00" []
  = "# Transformation Script
# Generated on: 2024-05-01 10:00:00

import pandas as pd

def transform_data(df):
    # Transformation steps applied
    return df".
Proof.
  destruct (C8_script_wraps_log_entries unit
              (fun _ _ => "2024-05-01 10:00:00") tt []
              (app.mkSession Samples.orders []
                 (app.mkFS (fun _ => None) (fun _ => None)) []))
    as (_ & _ & _ & _ & _ & Hempty & _).
  rewrite Hempty. vm_compute. reflexivity.
Defined.

(* ===================================================================== *)
(** * The export buttons                                                  *)
(* ===================================================================== *)

Section ExportLike.
Context {A B : Type}.

Lemma export_like_ret (a : A) : Spec.export_like (app.ret a).
Proof. intros s. simpl. repeat split; try done. Qed.

Lemma export_like_bind (m : app.M A) (k : A -> app.M B) :
  Spec.export_like m -> (forall a, Spec.export_like (k a)) ->
  Spec.export_like (app.bind m k).
Proof.
  intros Hm Hk s. unfold app.bind.
  destruct (Hm s) as (Hdf & Hlog & Hwe & Herr).
  destruct (m s) as [[a|e] s'] eqn:Hms; simpl in *.
  - destruct (Hk a s') as (Hdf' & Hlog' & Hwe' & Herr').
    rewrite Hdf', Hlog', Hwe', Hdf, Hlog, Hwe. repeat split; try done.
    intros e He. destruct (Herr' e He) as (path & msg & -> & Hp).
    exists path, msg. by rewrite <- Hwe.
  - repeat split; try done. intros e' [= <-]. by apply Herr.
Qed.
End ExportLike.

Lemma export_like_show (e : app.ui_event) : Spec.export_like (app.show e).
Proof. intros s. simpl. repeat split; try done. Qed.

Lemma export_like_get_df : Spec.export_like app.get_df.
Proof. intros s. simpl. repeat split; try done. Qed.

Lemma export_like_get_log : Spec.export_like app.get_log.
Proof. intros s. simpl. repeat split; try done. Qed.

Lemma export_like_write_file (path content : string) :
  Spec.export_like (app.write_file path content).
Proof.
  intros s. unfold app.write_file, app.open_write.
  destruct (app.write_error (app.fs s) path) as [msg|] eqn:Hp; simpl.
  - repeat split; try done. intros e [= <-]. eauto.
  - repeat split; try done.
Qed.

Lemma export_like_when (b : bool) (m : app.M unit) :
  Spec.export_like m -> Spec.export_like (app.when b m).
Proof. destruct b; simpl; [done|]. intros _. apply export_like_ret. Qed.

Create HintDb export_like.
#[local] Hint Resolve export_like_ret export_like_show export_like_get_df
  export_like_get_log export_like_write_file export_like_when : export_like.

Ltac export_like :=
  repeat first
    [ apply export_like_bind; [|intros ?]
    | progress auto with export_like ].

Section Exports.
Variable datetime : Type.
Variable strftime : datetime -> string -> string.
Variable to_csv : pd.DataFrame -> string.
Variable describe_to_html : pd.DataFrame -> string.
Variable template_render : string -> string -> list string -> string.
Variable button : string -> bool.

Lemma export_like_csv (now : datetime) :
  Spec.export_like (app.export_csv datetime strftime to_csv now).
Proof. unfold app.export_csv. export_like. Qed.

Lemma export_like_script (now : datetime) :
  Spec.export_like (app.export_script datetime strftime now).
Proof.
  unfold app.export_script, app.export_transformation_script. export_like.
Qed.

Lemma export_like_report (now : datetime) :
  Spec.export_like
    (app.export_report datetime strftime describe_to_html template_render now).
Proof. unfold app.export_report, app.export_eda_report. export_like. Qed.

Lemma export_like_options (t1 t2 t3 : datetime) :
  Spec.export_like
    (app.export_options datetime strftime to_csv describe_to_html
       template_render button t1 t2 t3).
Proof.
  unfold app.export_options.
  pose proof (export_like_csv t1). pose proof (export_like_script t2).
  pose proof (export_like_report t3). export_like.
Qed.
End Exports.



(* ===================================================================== *)
(** * Ingestion                                                           *)
(* ===================================================================== *)

Lemma prefix_spec (a s : string) :
  String.prefix a s = true <-> exists post, s = a +:+ post.
Proof.
  revert s. induction a as [|ch a IH]; intros [|ch' s]; simpl.
  - split; [by exists ""|done].
  - split; [by exists (String ch' s)|done].
  - split; [done|by intros [post Hp]].
  - destruct (ascii_dec ch ch') as [->|Hne].
    + rewrite IH. split; intros [post Hp]; exists post.
      * change (String ch' s = String ch' (a +:+ post)). by rewrite Hp.
      * change (String ch' s = String ch' (a +:+ post)) in Hp. congruence.
    + split; [done|]. intros [post Hp].
      change (String ch' s = String ch (a +:+ post)) in Hp. congruence.
Qed.

Lemma str_in_unfold (sub s : string) :
  Py.str_in sub s
  = if String.prefix sub s then true
    else match s with
         | EmptyString => false
         | String _ s' => Py.str_in sub s'
         end.
Proof. by destruct s. Qed.

(** [sub in s] is the substring test. *)
Lemma str_in_spec (sub s : string) :
  Py.str_in sub s = true <-> Spec.contains s sub.
Proof.
  induction s as [|ch s IH]; rewrite str_in_unfold.
  - destruct (String.prefix sub "") eqn:Hp.
    + split; [|done]. intros _. apply prefix_spec in Hp as [post Hp].
      by exists "", post.
    + split; [done|]. intros (pre & post & Heq).
      destruct pre; [|done].
      assert (String.prefix sub "" = true) by (apply prefix_spec; eauto).
      congruence.
  - destruct (String.prefix sub (String ch s)) eqn:Hp.
    + split; [|done]. intros _. apply prefix_spec in Hp as [post Hp].
      by exists "", post.
    + rewrite IH. split.
      * intros (pre & post & ->). by exists (String ch pre), post.
      * intros (pre & post & Heq). destruct pre as [|ch0 pre].
        -- assert (String.prefix sub (String ch s) = true)
             by (apply prefix_spec; eauto).
           congruence.
        -- change (String ch s = String ch0 (pre +:+ sub +:+ post)) in Heq.
           exists pre, post. congruence.
Qed.

Lemma filter_sublist {X : Type} (p : X -> bool) (l : list X) :
  sublist (List.filter p l) l.
Proof.
  induction l as [|x l IH]; simpl; [constructor|].
  destruct (p x); by constructor.
Qed.

Lemma str_elem_In (c : string) (cols : list string) :
  app.str_elem c cols = true <-> In c cols.
Proof.
  unfold app.str_elem. rewrite existsb_exists. split.
  - intros (x & Hx & ->%String.eqb_eq). done.
  - intros H. exists c. split; [done|apply String.eqb_refl].
Qed.

Lemma coerce_fold (date_columns : list string) (ix : list Z)
    (cs pre : list (string * pd.Series)) :
  List.NoDup (map fst (pre ++ cs)) ->
  fold_left (app.coerce_body date_columns)
    (map fst (List.filter (fun cs => pd.is_object (pd.Series_dtype cs.2)) cs))
    (pd.mkDataFrame ix (pre ++ cs))
  = pd.mkDataFrame ix (pre ++ map (Spec.coerced date_columns) cs).
Proof.
  revert pre. induction cs as [|[c s] cs IH]; intros pre Hnd; simpl.
  - done.
  - destruct (NoDup_labels_middle pre cs c s s Hnd) as [Hfresh Hnd'].
    unfold Spec.coerced at 1. simpl.
    destruct (pd.is_object (pd.Series_dtype s)) eqn:Hobj; simpl.
    + unfold app.coerce_body at 2.
      destruct (negb (app.str_elem c date_columns)) eqn:Hdate.
      * assert (Hget : pd.getitem (pd.mkDataFrame ix (pre ++ (c, s) :: cs)) c
                       = Some s).
        { unfold pd.getitem; simpl. rewrite assoc_app_fresh by done.
          simpl. by rewrite String.eqb_refl. }
        rewrite Hget. unfold pd.setitem; simpl.
        rewrite assoc_set_app_fresh by done.
        destruct (NoDup_labels_middle pre cs c s (pd.Series_astype_str s) Hnd)
          as [_ Hnd''].
        rewrite (cons_middle _ pre cs), app_assoc, IH by done.
        by rewrite <- !app_assoc.
      * rewrite (cons_middle _ pre cs), app_assoc, IH by done.
        by rewrite <- !app_assoc.
    + rewrite (cons_middle _ pre cs), app_assoc, IH by done.
      by rewrite <- !app_assoc.
Qed.

Lemma coerced_text (date_columns : list string) (c : string)
    (s s' : pd.Series) :
  Spec.coerced date_columns (c, s) = (c, s') ->
  pd.Series_dtype s' = pd.object_ -> ~ In c date_columns ->
  Spec.all_text s'.
Proof.
  unfold Spec.coerced. simpl. intros Heq Hobj Hdate.
  assert (Hse : app.str_elem c date_columns = false)
    by (apply not_true_is_false; by rewrite str_elem_In).
  rewrite Hse in Heq.
  destruct s as [v|v|v|v|v]; simpl in Heq; inversion Heq; subst; try done.
  simpl. rewrite Forall_map. apply Forall_true. intros o. by eexists.
Qed.

Lemma ingest_coerce (date_columns : list string) (df1 : pd.DataFrame) :
  List.NoDup (pd.columns df1) ->
  fold_left (app.coerce_body date_columns)
    (pd.select_dtypes pd.is_object df1) df1
  = pd.mkDataFrame (pd.index df1)
      (map (Spec.coerced date_columns) (pd.data df1)).
Proof.
  intros Hnd. destruct df1 as [ix cs].
  exact (coerce_fold date_columns ix cs [] Hnd).
Qed.

Lemma coerce_body_index (date_columns : list string) (cols : list string)
    (df : pd.DataFrame) :
  pd.index (fold_left (app.coerce_body date_columns) cols df) = pd.index df.
Proof.
  revert df. induction cols as [|c cols IH]; intros df; simpl; [done|].
  rewrite IH. unfold app.coerce_body.
  destruct (negb (app.str_elem c date_columns)); [|done].
  by destruct (pd.getitem df c).
Qed.

(** C7. Ingestion parses the stream once for the column labels. The
    date-like columns are the labels that contain "date" once lower-cased,
    in column order. The stream is then parsed again from its first byte:
    with the date-like columns as [parse_dates] when there are some, else
    without the hint and with the warning that no date columns were
    detected. A parse error of either pass ends ingestion with that error.
    Of the frame the second pass gives (with distinct labels), every object
    column outside the date-like columns has all its cells turned into
    text, and every other column is kept. *)
Theorem C7_ingestion_date_columns_and_text
    (parse_csv : string -> option (list string) -> Py.result pd.DataFrame)
    (f : app.UploadedFile) :
  let f_end := app.mkFile (app.content f) (String.length (app.content f)) in
  match parse_csv (app.string_drop (app.pos f) (app.content f)) None with
  | Py.Raise e => app.ingest parse_csv f = (Raise e, f_end, [])
  | Py.Return df0 =>
      let date_columns := List.filter app.is_date_like (pd.columns df0) in
      (forall c, In c date_columns
                 <-> In c (pd.columns df0) /\ Spec.contains (Py.lower c) "date")
      /\ sublist date_columns (pd.columns df0)
      /\ match parse_csv (app.content f)
                 (match date_columns with
                  | [] => None
                  | _ :: _ => Some date_columns
                  end) with
         | Py.Raise e => app.ingest parse_csv f = (Raise e, f_end, [])
         | Py.Return df1 =>
             exists df,
               app.ingest parse_csv f
               = (Return df, f_end,
                  [match date_columns with
                   | [] => app.st_warning "No date columns detected in the dataset"
                   | _ :: _ =>
                       app.st_info ("Date parsing applied to columns: "
                                      +:+ Py.join ", " date_columns)
                   end])
               /\ pd.index df = pd.index df1
               /\ (List.NoDup (pd.columns df1) ->
                   pd.data df = map (Spec.coerced date_columns) (pd.data df1)
                   /\ pd.columns df = pd.columns df1
                   /\ (forall c s,
                         In (c, s) (pd.data df) ->
                         pd.Series_dtype s = pd.object_ ->
                         ~ In c date_columns ->
                         Spec.all_text s)
                   /\ (forall c s,
                         In (c, s) (pd.data df1) ->
                         pd.Series_dtype s <> pd.object_ \/ In c date_columns ->
                         In (c, s) (pd.data df)))
         end
  end.
Proof.
  intros f_end. unfold app.ingest, app.read_csv. simpl.
  destruct (parse_csv (app.string_drop (app.pos f) (app.content f)) None)
    as [df0|e] eqn:Hfirst; [|done].
  split; [|split; [apply filter_sublist|]].
  { intros c. rewrite filter_In. unfold app.is_date_like.
    by rewrite str_in_spec. }
  set (date_columns := List.filter app.is_date_like (pd.columns df0)).
  assert (Hsecond :
    (let '(r, uploaded_file, notice) :=
       match date_columns with
       | [] =>
           let '(r, f0) :=
             (parse_csv (app.string_drop 0 (app.content f)) None, f_end) in
           (r, f0, app.st_warning "No date columns detected in the dataset")
       | _ :: _ =>
           let '(r, f0) :=
             (parse_csv (app.string_drop 0 (app.content f)) (Some date_columns),
              f_end) in
           (r, f0, app.st_info ("Date parsing applied to columns: "
                                  +:+ Py.join ", " date_columns))
       end in
     match r with
     | Py.Return df =>
         (Return (fold_left (app.coerce_body date_columns)
                    (pd.select_dtypes pd.is_object df) df),
          uploaded_file, [notice])
     | Py.Raise e => (Raise e, uploaded_file, [])
     end)
    = match parse_csv (app.content f)
              (match date_columns with [] => None | _ :: _ => Some date_columns end)
      with
      | Py.Return df =>
          (Return (fold_left (app.coerce_body date_columns)
                     (pd.select_dtypes pd.is_object df) df),
           f_end,
           [match date_columns with
            | [] => app.st_warning "No date columns detected in the dataset"
            | _ :: _ => app.st_info ("Date parsing applied to columns: "
                                       +:+ Py.join ", " date_columns)
            end])
      | Py.Raise e => (Raise e, f_end, [])
      end).
  { change (app.string_drop 0 (app.content f)) with (app.content f).
    destruct date_columns; simpl;
      by destruct (parse_csv (app.content f) _). }
  unfold f_end in Hsecond. simpl in Hsecond. rewrite Hsecond. clear Hsecond.
  destruct (parse_csv (app.content f) _) as [df1|e] eqn:Hparse; [|done].
  eexists. split; [reflexivity|]. split; [apply coerce_body_index|].
  intros Hnd. rewrite ingest_coerce by done. simpl.
  split; [done|]. split; [|split].
  - unfold pd.columns; simpl. rewrite map_map. apply map_ext.
    intros [c s]. unfold Spec.coerced. simpl.
    by destruct (pd.is_object (pd.Series_dtype s)
                 && negb (app.str_elem c date_columns)).
  - intros c s ([c0 s0] & Heq & Hin)%in_map_iff Hobj Hdate.
    assert (c0 = c) as ->.
    { unfold Spec.coerced in Heq. simpl in Heq.
      destruct (pd.is_object (pd.Series_dtype s0)
                && negb (app.str_elem c0 date_columns)); by inversion Heq. }
    by eapply coerced_text.
  - intros c s Hin Hkeep. apply in_map_iff. exists (c, s). split; [|done].
    unfold Spec.coerced. simpl.
    destruct Hkeep as [Hobj|Hdate].
    + destruct (pd.Series_dtype s); simpl; done.
    + apply str_elem_In in Hdate. rewrite Hdate. simpl. by rewrite andb_false_r.
Qed.

Lemma C7_ingestion_date_columns_and_text_witness :
  exists df,
    app.ingest Samples.upload_parser (app.mkFile Samples.upload_text 0)
    = (Return df, app.mkFile Samples.upload_text 65,
       [app.st_info "Date parsing applied to columns: Created_Date"])
    /\ pd.data df
       = [ ("id", pd.SInt [1; 2; 3]%Z);
           ("note", pd.SObject [pd.PStr "7"; pd.PStr "ok"; pd.PStr "nan"]);
           ("Created_Date", pd.SDatetime [Some 19723; Some 19724; Some 19725]%Z) ].
Proof.
  pose proof (C7_ingestion_date_columns_and_text Samples.upload_parser
                (app.mkFile Samples.upload_text 0)) as H.
  cbv zeta in H.
  change (Samples.upload_parser _ None) with (Return Samples.upload_raw) in H.
  cbv iota beta in H.
  change (List.filter app.is_date_like (pd.columns Samples.upload_raw))
    with ["Created_Date"] in H.
  cbv iota beta in H.
  change (Samples.upload_parser _ (Some ["Created_Date"]))
    with (Return Samples.upload_dated) in H.
  cbv iota beta in H.
  destruct H as (_ & _ & df & Heq & _ & Hdata).
  exists df. split; [exact Heq|].
  assert (Hnd : List.NoDup (pd.columns Samples.upload_dated))
    by (apply NoDup_ListNoDup; compute_done).
  destruct (Hdata Hnd) as (-> & _). vm_compute. reflexivity.
Defined.

(* ===================================================================== *)
(** * Cleaning: repeated calls, invariants, missing counts                *)
(* ===================================================================== *)








Lemma imputed_dtype_len (s : pd.Series) :
  pd.Series_dtype (Spec.imputed s) = pd.Series_dtype s
  /\ pd.Series_len (Spec.imputed s) = pd.Series_len s.
Proof.
  unfold Spec.imputed. destruct (Spec.needs_imputation s); [|done].
  destruct s; simpl; try done. by rewrite length_map.
Qed.

(** X2. Imputation keeps the shape of the frame, the dtype of every
    column, and the columns as long as the index. *)
Theorem impute_keeps_shape_and_dtypes (df : pd.DataFrame) (log : list string) :
  List.NoDup (pd.columns df) ->
  let out := cleaning.impute_missing_values df log in
  pd.shape out.1 = pd.shape df
  /\ pd.dtypes out.1 = pd.dtypes df
  /\ (pd.wf df -> pd.wf out.1).
Proof.
  intros Hnd out. subst out. rewrite impute_columnwise by done. simpl.
  split; [|split].
  - unfold pd.shape. simpl. by rewrite length_map.
  - unfold pd.dtypes. simpl. rewrite map_map. apply map_ext.
    intros [c s]. simpl. by destruct (imputed_dtype_len s) as [-> _].
  - unfold pd.wf. simpl. intros Hwf. rewrite Forall_map.
    eapply Forall_impl; [exact Hwf|]. intros [c s] H. simpl in *.
    by destruct (imputed_dtype_len s) as [_ ->].
Qed.

Lemma impute_keeps_shape_and_dtypes_witness :
  pd.shape (cleaning.impute_missing_values Samples.orders []).1 = (4, 3)%nat
  /\ pd.dtypes (cleaning.impute_missing_values Samples.orders []).1
     = [("id", pd.int64); ("value", pd.float64); ("date_created", pd.datetime64_ns)].
Proof.
  assert (Hnd : List.NoDup (pd.columns Samples.orders))
    by (apply NoDup_ListNoDup; compute_done).
  destruct (impute_keeps_shape_and_dtypes Samples.orders [] Hnd)
    as (Hshape & Hdt & _).
  split; [exact Hshape|exact Hdt].
Defined.

Lemma Series_take_dtype (m : list bool) (s : pd.Series) :
  pd.Series_dtype (pd.Series_take m s) = pd.Series_dtype s.
Proof. by destruct s. Qed.

Lemma take_mask_length_le {A : Type} (m : list bool) (l : list A) :
  (length (pd.take_mask m l) <= length l)%nat.
Proof. apply sublist_length, take_mask_sublist. Qed.

(** X3. Duplicate removal keeps the dtypes and the number of columns,
    never adds a row, keeps row labels in their order, and keeps the
    columns as long as the index. *)
Theorem drop_duplicates_invariants (df : pd.DataFrame) (log : list string) :
  let out := cleaning.drop_duplicates df log in
  pd.dtypes out.1 = pd.dtypes df
  /\ (pd.shape out.1).2 = (pd.shape df).2
  /\ ((pd.shape out.1).1 <= (pd.shape df).1)%nat
  /\ sublist (pd.index out.1) (pd.index df)
  /\ (pd.wf df -> pd.wf out.1).
Proof.
  intros out. subst out. unfold cleaning.drop_duplicates. simpl.
  split; [|split; [apply shape_fst_drop|split; [|split; [|apply wf_drop_duplicates]]]].
  - unfold pd.drop_duplicates. destruct (pd.empty df); [done|].
    unfold pd.dtypes. simpl. rewrite map_map. apply map_ext.
    intros [c s]. simpl. by rewrite Series_take_dtype.
  - unfold pd.drop_duplicates. destruct (pd.empty df); [done|].
    unfold pd.shape. simpl. apply take_mask_length_le.
  - unfold pd.drop_duplicates. destruct (pd.empty df); [done|].
    simpl. apply take_mask_sublist.
Qed.

Lemma no_duplicates_mask (rs : list pd.row) :
  (forall i, ~ Spec.duplicate_of_earlier rs i) ->
  Forall (fun b => b = true) (map negb (pd.duplicated_from [] rs)).
Proof.
  intros Hno. apply Forall_forall. intros b Hb.
  apply list_elem_of_lookup in Hb as [i Hi].
  destruct b; [done|]. apply keep_mask_spec in Hi. by apply Hno in Hi.
Qed.

Lemma drop_duplicates_all_kept (df : pd.DataFrame) :
  pd.wf df ->
  Forall (fun b => b = true) (map negb (pd.duplicated df)) ->
  pd.drop_duplicates df = df.
Proof.
  intros Hwf Hall. unfold pd.drop_duplicates. destruct (pd.empty df); [done|].
  assert (Hm : length (map negb (pd.duplicated df)) = length (pd.index df)).
  { unfold pd.duplicated.
    by rewrite length_map, duplicated_from_length, rows_length. }
  destruct df as [ix dat]. simpl in *. f_equal.
  - apply take_mask_all_true; [done|lia].
  - rewrite <- (map_id dat) at 2. apply map_ext_Forall.
    eapply Forall_impl; [exact Hwf|]. intros [c s] Hs; simpl in *.
    f_equal. apply Series_take_all; [done|lia].
Qed.

(** X4. On a frame in which no row repeats an earlier row, duplicate
    removal returns the frame as it is and logs an entry whose two shapes
    are equal. *)
Theorem drop_duplicates_without_duplicates
    (df : pd.DataFrame) (log : list string) :
  pd.wf df ->
  (forall i, ~ Spec.duplicate_of_earlier (pd.rows df) i) ->
  cleaning.drop_duplicates df log
  = (df, log ++ [cleaning.drop_entry (pd.shape df) (pd.shape df)]).
Proof.
  intros Hwf Hno. unfold cleaning.drop_duplicates.
  by rewrite (drop_duplicates_all_kept df Hwf (no_duplicates_mask _ Hno)).
Qed.

Lemma drop_duplicates_without_duplicates_witness :
  cleaning.drop_duplicates Samples.complete []
  = (Samples.complete,
     ["df.drop_duplicates(inplace=True)  # Dropped duplicates. Shape from (2, 2) to (2, 2)"]).
Proof.
  assert (Hwf : pd.wf Samples.complete) by (repeat constructor).
  assert (Hno : forall i, ~ Spec.duplicate_of_earlier (pd.rows Samples.complete) i).
  { intros i Hd%duplicated_from_nil_spec.
    destruct i as [|[|i]]; vm_compute in Hd; discriminate. }
  exact (drop_duplicates_without_duplicates Samples.complete [] Hwf Hno).
Defined.

(** X5. After duplicate removal no row repeats an earlier row (on a frame
    with at least one column, whose columns are as long as its index). *)
Theorem drop_duplicates_leaves_no_duplicate
    (df : pd.DataFrame) (log : list string) (i : nat) :
  pd.wf df -> pd.data df <> [] ->
  ~ Spec.duplicate_of_earlier (pd.rows (cleaning.drop_duplicates df log).1) i.
Proof.
  intros Hwf Hcols. unfold cleaning.drop_duplicates. simpl.
  destruct (pd.empty df) eqn:He.
  - assert (Hix : pd.index df = []).
    { unfold pd.empty in He. apply orb_true_iff in He as [He|He].
      - apply Nat.eqb_eq in He. by apply length_zero_iff_nil.
      - apply Nat.eqb_eq, length_zero_iff_nil in He. done. }
    unfold pd.drop_duplicates. rewrite He, (rows_no_index df Hwf Hix).
    intros Hd%duplicate_of_earlier_in_range. simpl in Hd. lia.
  - rewrite rows_drop_duplicates by done.
    intros Hd%duplicated_from_nil_spec.
    pose proof (duplicated_from_kept [] [] (pd.rows df) (fun r H => H)) as Hk.
    rewrite Forall_forall in Hk.
    assert (true = false); [|done]. apply Hk.
    apply list_elem_of_lookup. by exists i.
Qed.

Lemma drop_duplicates_leaves_no_duplicate_witness :
  ~ Spec.duplicate_of_earlier
      (pd.rows (cleaning.drop_duplicates Samples.orders []).1) 2.
Proof.
  assert (Hwf : pd.wf Samples.orders) by (repeat constructor).
  assert (Hcols : pd.data Samples.orders <> []) by discriminate.
  exact (drop_duplicates_leaves_no_duplicate Samples.orders [] 2 Hwf Hcols).
Defined.

Lemma drop_duplicates_invariants_witness :
  pd.wf Samples.orders
  /\ pd.wf (cleaning.drop_duplicates Samples.orders []).1
  /\ pd.shape (cleaning.drop_duplicates Samples.orders []).1 = (3, 3)%nat.
Proof.
  assert (Hwf : pd.wf Samples.orders) by (repeat constructor).
  destruct (drop_duplicates_invariants Samples.orders [])
    as (_ & _ & _ & _ & Hkeeps).
  split; [exact Hwf|]. split; [exact (Hkeeps Hwf)|]. vm_compute. reflexivity.
Defined.

Lemma bool_sum_take_mask (m l : list bool) :
  (pd.bool_sum (pd.take_mask m l) <= pd.bool_sum l)%nat.
Proof.
  revert l. induction m as [|b m IH]; intros [|x l];
    try apply Nat.le_0_l.
  simpl pd.take_mask. rewrite (bool_sum_cons x l). specialize (IH l).
  destruct b; [rewrite bool_sum_cons|]; destruct x; lia.
Qed.

Lemma isnull_take (m : list bool) (s : pd.Series) :
  pd.Series_isnull (pd.Series_take m s) = pd.take_mask m (pd.Series_isnull s).
Proof. destruct s; simpl; by rewrite take_mask_map. Qed.

Lemma bool_sum_fillna_le (value : float) (v : list float) :
  (pd.bool_sum (map is_nan (map (fun x => if is_nan x then value else x) v))
   <= pd.bool_sum (map is_nan v))%nat.
Proof.
  induction v as [|x v IH]; [done|]. simpl map. rewrite !bool_sum_cons.
  destruct (is_nan x) eqn:Hx; [|rewrite Hx; lia].
  destruct (is_nan value); lia.
Qed.

Lemma isnull_imputed_le (s : pd.Series) :
  (pd.bool_sum (pd.Series_isnull (Spec.imputed s))
   <= pd.bool_sum (pd.Series_isnull s))%nat.
Proof.
  unfold Spec.imputed. destruct (Spec.needs_imputation s); [|done].
  destruct s; simpl; try done. apply bool_sum_fillna_le.
Qed.

(** X6. Neither cleaning operation ever raises the number of missing cells
    of a column: column by column, in column order, the count after is at
    most the count before. *)
Theorem cleaning_never_adds_missing_cells
    (df : pd.DataFrame) (log : list string) :
  Forall2 (fun before after => after.1 = before.1 /\ (after.2 <= before.2)%nat)
    (plots.missing_counts df)
    (plots.missing_counts (cleaning.drop_duplicates df log).1)
  /\ (List.NoDup (pd.columns df) ->
      Forall2 (fun before after => after.1 = before.1 /\ (after.2 <= before.2)%nat)
        (plots.missing_counts df)
        (plots.missing_counts (cleaning.impute_missing_values df log).1)).
Proof.
  split.
  - unfold cleaning.drop_duplicates, pd.drop_duplicates. simpl.
    destruct (pd.empty df).
    + apply Forall2_same_length_lookup. split; [done|].
      intros i x y Hx Hy. rewrite Hx in Hy. injection Hy as <-. split; [done|lia].
    + unfold plots.missing_counts. simpl.
      induction (pd.data df) as [|[c s] cs IH]; simpl; constructor; [|done].
      simpl. split; [done|]. rewrite isnull_take. apply bool_sum_take_mask.
  - intros Hnd. rewrite impute_columnwise by done.
    unfold plots.missing_counts. simpl.
    induction (pd.data df) as [|[c s] cs IH]; simpl; constructor; [|done].
    simpl. split; [done|]. apply isnull_imputed_le.
Qed.

Lemma cleaning_never_adds_missing_cells_witness :
  plots.missing_counts Samples.orders
  = [("id", 0); ("value", 2); ("date_created", 1)]%nat
  /\ plots.missing_counts (cleaning.impute_missing_values Samples.orders []).1
     = [("id", 0); ("value", 0); ("date_created", 1)]%nat
  /\ Forall2 (fun before after => after.1 = before.1 /\ (after.2 <= before.2)%nat)
       (plots.missing_counts Samples.orders)
       (plots.missing_counts (cleaning.impute_missing_values Samples.orders []).1).
Proof.
  assert (Hnd : List.NoDup (pd.columns Samples.orders))
    by (apply NoDup_ListNoDup; compute_done).
  destruct (cleaning_never_adds_missing_cells Samples.orders []) as [_ Himp].
  split; [vm_compute; reflexivity|]. split; [vm_compute; reflexivity|].
  exact (Himp Hnd).
Defined.

(* ===================================================================== *)
(** * The missing-data plot and the readiness messages                    *)
(* ===================================================================== *)

(** X7. The missing-data plot has one bar per column, labelled with the
    column labels in column order; on a frame whose columns are as long as
    its index no bar is higher than the number of rows. *)
Theorem missing_plot_bars
    (figure : Type) (barplot : list string -> list nat -> figure)
    (df : pd.DataFrame) :
  exists heights,
    plots.generate_missing_data_plot figure barplot df
    = barplot (pd.columns df) heights
    /\ length heights = length (pd.columns df)
    /\ (forall i c s, pd.data df !! i = Some (c, s) ->
          heights !! i = Some (pd.bool_sum (pd.Series_isnull s)))
    /\ (pd.wf df ->
        Forall (fun h => (h <= length (pd.index df))%nat) heights).
Proof.
  exists (map snd (plots.missing_counts df)).
  unfold plots.generate_missing_data_plot, plots.missing_counts, pd.columns.
  rewrite !map_map. simpl. split; [done|]. split; [by rewrite !length_map|].
  split.
  - intros i c s Hi.
    change (((fun cs : string * pd.Series =>
                pd.bool_sum (pd.Series_isnull cs.2)) <$> pd.data df) !! i
            = Some (pd.bool_sum (pd.Series_isnull s))).
    by rewrite list_lookup_fmap, Hi.
  - intros Hwf. rewrite Forall_map. eapply Forall_impl; [exact Hwf|].
    intros [c s] Hs. simpl in *. rewrite <- Hs, <- isnull_length.
    unfold pd.bool_sum. apply sublist_length, filter_sublist.
Qed.

Lemma missing_plot_bars_witness :
  pd.wf Samples.orders
  /\ exists heights,
       plots.generate_missing_data_plot (list (string * nat))
         (fun x y => zip x y) Samples.orders
       = zip ["id"; "value"; "date_created"] heights
       /\ Forall (fun h => (h <= 4)%nat) heights.
Proof.
  assert (Hwf : pd.wf Samples.orders) by (repeat constructor).
  destruct (missing_plot_bars (list (string * nat)) (fun x y => zip x y)
              Samples.orders) as (heights & Hfig & _ & _ & Hle).
  split; [exact Hwf|]. exists heights. split; [exact Hfig|exact (Hle Hwf)].
Defined.

(** Zero divided by any float is not above zero. *)
Lemma zero_over_not_positive (x : float) :
  PrimFloat.ltb 0%float (PrimFloat.div 0%float x) = false.
Proof.
  rewrite FloatAxioms.ltb_spec, FloatAxioms.div_spec.
  change (Prim2SF 0%float) with (S754_zero false).
  by destruct (Prim2SF x) as [s|s| |s m e]; try destruct s.
Qed.

Lemma no_missing_no_note (c : string) (s : pd.Series) :
  pd.bool_sum (pd.Series_isnull s) = 0%nat ->
  Spec.missing_note (c, pd.bool_mean (pd.Series_isnull s)) = [].
Proof.
  intros H0. unfold Spec.missing_note, pd.bool_mean. simpl. rewrite H0.
  destruct (pd.Series_isnull s); [done|].
  change (Py.float_of_nat 0) with 0%float.
  by rewrite zero_over_not_positive.
Qed.

(** X8. [check_ml_readiness] never reports a missing percentage for a
    column without missing cells: on a frame in which no column has one,
    the list holds the dtype notes and the note of the task, nothing else;
    and in general every missing-percentage message comes from a column
    that has a missing cell. *)
Theorem readiness_silent_without_missing
    (df : pd.DataFrame) (ml_task : string) :
  ((forall c s, In (c, s) (pd.data df) ->
                pd.bool_sum (pd.Series_isnull s) = 0%nat) ->
   eda.check_ml_readiness df ml_task
   = flat_map Spec.dtype_note (pd.dtypes df) ++ Spec.task_note ml_task)
  /\ (forall m, In m (eda.check_ml_readiness df ml_task) ->
        (exists c s,
            In (c, s) (pd.data df)
            /\ (0 < pd.bool_sum (pd.Series_isnull s))%nat
            /\ m = eda.missing_message c (pd.bool_mean (pd.Series_isnull s)))
        \/ In m (flat_map Spec.dtype_note (pd.dtypes df)
                   ++ Spec.task_note ml_task)).
Proof.
  split.
  - intros Hnone. rewrite check_ml_readiness_notes. unfold Spec.column_notes.
    replace (flat_map Spec.missing_note (eda.missing df)) with (@nil string);
      [done|].
    unfold eda.missing. symmetry.
    induction (pd.data df) as [|[c s] cs IH]; simpl; [done|].
    rewrite (no_missing_no_note c s) by (apply (Hnone c s); by left).
    apply IH. intros c' s' Hin. apply (Hnone c' s'). by right.
  - intros m Hm. rewrite check_ml_readiness_notes in Hm.
    unfold Spec.column_notes in Hm. rewrite <- app_assoc in Hm.
    apply in_app_or in Hm as [Hm|Hm]; [left|by right].
    apply in_flat_map in Hm as ([c p] & Hin & Hm).
    unfold eda.missing in Hin. apply in_map_iff in Hin as ([c' s] & Heq & Hin).
    simpl in Heq. inversion Heq; subst. exists c, s. split; [done|].
    destruct (pd.bool_sum (pd.Series_isnull s)) as [|k] eqn:Hk.
    + by rewrite no_missing_no_note in Hm.
    + split; [lia|]. unfold Spec.missing_note in Hm. simpl in Hm.
      destruct (PrimFloat.ltb 0 (pd.bool_mean (pd.Series_isnull s))); [|done].
      by destruct Hm as [<-|[]].
Qed.

Lemma readiness_silent_without_missing_witness :
  eda.check_ml_readiness Samples.complete "Self-supervised Learning"
  = ["Self-supervised learning typically requires a large amount of unlabeled data."].
Proof.
  destruct (readiness_silent_without_missing Samples.complete
              "Self-supervised Learning") as [Hsilent _].
  rewrite Hsilent; [vm_compute; reflexivity|].
  intros c s [Heq|[Heq|[]]]; inversion Heq; vm_compute; reflexivity.
Defined.

Lemma flat_map_nil_iff {X Y : Type} (f : X -> list Y) (l : list X) :
  flat_map f l = [] <-> forall x, In x l -> f x = [].
Proof.
  induction l as [|x l IH]; simpl; [by split|]. split.
  - intros [Hx Hl]%app_eq_nil y [<-|Hy]; [done|]. by apply IH.
  - intros H. rewrite (H x) by (by left). apply IH. intros y Hy. apply H.
    by right.
Qed.

(** X9. For the task "Other" the list is empty exactly when no column has
    a missing fraction above zero and no column is of object or datetime
    dtype. *)
Theorem readiness_empty_iff (df : pd.DataFrame) :
  eda.check_ml_readiness df "Other" = []
  <-> forall c s,
        In (c, s) (pd.data df) ->
        PrimFloat.ltb 0%float (pd.bool_mean (pd.Series_isnull s)) = false
        /\ pd.Series_dtype s <> pd.object_
        /\ pd.Series_dtype s <> pd.datetime64_ns.
Proof.
  rewrite check_ml_readiness_notes. unfold Spec.column_notes.
  change (Spec.task_note "Other") with (@nil string). rewrite app_nil_r.
  split.
  - intros [Hm Hd]%app_eq_nil c s Hin.
    rewrite flat_map_nil_iff in Hm. rewrite flat_map_nil_iff in Hd.
    specialize (Hm (c, pd.bool_mean (pd.Series_isnull s))).
    specialize (Hd (c, pd.Series_dtype s)).
    split; [|split].
    + unfold Spec.missing_note in Hm. simpl in Hm.
      destruct (PrimFloat.ltb 0 (pd.bool_mean (pd.Series_isnull s))); [|done].
      exfalso. unfold eda.missing in Hm.
      assert (In (c, pd.bool_mean (pd.Series_isnull s))
                (map (fun cs : string * pd.Series =>
                        (cs.1, pd.bool_mean (pd.Series_isnull cs.2)))
                   (pd.data df))) as Hi
        by (apply in_map_iff; by exists (c, s)).
      by specialize (Hm Hi).
    + intros Ho. unfold Spec.dtype_note, pd.dtypes in Hd. simpl in Hd.
      rewrite Ho in Hd.
      assert (In (c, pd.object_)
                (map (fun cs : string * pd.Series => (cs.1, pd.Series_dtype cs.2))
                   (pd.data df))) as Hi
        by (apply in_map_iff; exists (c, s); by rewrite <- Ho).
      by specialize (Hd Hi).
    + intros Ho. unfold Spec.dtype_note, pd.dtypes in Hd. simpl in Hd.
      rewrite Ho in Hd.
      assert (In (c, pd.datetime64_ns)
                (map (fun cs : string * pd.Series => (cs.1, pd.Series_dtype cs.2))
                   (pd.data df))) as Hi
        by (apply in_map_iff; exists (c, s); by rewrite <- Ho).
      by specialize (Hd Hi).
  - intros Hall.
    assert (Hm : flat_map Spec.missing_note (eda.missing df) = []).
    { apply flat_map_nil_iff. intros [c p] Hin. unfold eda.missing in Hin.
      apply in_map_iff in Hin as ([c' s] & Heq & Hin). simpl in Heq.
      inversion Heq; subst. destruct (Hall _ _ Hin) as (Hp & _).
      unfold Spec.missing_note. simpl. by rewrite Hp. }
    assert (Hd : flat_map Spec.dtype_note (pd.dtypes df) = []).
    { apply flat_map_nil_iff. intros [c d] Hin. unfold pd.dtypes in Hin.
      apply in_map_iff in Hin as ([c' s] & Heq & Hin). simpl in Heq.
      inversion Heq; subst. destruct (Hall _ _ Hin) as (_ & Ho & Hd).
      unfold Spec.dtype_note. simpl. by destruct (pd.Series_dtype s). }
    by rewrite Hm, Hd.
Qed.

Lemma readiness_empty_iff_witness :
  eda.check_ml_readiness Samples.complete "Other" = [].
Proof.
  apply readiness_empty_iff.
  intros c s [Heq|[Heq|[]]]; inversion Heq; repeat split; try done.
Defined.

(* ===================================================================== *)
(** * The exported script determines the log                              *)
(* ===================================================================== *)

Lemma single_line_app (a b : string) :
  Notions.single_line (a +:+ b)
  <-> Notions.single_line a /\ Notions.single_line b.
Proof.
  induction a as [|ch a IH]; simpl; [tauto|].
  change (String ch a +:+ b) with (String ch (a +:+ b)). simpl. tauto.
Qed.

Lemma newline_not_single_line (z : string) :
  ~ Notions.single_line (llm.newline +:+ z).
Proof. intros [H _]. by apply H. Qed.

Lemma split_at_newline (a b x y : string) :
  Notions.single_line a -> Notions.single_line b ->
  a +:+ llm.newline +:+ x = b +:+ llm.newline +:+ y -> a = b /\ x = y.
Proof.
  revert b. induction a as [|ch a IH]; intros [|ch' b] Ha Hb Heq.
  - split; [done|]. by inversion Heq.
  - exfalso. destruct Hb as [Hb _]. apply Hb.
    change (String (ascii_of_nat 10) x = String ch' (b +:+ llm.newline +:+ y))
      in Heq. by inversion Heq.
  - exfalso. destruct Ha as [Ha _]. apply Ha.
    change (String ch (a +:+ llm.newline +:+ x) = String (ascii_of_nat 10) y)
      in Heq. by inversion Heq.
  - change (String ch (a +:+ llm.newline +:+ x)
            = String ch' (b +:+ llm.newline +:+ y)) in Heq.
    inversion Heq; subst. destruct Ha as [_ Ha], Hb as [_ Hb].
    destruct (IH b Ha Hb) as [-> ->]; done.
Qed.

Lemma join_two (sep l r : string) (rest : list string) :
  Py.join sep (l :: r :: rest) = l +:+ sep +:+ Py.join sep (r :: rest).
Proof. done. Qed.

(** Lines without line feeds can be read back from their join. *)
Lemma join_single_lines_inj (l1 l2 : list string) :
  Forall Notions.single_line l1 -> Forall Notions.single_line l2 ->
  l1 <> [] -> l2 <> [] ->
  Py.join llm.newline l1 = Py.join llm.newline l2 -> l1 = l2.
Proof.
  intros H1. revert l2. induction H1 as [|a l1 Ha H1 IH]; [done|].
  intros l2 H2 _ Hne2 Heq. destruct H2 as [|b l2 Hb H2]; [done|].
  destruct l1 as [|a2 l1], l2 as [|b2 l2].
  - simpl in Heq. by subst.
  - exfalso. rewrite join_two in Heq. simpl in Heq. subst a.
    apply single_line_app in Ha as [_ Ha]. by apply newline_not_single_line in Ha.
  - exfalso. rewrite join_two in Heq. simpl in Heq. subst b.
    apply single_line_app in Hb as [_ Hb]. by apply newline_not_single_line in Hb.
  - rewrite !join_two in Heq.
    destruct (split_at_newline _ _ _ _ Ha Hb Heq) as [-> Hrest].
    f_equal. by apply IH.
Qed.

Lemma join_cons_cancel (h : string) (l1 l2 : list string) :
  l1 <> [] -> l2 <> [] ->
  Py.join llm.newline (h :: l1) = Py.join llm.newline (h :: l2) ->
  Py.join llm.newline l1 = Py.join llm.newline l2.
Proof.
  intros H1 H2. destruct l1 as [|a l1], l2 as [|b l2]; try done.
  rewrite !join_two. intros Heq. apply String.app_inj in Heq.
  by apply String.app_inj in Heq.
Qed.

(** X10. Two logs of single-line entries with the same exported script
    text (for the same timestamp) are the same log: the script keeps the
    entries and their order. *)
Theorem script_content_determines_log
    (generated_on : string) (log1 log2 : list string) :
  Forall Notions.single_line log1 -> Forall Notions.single_line log2 ->
  app.script_content generated_on log1 = app.script_content generated_on log2 ->
  log1 = log2.
Proof.
  intros H1 H2. rewrite !script_content_lines. unfold Spec.script_lines.
  unfold app.script_header. simpl app.
  intros Heq.
  do 7 (apply join_cons_cancel in Heq;
        [|first [done|by destruct log1]|first [done|by destruct log2]]).
  apply join_single_lines_inj in Heq.
  - apply app_inv_tail in Heq. revert log2 H2 Heq.
    induction log1 as [|e1 log1 IH]; intros [|e2 log2] H2 Heq; try done.
    simpl in Heq. inversion Heq as [[He Hrest]].
    apply String.app_inj in He. subst e2. f_equal.
    apply IH; [by inversion H1|by inversion H2|done].
  - apply Forall_app. split; [|by repeat constructor].
    rewrite Forall_map. eapply Forall_impl; [exact H1|].
    intros e He. apply single_line_app. split; [|done].
    simpl. by repeat split.
  - apply Forall_app. split; [|by repeat constructor].
    rewrite Forall_map. eapply Forall_impl; [exact H2|].
    intros e He. apply single_line_app. split; [|done].
    simpl. by repeat split.
  - by destruct log1.
  - by destruct log2.
Qed.

Lemma script_content_determines_log_witness :
  Forall Notions.single_line ["df.dropna()"; "df.reset_index()"]
  /\ ["df.dropna()"; "df.reset_index()"] = ["df.dropna()"; "df.reset_index()"].
Proof.
  assert (H : Forall Notions.single_line ["df.dropna()"; "df.reset_index()"]).
  { repeat constructor; simpl; repeat split; discriminate. }
  split; [exact H|].
  exact (script_content_determines_log "2024-05-01 10:00:00" _ _ H H eq_refl).
Defined.

(* ===================================================================== *)
(** * What the exports write                                              *)
(* ===================================================================== *)

Section WritesWithin.
Context {A B : Type}.
Variable paths : list string.

Lemma writes_within_ret (a : A) : Notions.writes_within paths (app.ret a).
Proof. by intros s p Hp. Qed.

Lemma writes_within_bind (m : app.M A) (k : A -> app.M B) :
  Notions.writes_within paths m ->
  (forall a, Notions.writes_within paths (k a)) ->
  Notions.writes_within paths (app.bind m k).
Proof.
  intros Hm Hk s p Hp. unfold app.bind. specialize (Hm s p Hp).
  destruct (m s) as [[a|e] s']; simpl in *; [|done].
  by rewrite (Hk a s' p Hp).
Qed.
End WritesWithin.

Lemma writes_within_show (paths : list string) (e : app.ui_event) :
  Notions.writes_within paths (app.show e).
Proof. by intros s p Hp. Qed.

Lemma writes_within_get_df (paths : list string) :
  Notions.writes_within paths app.get_df.
Proof. by intros s p Hp. Qed.

Lemma writes_within_get_log (paths : list string) :
  Notions.writes_within paths app.get_log.
Proof. by intros s p Hp. Qed.

Lemma writes_within_write_file (paths : list string) (path content : string) :
  In path paths -> Notions.writes_within paths (app.write_file path content).
Proof.
  intros Hin s p Hp. unfold app.write_file, app.open_write.
  destruct (app.write_error (app.fs s) path); simpl; [done|].
  destruct (String.eqb_spec p path) as [->|_]; [by destruct Hp|done].
Qed.

Lemma writes_within_when (paths : list string) (b : bool) (m : app.M unit) :
  Notions.writes_within paths m -> Notions.writes_within paths (app.when b m).
Proof. destruct b; [done|]. intros _. apply writes_within_ret. Qed.

Lemma writes_within_try (paths : list string) (m : app.M unit)
    (h : Py.exn -> app.M unit) :
  Notions.writes_within paths m ->
  (forall e, Notions.writes_within paths (h e)) ->
  Notions.writes_within paths (app.try_except m h).
Proof.
  intros Hm Hh s p Hp. unfold app.try_except. specialize (Hm s p Hp).
  destruct (m s) as [[a|e] s']; simpl in *; [done|].
  by rewrite (Hh e s' p Hp).
Qed.

Create HintDb writes_within.
#[local] Hint Resolve writes_within_ret writes_within_show writes_within_get_df
  writes_within_get_log writes_within_when : writes_within.

Ltac writes_within :=
  repeat first
    [ apply writes_within_bind; [|intros ?]
    | apply writes_within_when
    | apply writes_within_write_file;
      first [ left; reflexivity
            | right; left; reflexivity
            | right; right; left; reflexivity ]
    | progress auto with writes_within ].

(** X11. The export section writes nowhere but at the three export paths:
    the timestamped CSV path, [export/transformation_script.py] and the
    timestamped report path. Every other file is as it was, whatever
    buttons are pressed and whether or not a write fails. *)
Theorem exports_write_only_their_files
    (datetime : Type) (strftime : datetime -> string -> string)
    (to_csv : pd.DataFrame -> string)
    (describe_to_html : pd.DataFrame -> string)
    (template_render : string -> string -> list string -> string)
    (button : string -> bool) (t1 t2 t3 : datetime) (s : app.session)
    (p : string) :
  p <> "export/cleaned_data_" +:+ strftime t1 "%Y%m%d_%H%M%S" +:+ ".csv" ->
  p <> "export/transformation_script.py" ->
  p <> "export/eda_report_" +:+ strftime t3 "%Y%m%d_%H%M%S" +:+ ".html" ->
  app.files
    (app.fs
       (app.main_exports datetime strftime to_csv describe_to_html
          template_render button t1 t2 t3 s).2) p
  = app.files (app.fs s) p.
Proof.
  intros H1 H2 H3.
  assert (Hw : Notions.writes_within
            [ "export/cleaned_data_" +:+ strftime t1 "%Y%m%d_%H%M%S" +:+ ".csv";
              "export/transformation_script.py";
              "export/eda_report_" +:+ strftime t3 "%Y%m%d_%H%M%S" +:+ ".html" ]
            (app.main_exports datetime strftime to_csv describe_to_html
               template_render button t1 t2 t3)).
  { unfold app.main_exports. apply writes_within_try.
    - unfold app.export_options, app.export_csv, app.export_script,
        app.export_report, app.export_transformation_script,
        app.export_eda_report, os.path_join.
      writes_within.
    - intros e. apply writes_within_show. }
  apply Hw. simpl. intros [<-|[<-|[<-|[]]]]; done.
Qed.

Lemma exports_write_only_their_files_witness :
  app.files
    (app.fs
       (app.main_exports unit (fun _ _ => "20240501_100000") (fun _ => "csv")
          (fun _ => "<table>") (fun _ _ _ => "<html>") (fun _ => true)
          tt tt tt
          (app.mkSession Samples.orders []
             (app.mkFS (fun p => if String.eqb p "data/raw.csv" then Some "raw"
                                 else None)
                (fun _ => None)) [])).2)
    "data/raw.csv"
  = Some "raw".
Proof.
  apply (exports_write_only_their_files unit (fun _ _ => "20240501_100000")
           (fun _ => "csv") (fun _ => "<table>") (fun _ _ _ => "<html>")
           (fun _ => true) tt tt tt
           (app.mkSession Samples.orders []
              (app.mkFS (fun p => if String.eqb p "data/raw.csv" then Some "raw"
                                  else None)
                 (fun _ => None)) [])
           "data/raw.csv"); vm_compute; discriminate.
Defined.






(* ===================================================================== *)
(** * Ingestion: what the loaded frame is like                            *)
(* ===================================================================== *)

(** How a successful ingestion came about. *)
Lemma ingest_success
    (parse_csv : string -> option (list string) -> Py.result pd.DataFrame)
    (f f' : app.UploadedFile) (df : pd.DataFrame)
    (notices : list app.ui_event) :
  app.ingest parse_csv f = (Return df, f', notices) ->
  exists df0 df1 hint,
    parse_csv (app.string_drop (app.pos f) (app.content f)) None = Return df0
    /\ parse_csv (app.content f) hint = Return df1
    /\ df = fold_left
              (app.coerce_body (List.filter app.is_date_like (pd.columns df0)))
              (pd.select_dtypes pd.is_object df1) df1
    /\ f' = app.mkFile (app.content f) (String.length (app.content f))
    /\ length notices = 1%nat.
Proof.
  unfold app.ingest, app.read_csv. simpl.
  destruct (parse_csv (app.string_drop (app.pos f) (app.content f)) None)
    as [df0|e] eqn:Hfirst; [|done].
  change (app.string_drop 0 (app.content f)) with (app.content f).
  destruct (List.filter app.is_date_like (pd.columns df0)) as [|c cs] eqn:Hdates.
  - destruct (parse_csv (app.content f) None) as [df1|e] eqn:Hsecond; [|done].
    intros [= <- <- <-]. exists df0, df1, None. by rewrite Hdates.
  - destruct (parse_csv (app.content f) (Some (c :: cs))) as [df1|e] eqn:Hsecond;
      [|done].
    intros [= <- <- <-]. exists df0, df1, (Some (c :: cs)). by rewrite Hdates.
Qed.

Lemma assoc_set_columns (col : string) (s s' : pd.Series)
    (cs : list (string * pd.Series)) :
  pd.assoc col cs = Some s -> map fst (pd.assoc_set col s' cs) = map fst cs.
Proof.
  induction cs as [|[c x] cs IH]; simpl; [done|].
  destruct (String.eqb c col); [done|]. intros H. simpl. by rewrite IH.
Qed.

Lemma coerce_body_columns (date_columns : list string) (cols : list string)
    (df : pd.DataFrame) :
  pd.columns (fold_left (app.coerce_body date_columns) cols df) = pd.columns df.
Proof.
  revert df. induction cols as [|c cols IH]; intros df; simpl; [done|].
  rewrite IH. unfold app.coerce_body.
  destruct (negb (app.str_elem c date_columns)); [|done].
  destruct (pd.getitem df c) as [s|] eqn:Hget; [|done].
  unfold pd.columns, pd.setitem. simpl. by eapply assoc_set_columns.
Qed.

Lemma all_text_no_missing (s : pd.Series) :
  Spec.all_text s -> pd.bool_sum (pd.Series_isnull s) = 0%nat.
Proof.
  destruct s as [v|v|v|v|v]; simpl; try done.
  induction 1 as [|o v [t ->] _ IH]; [done|]. simpl map.
  by rewrite bool_sum_cons, IH.
Qed.

Lemma coerced_dtype_len (date_columns : list string) (cs : string * pd.Series) :
  (Spec.coerced date_columns cs).1 = cs.1
  /\ pd.Series_dtype (Spec.coerced date_columns cs).2 = pd.Series_dtype cs.2
  /\ pd.Series_len (Spec.coerced date_columns cs).2 = pd.Series_len cs.2.
Proof.
  unfold Spec.coerced. destruct cs as [c s].
  destruct s as [v|v|v|v|v]; simpl; try done.
  destruct (negb (app.str_elem c date_columns)); simpl; [|done].
  by rewrite length_map.
Qed.

(** X13. After a successful ingestion that gives a frame with distinct
    column labels, every object column whose label is not date-like holds
    text in every cell and has no missing cell: a field that was empty in
    the file now reads as text, and the readiness check has nothing to say
    about missing values in that column. *)
Theorem ingested_text_columns_have_no_missing
    (parse_csv : string -> option (list string) -> Py.result pd.DataFrame)
    (f f' : app.UploadedFile) (df : pd.DataFrame)
    (notices : list app.ui_event) (c : string) (s : pd.Series) :
  app.ingest parse_csv f = (Return df, f', notices) ->
  List.NoDup (pd.columns df) ->
  In (c, s) (pd.data df) ->
  pd.Series_dtype s = pd.object_ ->
  app.is_date_like c = false ->
  Spec.all_text s
  /\ pd.bool_sum (pd.Series_isnull s) = 0%nat
  /\ Spec.missing_note (c, pd.bool_mean (pd.Series_isnull s)) = [].
Proof.
  intros Hok Hnd Hin Hobj Hdate.
  destruct (ingest_success _ _ _ _ _ Hok)
    as (df0 & df1 & hint & _ & Hsecond & -> & _ & _).
  rewrite coerce_body_columns in Hnd.
  rewrite ingest_coerce in Hin by done. simpl in Hin.
  apply in_map_iff in Hin as ([c0 s0] & Heq & Hin).
  assert (c0 = c) as ->.
  { destruct (coerced_dtype_len
                (List.filter app.is_date_like (pd.columns df0)) (c0, s0))
      as (Hc & _). rewrite Heq in Hc. done. }
  assert (Htext : Spec.all_text s).
  { eapply coerced_text; [exact Heq|exact Hobj|].
    intros [_ Hd]%filter_In. congruence. }
  split; [done|]. split; [by apply all_text_no_missing|].
  by apply no_missing_no_note, all_text_no_missing.
Qed.

Lemma ingested_text_columns_have_no_missing_witness :
  Spec.all_text (pd.SObject [pd.PStr "7"; pd.PStr "ok"; pd.PStr "nan"])
  /\ pd.bool_sum
       (pd.Series_isnull (pd.SObject [pd.PStr "7"; pd.PStr "ok"; pd.PStr "nan"]))
     = 0%nat
  /\ Spec.missing_note
       ("note",
        pd.bool_mean
          (pd.Series_isnull (pd.SObject [pd.PStr "7"; pd.PStr "ok"; pd.PStr "nan"])))
     = [].
Proof.
  eapply (ingested_text_columns_have_no_missing Samples.upload_parser
            (app.mkFile Samples.upload_text 0)).
  - vm_compute. reflexivity.
  - apply NoDup_ListNoDup. compute_done.
  - simpl. right. left. reflexivity.
  - reflexivity.
  - reflexivity.
Defined.

(** X14. A successful ingestion keeps the index and the column labels of
    its second parse, leaves the stream at its end and shows exactly one
    notice; when the labels are distinct it also keeps every column's
    dtype and length, so a frame whose columns are as long as its index
    stays one. *)
Theorem ingest_keeps_axes_and_dtypes
    (parse_csv : string -> option (list string) -> Py.result pd.DataFrame)
    (f f' : app.UploadedFile) (df : pd.DataFrame)
    (notices : list app.ui_event) :
  app.ingest parse_csv f = (Return df, f', notices) ->
  exists df1 hint,
    parse_csv (app.content f) hint = Return df1
    /\ pd.index df = pd.index df1
    /\ pd.columns df = pd.columns df1
    /\ app.pos f' = String.length (app.content f)
    /\ length notices = 1%nat
    /\ (List.NoDup (pd.columns df1) ->
        pd.dtypes df = pd.dtypes df1
        /\ pd.shape df = pd.shape df1
        /\ (pd.wf df1 -> pd.wf df)).
Proof.
  intros Hok.
  destruct (ingest_success _ _ _ _ _ Hok)
    as (df0 & df1 & hint & _ & Hsecond & -> & -> & Hone).
  exists df1, hint. split; [done|].
  split; [apply coerce_body_index|]. split; [apply coerce_body_columns|].
  split; [done|]. split; [done|].
  intros Hnd. rewrite ingest_coerce by done.
  set (dc := List.filter app.is_date_like (pd.columns df0)).
  split; [|split].
  - unfold pd.dtypes. simpl. rewrite map_map. apply map_ext.
    intros cs. destruct (coerced_dtype_len dc cs) as (-> & -> & _). done.
  - unfold pd.shape. simpl. by rewrite length_map.
  - unfold pd.wf. simpl. intros Hwf. rewrite Forall_map.
    eapply Forall_impl; [exact Hwf|]. intros cs Hlen. simpl.
    destruct (coerced_dtype_len dc cs) as (_ & _ & ->). done.
Qed.

Lemma ingest_keeps_axes_and_dtypes_witness :
  exists df1 hint,
    Samples.upload_parser Samples.upload_text hint = Return df1
    /\ pd.index Samples.upload_dated = pd.index df1.
Proof.
  destruct (ingest_keeps_axes_and_dtypes Samples.upload_parser
              (app.mkFile Samples.upload_text 0)
              (app.mkFile Samples.upload_text 65)
              (pd.mkDataFrame [0; 1; 2]%Z
                 [ ("id", pd.SInt [1; 2; 3]%Z);
                   ("note", pd.SObject [pd.PStr "7"; pd.PStr "ok"; pd.PStr "nan"]);
                   ("Created_Date",
                    pd.SDatetime [Some 19723; Some 19724; Some 19725]%Z) ])
              [app.st_info "Date parsing applied to columns: Created_Date"])
    as (df1 & hint & Hparse & Hix & _).
  - vm_compute. reflexivity.
  - exists df1, hint. split; [exact Hparse|exact Hix].
Defined.

(* ===================================================================== *)
(** * [main] as a whole                                                   *)
(* ===================================================================== *)

Lemma page_bind_run {A B : Type} (m : main.P A) (k : A -> main.P B)
    (p : main.page) :
  main.bind m k p
  = match m p with
    | (Py.Return a, p') => k a p'
    | (Py.Raise e, p') => (Raise e, p')
    end.
Proof. done. Qed.

(** Both advisory calls stop at the name [os] does not bind. *)
Lemma advisory_raise
    (chat_completion : string -> string -> string -> nat -> Py.result string)
    (env : os.environ) (summary ml_task : string) :
  llm.get_cleaning_suggestions chat_completion env summary ml_task
  = Raise (Py.AttributeError "module 'os' has no attribute 'get_env'")
  /\ llm.get_additional_checks chat_completion env summary ml_task
     = Raise (Py.AttributeError "module 'os' has no attribute 'get_env'").
Proof. split; reflexivity. Qed.

Lemma get_df_run (s : app.session) (code : option (option string)) :
  main.get_df (main.mkPage s code) = (Return (app.df s), main.mkPage s code).
Proof. done. Qed.

Lemma for_each_info (msgs : list string) (d : pd.DataFrame) (l : list string)
    (fs : app.FS) (u : list app.ui_event) (code : option (option string)) :
  main.for_each main.st_info msgs (main.mkPage (app.mkSession d l fs u) code)
  = (Return tt,
     main.mkPage (app.mkSession d l fs (u ++ map app.st_info msgs)) code).
Proof.
  revert u. induction msgs as [|m msgs IH]; intros u.
  - simpl. by rewrite app_nil_r.
  - cbn [main.for_each map]. rewrite page_bind_run.
    change (main.st_info m (main.mkPage (app.mkSession d l fs u) code))
      with (Return tt,
            main.mkPage (app.mkSession d l fs (u ++ [app.st_info m])) code).
    cbv iota beta. rewrite IH. by rewrite <- app_assoc.
Qed.

Section Run.
Variable ml_task : string.
Variable checkbox : string -> bool.
Variable button : string -> bool.
Variable env : os.environ.
Variable chat_completion :
  string -> string -> string -> nat -> Py.result string.
Variable generate_summary : pd.DataFrame -> Py.result string.
Variable exec_code :
  string -> Py.result (option (pd.DataFrame -> Py.result unit * pd.DataFrame)).
Variable datetime : Type.
Variable strftime : datetime -> string -> string.
Variable to_csv : pd.DataFrame -> string.
Variable describe_to_html : pd.DataFrame -> string.
Variable template_render : string -> string -> list string -> string.
Variable parse_csv : string -> option (list string) -> Py.result pd.DataFrame.

Local Abbreviation analysis :=
  (main.analysis ml_task checkbox button env chat_completion generate_summary
     exec_code datetime strftime to_csv describe_to_html template_render).
Local Abbreviation run :=
  (main.main ml_task checkbox button env chat_completion generate_summary
     exec_code datetime strftime to_csv describe_to_html template_render
     parse_csv).

(** X15. Once a file is loaded and summarised, pressing "Get LLM Cleaning
    Suggestions" ends the run there: the readiness notes of the loaded
    frame are shown, then the handler of [main] reports the advisory
    call's AttributeError as an error reading the CSV file. Whatever the
    checkboxes and the other buttons say, nothing is cleaned, logged or
    exported, and the session's code is only initialised. *)
Theorem cleaning_suggestions_button_ends_run
    (f f' : app.UploadedFile) (df : pd.DataFrame)
    (notices : list app.ui_event) (summary : string)
    (t1 t2 t3 : datetime) (w : main.world) :
  app.ingest parse_csv f = (Return df, f', notices) ->
  generate_summary df = Return summary ->
  button "Get LLM Cleaning Suggestions" = true ->
  run (Some f) t1 t2 t3 w
  = ({| main.transformation_log := main.transformation_log w;
        main.fs := main.fs w;
        main.ui :=
          main.ui w ++ notices
            ++ map app.st_info (eda.check_ml_readiness df ml_task)
            ++ [app.st_error
                  "Error reading the CSV file: module 'os' has no attribute 'get_env'"];
        main.session_code := main.init_llm_code (main.session_code w) |},
     Some f').
Proof.
  intros Hingest Hsummary Hbutton.
  unfold main.main. rewrite Hingest. cbv zeta.
  unfold main.try_except, main.analysis.
  rewrite page_bind_run, get_df_run.
  rewrite page_bind_run. unfold main.call at 1. cbn [app.df]. rewrite Hsummary.
  rewrite page_bind_run, for_each_info.
  rewrite page_bind_run, Hbutton. unfold main.when at 1.
  rewrite page_bind_run. unfold main.call at 1.
  destruct (advisory_raise chat_completion env summary ml_task) as [-> _].
  unfold main.handler, main.world_of. simpl.
  by rewrite <- !app_assoc.
Qed.
Lemma clean_step
    (op : pd.DataFrame -> list string -> pd.DataFrame * list string)
    (msg : string) (d : pd.DataFrame) (l : list string) (fs : app.FS)
    (u : list app.ui_event) (code : option (option string)) :
  main.bind (main.clean op) (fun _ => main.st_success msg)
    (main.mkPage (app.mkSession d l fs u) code)
  = (Return tt,
     main.mkPage
       (app.mkSession (op d l).1 (op d l).2 fs (u ++ [app.st_success msg]))
       code).
Proof.
  rewrite page_bind_run. unfold main.clean. cbn [main.session app.df
    app.transformation_log app.fs app.ui main.llm_code].
  by destruct (op d l) as [d' l'].
Qed.

Lemma when_clean_step
    (op : pd.DataFrame -> list string -> pd.DataFrame * list string)
    (msg : string) (b : bool) (d : pd.DataFrame) (l : list string)
    (fs : app.FS) (u : list app.ui_event) (code : option (option string)) :
  main.when b (main.bind (main.clean op) (fun _ => main.st_success msg))
    (main.mkPage (app.mkSession d l fs u) code)
  = (Return tt,
     main.mkPage
       (app.mkSession (if b then (op d l).1 else d)
          (if b then (op d l).2 else l) fs
          (u ++ if b then [app.st_success msg] else []))
       code).
Proof.
  destruct b; [apply clean_step|]. simpl. by rewrite app_nil_r.
Qed.

(** The run from the loaded frame up to the second readiness check, when
    the first advisory button is not pressed. *)
Lemma analysis_after_cleaning (d : pd.DataFrame) (l : list string)
    (fs : app.FS) (u : list app.ui_event) (code : option (option string))
    (s1 s2 : string) (t1 t2 t3 : datetime) :
  generate_summary d = Return s1 ->
  generate_summary (Notions.cleaned checkbox d l).1 = Return s2 ->
  button "Get LLM Cleaning Suggestions" = false ->
  analysis t1 t2 t3 (main.mkPage (app.mkSession d l fs u) code)
  = main.bind
      (main.when (button "Get Additional Checks Suggestions")
         (main.bind
            (main.call
               (llm.get_additional_checks chat_completion env s1 ml_task))
            (fun additional_code => main.set_llm_code additional_code)))
      (fun _ =>
         main.bind
           (main.when (button "Run Additional Checks Code")
              (main.run_additional_checks exec_code))
           (fun _ =>
              main.lift
                (app.export_options datetime strftime to_csv describe_to_html
                   template_render button t1 t2 t3)))
      (main.mkPage
         (app.mkSession (Notions.cleaned checkbox d l).1
            (Notions.cleaned checkbox d l).2 fs
            (u ++ map app.st_info (eda.check_ml_readiness d ml_task)
               ++ Notions.cleaning_notices checkbox
               ++ map app.st_info
                    (eda.check_ml_readiness
                       (Notions.cleaned checkbox d l).1 ml_task)))
         code).
Proof.
  intros Hs1 Hs2 Hbutton. unfold main.analysis.
  rewrite page_bind_run, get_df_run.
  rewrite page_bind_run. unfold main.call at 1. cbn [app.df]. rewrite Hs1.
  rewrite page_bind_run, for_each_info.
  rewrite page_bind_run, Hbutton.
  change (main.when false ?m) with (main.ret tt). unfold main.ret at 1.
  cbv iota beta.
  rewrite page_bind_run, when_clean_step. cbv iota beta.
  rewrite page_bind_run, when_clean_step. cbv iota beta.
  rewrite page_bind_run, get_df_run.
  revert Hs2. unfold Notions.cleaned, Notions.cleaning_notices.
  destruct (cleaning.impute_missing_values d l) as [d1 l1].
  destruct (checkbox "Impute Missing Values");
    destruct (checkbox "Drop Duplicate Rows");
    cbn [fst snd app.df]; intros Hs2;
    rewrite page_bind_run; unfold main.call at 1; rewrite Hs2;
    rewrite (page_bind_run (main.for_each _ _)), for_each_info;
    cbv iota beta; rewrite <- ?app_assoc; rewrite ?app_nil_r;
    reflexivity.
Qed.
Lemma try_except_ext (body body' : main.P unit) (h : Py.exn -> main.P unit)
    (p p' : main.page) :
  body p = body' p' -> main.try_except body h p = main.try_except body' h p'.
Proof. unfold main.try_except. by intros ->. Qed.

Lemma try_bind_return {A : Type} (m : main.P A) (k : A -> main.P unit)
    (h : Py.exn -> main.P unit) (p p' : main.page) (a : A) :
  m p = (Return a, p') ->
  main.try_except (main.bind m k) h p = main.try_except (k a) h p'.
Proof. unfold main.try_except, main.bind. by intros ->. Qed.

Lemma try_bind_raise {A : Type} (m : main.P A) (k : A -> main.P unit)
    (h : Py.exn -> main.P unit) (p p' : main.page) (e : Py.exn) :
  m p = (Raise e, p') ->
  main.try_except (main.bind m k) h p = h e p'.
Proof. unfold main.try_except, main.bind. by intros ->. Qed.

Lemma no_code_init (code : option (option string)) :
  Notions.no_code code -> Notions.no_code (main.init_llm_code code).
Proof. by destruct code as [[c|]|]. Qed.

(** Without code in the session, the button that runs it only reports
    that there is none. *)
Lemma run_without_code (b : bool) (d : pd.DataFrame) (l : list string)
    (fs : app.FS) (u : list app.ui_event) (code : option (option string)) :
  Notions.no_code code ->
  main.when b (main.run_additional_checks exec_code)
    (main.mkPage (app.mkSession d l fs u) code)
  = (Return tt,
     main.mkPage
       (app.mkSession d l fs
          (u ++ if b
                then [app.st_error
                        "No additional checks code available. Please click 'Get Additional Checks Suggestions' first."]
                else []))
       code).
Proof.
  intros Hno. destruct b.
  - unfold main.when, main.run_additional_checks. cbn [main.llm_code].
    by rewrite Hno.
  - simpl. by rewrite app_nil_r.
Qed.

Lemma exports_under_try (m : app.M unit) (s : app.session)
    (code : option (option string)) :
  main.try_except (main.lift m) main.handler (main.mkPage s code)
  = (Return tt,
     main.mkPage (app.try_except m app.main_handler s).2 code).
Proof.
  unfold main.try_except, main.lift, app.try_except. cbn [main.session].
  by destruct (m s) as [[a|e] s'].
Qed.

(** X16. When the first advisory button is not pressed, pressing "Get
    Additional Checks Suggestions" ends the run after the cleaning: the
    frame is cleaned as ticked, the log has the cleaning's entries, both
    readiness reports and the cleaning notices are shown, and then the
    handler of [main] reports the advisory call's AttributeError. No code
    is stored in the session, nothing is exported. *)
Theorem additional_checks_button_ends_run
    (f f' : app.UploadedFile) (df : pd.DataFrame)
    (notices : list app.ui_event) (s1 s2 : string)
    (t1 t2 t3 : datetime) (w : main.world) :
  app.ingest parse_csv f = (Return df, f', notices) ->
  generate_summary df = Return s1 ->
  generate_summary
    (Notions.cleaned checkbox df (main.transformation_log w)).1 = Return s2 ->
  button "Get LLM Cleaning Suggestions" = false ->
  button "Get Additional Checks Suggestions" = true ->
  run (Some f) t1 t2 t3 w
  = ({| main.transformation_log :=
          (Notions.cleaned checkbox df (main.transformation_log w)).2;
        main.fs := main.fs w;
        main.ui :=
          main.ui w ++ notices
            ++ map app.st_info (eda.check_ml_readiness df ml_task)
            ++ Notions.cleaning_notices checkbox
            ++ map app.st_info
                 (eda.check_ml_readiness
                    (Notions.cleaned checkbox df (main.transformation_log w)).1
                    ml_task)
            ++ [app.st_error
                  "Error reading the CSV file: module 'os' has no attribute 'get_env'"];
        main.session_code := main.init_llm_code (main.session_code w) |},
     Some f').
Proof.
  intros Hingest Hs1 Hs2 Hb1 Hb2.
  unfold main.main. rewrite Hingest. cbv zeta.
  rewrite (try_except_ext _ _ _ _ _
             (analysis_after_cleaning df _ _ _ _ s1 s2 t1 t2 t3 Hs1 Hs2 Hb1)).
  rewrite Hb2. change (main.when true ?m) with m.
  erewrite try_bind_raise; cycle 1.
  { rewrite page_bind_run. unfold main.call at 1.
    by destruct (advisory_raise chat_completion env s1 ml_task) as [_ ->]. }
  unfold main.handler, main.world_of. simpl.
  by rewrite <- !app_assoc.
Qed.

(** X17. With no advisory button pressed and no code in the session, a
    run on a loaded frame is the export section run on the cleaned frame:
    imputation first when ticked, duplicate removal second when ticked;
    the page shows the readiness notes of the loaded frame, the cleaning
    notices, the readiness notes of the cleaned frame and, when "Run
    Additional Checks Code" is pressed, the notice that there is no code;
    the exports then work on the cleaned frame and the log of this
    cleaning. *)
Theorem main_cleans_then_exports
    (f f' : app.UploadedFile) (df : pd.DataFrame)
    (notices : list app.ui_event) (s1 s2 : string)
    (t1 t2 t3 : datetime) (w : main.world) :
  app.ingest parse_csv f = (Return df, f', notices) ->
  generate_summary df = Return s1 ->
  generate_summary
    (Notions.cleaned checkbox df (main.transformation_log w)).1 = Return s2 ->
  button "Get LLM Cleaning Suggestions" = false ->
  button "Get Additional Checks Suggestions" = false ->
  Notions.no_code (main.session_code w) ->
  run (Some f) t1 t2 t3 w
  = (let s :=
       (app.main_exports datetime strftime to_csv describe_to_html
          template_render button t1 t2 t3
          {| app.df :=
               (Notions.cleaned checkbox df (main.transformation_log w)).1;
             app.transformation_log :=
               (Notions.cleaned checkbox df (main.transformation_log w)).2;
             app.fs := main.fs w;
             app.ui :=
               main.ui w ++ notices
                 ++ map app.st_info (eda.check_ml_readiness df ml_task)
                 ++ Notions.cleaning_notices checkbox
                 ++ map app.st_info
                      (eda.check_ml_readiness
                         (Notions.cleaned checkbox df
                            (main.transformation_log w)).1 ml_task)
                 ++ (if button "Run Additional Checks Code"
                     then [app.st_error
                             "No additional checks code available. Please click 'Get Additional Checks Suggestions' first."]
                     else []) |}).2 in
     {| main.transformation_log := app.transformation_log s;
        main.fs := app.fs s;
        main.ui := app.ui s;
        main.session_code := main.init_llm_code (main.session_code w) |},
     Some f').
Proof.
  intros Hingest Hs1 Hs2 Hb1 Hb2 Hno.
  unfold main.main. rewrite Hingest. cbv zeta.
  rewrite (try_except_ext _ _ _ _ _
             (analysis_after_cleaning df _ _ _ _ s1 s2 t1 t2 t3 Hs1 Hs2 Hb1)).
  rewrite Hb2. change (main.when false ?m) with (main.ret tt).
  erewrite try_bind_return; [|reflexivity].
  erewrite try_bind_return; [|by apply run_without_code, no_code_init].
  rewrite exports_under_try. unfold main.world_of, app.main_exports.
  cbn [snd main.session main.llm_code]. by rewrite <- !app_assoc.
Qed.
End Run.

Lemma cleaning_suggestions_button_ends_run_witness :
  main.ui (Scenario.run (fun _ => true)).1
  = [ app.st_info "Date parsing applied to columns: date_created";
      app.st_info "Column 'value' has 50.0% missing values.";
      app.st_info "Column 'date_created' has 25.0% missing values.";
      app.st_info
        "Column 'date_created' is a datetime and may need feature engineering.";
      app.st_error
        "Error reading the CSV file: module 'os' has no attribute 'get_env'" ]
  /\ main.transformation_log (Scenario.run (fun _ => true)).1 = [].
Proof.
  assert (Hingest :
            app.ingest Scenario.orders_parser Scenario.orders_file
            = (Return Samples.orders, app.mkFile "id,value,date_created" 21,
               [app.st_info "Date parsing applied to columns: date_created"]))
    by (vm_compute; reflexivity).
  unfold Scenario.run, Scenario.run_with.
  rewrite (cleaning_suggestions_button_ends_run "Other" (fun _ => true)
             (fun _ => true) [] (fun _ _ _ _ => Return "")
             (fun _ => Return "summary") (fun _ => Return None) unit
             (fun _ _ => "20240501_100000") (fun _ => "csv")
             (fun _ => "<table>") (fun _ _ _ => "<html>")
             Scenario.orders_parser _ _ _ _ "summary" tt tt tt Scenario.fresh
             Hingest eq_refl eq_refl).
  split; vm_compute; reflexivity.
Defined.

Lemma additional_checks_button_ends_run_witness :
  main.ui
    (Scenario.run (String.eqb "Get Additional Checks Suggestions")).1
  = [ app.st_info "Date parsing applied to columns: date_created";
      app.st_info "Column 'value' has 50.0% missing values.";
      app.st_info "Column 'date_created' has 25.0% missing values.";
      app.st_info
        "Column 'date_created' is a datetime and may need feature engineering.";
      app.st_success "Missing values imputed using column means.";
      app.st_success "Duplicate rows dropped.";
      app.st_info "Column 'date_created' has 33.3% missing values.";
      app.st_info
        "Column 'date_created' is a datetime and may need feature engineering.";
      app.st_error
        "Error reading the CSV file: module 'os' has no attribute 'get_env'" ]
  /\ main.session_code
       (Scenario.run (String.eqb "Get Additional Checks Suggestions")).1
     = Some None.
Proof.
  assert (Hingest :
            app.ingest Scenario.orders_parser Scenario.orders_file
            = (Return Samples.orders, app.mkFile "id,value,date_created" 21,
               [app.st_info "Date parsing applied to columns: date_created"]))
    by (vm_compute; reflexivity).
  unfold Scenario.run, Scenario.run_with.
  rewrite (additional_checks_button_ends_run "Other" (fun _ => true)
             (String.eqb "Get Additional Checks Suggestions") []
             (fun _ _ _ _ => Return "")
             (fun _ => Return "summary") (fun _ => Return None) unit
             (fun _ _ => "20240501_100000") (fun _ => "csv")
             (fun _ => "<table>") (fun _ _ _ => "<html>")
             Scenario.orders_parser _ _ _ _ "summary" "summary" tt tt tt
             Scenario.fresh Hingest eq_refl eq_refl eq_refl eq_refl).
  split; vm_compute; reflexivity.
Defined.

Lemma main_cleans_then_exports_witness :
  main.transformation_log
    (Scenario.run (String.eqb "Export Transformation Script")).1
  = [ "df['value'].fillna(df['value'].mean(), inplace=True)  # Imputed missing values in 'value'";
      "df.drop_duplicates(inplace=True)  # Dropped duplicates. Shape from (4, 3) to (3, 3)" ]
  /\ app.files
       (main.fs (Scenario.run (String.eqb "Export Transformation Script")).1)
       "export/transformation_script.py"
     = Some (app.script_content "20240501_100000"
               [ "df['value'].fillna(df['value'].mean(), inplace=True)  # Imputed missing values in 'value'";
                 "df.drop_duplicates(inplace=True)  # Dropped duplicates. Shape from (4, 3) to (3, 3)" ]).
Proof.
  assert (Hingest :
            app.ingest Scenario.orders_parser Scenario.orders_file
            = (Return Samples.orders, app.mkFile "id,value,date_created" 21,
               [app.st_info "Date parsing applied to columns: date_created"]))
    by (vm_compute; reflexivity).
  unfold Scenario.run, Scenario.run_with.
  rewrite (main_cleans_then_exports "Other" (fun _ => true)
             (String.eqb "Export Transformation Script") []
             (fun _ _ _ _ => Return "")
             (fun _ => Return "summary") (fun _ => Return None) unit
             (fun _ _ => "20240501_100000") (fun _ => "csv")
             (fun _ => "<table>") (fun _ _ _ => "<html>")
             Scenario.orders_parser _ _ _ _ "summary" "summary" tt tt tt
             Scenario.fresh Hingest eq_refl eq_refl eq_refl eq_refl eq_refl).
  split; vm_compute; reflexivity.
Defined.

(* ===================================================================== *)
(** * What no run of [main] does                                          *)
(* ===================================================================== *)

Lemma gentle_refl (paths : list string) (p : main.page) :
  Notions.gentle paths p p.
Proof.
  intros _. split; [done|].
  split; [exists []; by rewrite app_nil_r|].
  split; [exists []; by rewrite app_nil_r|done].
Qed.

Lemma gentle_trans (paths : list string) (p1 p2 p3 : main.page) :
  Notions.gentle paths p1 p2 -> Notions.gentle paths p2 p3 ->
  Notions.gentle paths p1 p3.
Proof.
  intros H12 H23 Hno.
  destruct (H12 Hno) as (Hc & [m1 Hl] & [e1 Hu] & Hf).
  assert (Hno2 : Notions.no_code (main.llm_code p2)) by (by rewrite Hc).
  destruct (H23 Hno2) as (Hc' & [m2 Hl'] & [e2 Hu'] & Hf').
  split; [congruence|].
  split; [exists (m1 ++ m2); by rewrite Hl', Hl, app_assoc|].
  split; [exists (e1 ++ e2); by rewrite Hu', Hu, app_assoc|].
  intros path Hpath. by rewrite Hf', Hf.
Qed.

Section Gentle.
Context {A B : Type}.
Variable paths : list string.

Lemma stays_gentle_ret (a : A) : Notions.stays_gentle paths (main.ret a).
Proof. intros p. apply gentle_refl. Qed.

Lemma stays_gentle_call (r : Py.result A) :
  Notions.stays_gentle paths (main.call r).
Proof. intros p. apply gentle_refl. Qed.

Lemma stays_gentle_bind (m : main.P A) (k : A -> main.P B) :
  Notions.stays_gentle paths m ->
  (forall a, Notions.stays_gentle paths (k a)) ->
  Notions.stays_gentle paths (main.bind m k).
Proof.
  intros Hm Hk p. unfold main.bind. specialize (Hm p).
  destruct (m p) as [[a|e] p']; simpl in *; [|done].
  eapply gentle_trans; [exact Hm|apply Hk].
Qed.

(** A call that raises before the step after it. *)
Lemma stays_gentle_raise (r : Py.result A) (k : A -> main.P B) (e : Py.exn) :
  r = Raise e -> Notions.stays_gentle paths (main.bind (main.call r) k).
Proof. intros -> p. apply gentle_refl. Qed.

Lemma stays_gentle_lift (m : app.M A) :
  Notions.writes_within paths m ->
  (forall s, app.transformation_log (m s).2 = app.transformation_log s) ->
  Notions.shows_more m ->
  Notions.stays_gentle paths (main.lift m).
Proof.
  intros Hw Hlog Hui p _. unfold main.lift.
  specialize (Hw (main.session p)). specialize (Hlog (main.session p)).
  specialize (Hui (main.session p)).
  destruct (m (main.session p)) as [r s]. simpl in *.
  split; [done|]. split; [exists []; by rewrite app_nil_r|]. by split.
Qed.
End Gentle.

Lemma stays_gentle_show (paths : list string) (e : app.ui_event) :
  Notions.stays_gentle paths (main.lift (app.show e)).
Proof.
  apply stays_gentle_lift; [apply writes_within_show|done|].
  intros s. by exists [e].
Qed.

Lemma stays_gentle_when (paths : list string) (b : bool) (m : main.P unit) :
  Notions.stays_gentle paths m -> Notions.stays_gentle paths (main.when b m).
Proof. destruct b; [done|]. intros _. apply stays_gentle_ret. Qed.

Lemma stays_gentle_for_each {A : Type} (paths : list string)
    (f : A -> main.P unit) (l : list A) :
  (forall x, Notions.stays_gentle paths (f x)) ->
  Notions.stays_gentle paths (main.for_each f l).
Proof.
  intros Hf. induction l as [|x l IH]; simpl.
  - apply stays_gentle_ret.
  - apply stays_gentle_bind; [apply Hf|done].
Qed.

Lemma stays_gentle_try (paths : list string) (body : main.P unit)
    (h : Py.exn -> main.P unit) :
  Notions.stays_gentle paths body ->
  (forall e, Notions.stays_gentle paths (h e)) ->
  Notions.stays_gentle paths (main.try_except body h).
Proof.
  intros Hb Hh p. unfold main.try_except. specialize (Hb p).
  destruct (body p) as [[a|e] p']; simpl in *; [done|].
  eapply gentle_trans; [exact Hb|apply Hh].
Qed.

Lemma stays_gentle_clean (paths : list string)
    (op : pd.DataFrame -> list string -> pd.DataFrame * list string) :
  (forall d l, exists more, (op d l).2 = l ++ more) ->
  Notions.stays_gentle paths (main.clean op).
Proof.
  intros Hop p _. unfold main.clean.
  destruct (Hop (app.df (main.session p))
              (app.transformation_log (main.session p))) as [more Hmore].
  destruct (op _ _) as [d l]. simpl in *.
  split; [done|]. split; [by exists more|].
  split; [exists []; by rewrite app_nil_r|done].
Qed.

Lemma impute_appends (df : pd.DataFrame) (log : list string) :
  exists more, (cleaning.impute_missing_values df log).2 = log ++ more.
Proof.
  unfold cleaning.impute_missing_values.
  generalize (pd.select_dtypes pd.is_number df) as cols.
  intros cols. revert df log.
  induction cols as [|c cols IH]; intros df log; simpl.
  - exists []. by rewrite app_nil_r.
  - destruct (pd.getitem df c) as [s|]; [|apply IH].
    destruct (0 <? pd.bool_sum (pd.Series_isnull s))%nat; [|apply IH].
    destruct (IH (pd.update_col (pd.Series_fillna (pd.Series_mean s)) df c)
                (log ++ [cleaning.impute_entry c])) as [more ->].
    exists (cleaning.impute_entry c :: more). by rewrite <- app_assoc.
Qed.

Lemma drop_duplicates_appends (df : pd.DataFrame) (log : list string) :
  exists more, (cleaning.drop_duplicates df log).2 = log ++ more.
Proof. by eexists. Qed.

Section ShowsMore.
Context {A B : Type}.

Lemma shows_more_ret (a : A) : Notions.shows_more (app.ret a).
Proof. intros s. exists []. simpl. by rewrite app_nil_r. Qed.

Lemma shows_more_bind (m : app.M A) (k : A -> app.M B) :
  Notions.shows_more m -> (forall a, Notions.shows_more (k a)) ->
  Notions.shows_more (app.bind m k).
Proof.
  intros Hm Hk s. unfold app.bind. destruct (Hm s) as [e1 He1].
  destruct (m s) as [[a|e] s']; simpl in *; [|by exists e1].
  destruct (Hk a s') as [e2 He2]. exists (e1 ++ e2).
  by rewrite He2, He1, app_assoc.
Qed.
End ShowsMore.

Lemma shows_more_show (e : app.ui_event) : Notions.shows_more (app.show e).
Proof. intros s. by exists [e]. Qed.

Lemma shows_more_get_df : Notions.shows_more app.get_df.
Proof. intros s. exists []. simpl. by rewrite app_nil_r. Qed.

Lemma shows_more_get_log : Notions.shows_more app.get_log.
Proof. intros s. exists []. simpl. by rewrite app_nil_r. Qed.

Lemma shows_more_write_file (path content : string) :
  Notions.shows_more (app.write_file path content).
Proof.
  intros s. exists []. unfold app.write_file.
  destruct (app.open_write (app.fs s) path content); simpl;
    by rewrite app_nil_r.
Qed.

Lemma shows_more_when (b : bool) (m : app.M unit) :
  Notions.shows_more m -> Notions.shows_more (app.when b m).
Proof. destruct b; [done|]. intros _. apply shows_more_ret. Qed.

Create HintDb shows_more.
#[local] Hint Resolve shows_more_ret shows_more_show shows_more_get_df
  shows_more_get_log shows_more_write_file shows_more_when : shows_more.

Ltac shows_more :=
  repeat first
    [ apply shows_more_bind; [|intros ?]
    | apply shows_more_when
    | progress auto with shows_more ].

Section Never.
Variable ml_task : string.
Variable checkbox : string -> bool.
Variable button : string -> bool.
Variable env : os.environ.
Variable chat_completion :
  string -> string -> string -> nat -> Py.result string.
Variable generate_summary : pd.DataFrame -> Py.result string.
Variable datetime : Type.
Variable strftime : datetime -> string -> string.
Variable to_csv : pd.DataFrame -> string.
Variable describe_to_html : pd.DataFrame -> string.
Variable template_render : string -> string -> list string -> string.
Variable parse_csv : string -> option (list string) -> Py.result pd.DataFrame.
Variables t1 t2 t3 : datetime.

Local Abbreviation export_paths :=
  [ "export/cleaned_data_" +:+ strftime t1 "%Y%m%d_%H%M%S" +:+ ".csv";
    "export/transformation_script.py";
    "export/eda_report_" +:+ strftime t3 "%Y%m%d_%H%M%S" +:+ ".html" ].

Lemma export_options_gentle :
  Notions.stays_gentle export_paths
    (main.lift
       (app.export_options datetime strftime to_csv describe_to_html
          template_render button t1 t2 t3)).
Proof.
  apply stays_gentle_lift.
  - unfold app.export_options, app.export_csv, app.export_script,
      app.export_report, app.export_transformation_script,
      app.export_eda_report, os.path_join.
    writes_within.
  - intros s. apply export_like_options.
  - unfold app.export_options, app.export_csv, app.export_script,
      app.export_report, app.export_transformation_script,
      app.export_eda_report.
    shows_more.
Qed.

Lemma run_additional_checks_gentle
    (exec_code :
       string ->
       Py.result (option (pd.DataFrame -> Py.result unit * pd.DataFrame))) :
  Notions.stays_gentle export_paths (main.run_additional_checks exec_code).
Proof.
  intros p Hno. unfold main.run_additional_checks. rewrite Hno.
  by apply stays_gentle_show.
Qed.

Lemma analysis_gentle
    (exec_code :
       string ->
       Py.result (option (pd.DataFrame -> Py.result unit * pd.DataFrame))) :
  Notions.stays_gentle export_paths
    (main.analysis ml_task checkbox button env chat_completion
       generate_summary exec_code datetime strftime to_csv describe_to_html
       template_render t1 t2 t3).
Proof.
  unfold main.analysis.
  apply stays_gentle_bind;
    [apply stays_gentle_lift;
       [apply writes_within_get_df|done|apply shows_more_get_df]|intros df].
  apply stays_gentle_bind; [apply stays_gentle_call|intros summary].
  apply stays_gentle_bind;
    [apply stays_gentle_for_each; intros x; apply stays_gentle_show|intros _].
  apply stays_gentle_bind; [|intros _].
  { apply stays_gentle_when.
    eapply stays_gentle_raise,
      (proj1 (advisory_raise chat_completion env summary ml_task)). }
  apply stays_gentle_bind; [|intros _].
  { apply stays_gentle_when, stays_gentle_bind;
      [apply stays_gentle_clean, impute_appends
      |intros _; apply stays_gentle_show]. }
  apply stays_gentle_bind; [|intros _].
  { apply stays_gentle_when, stays_gentle_bind;
      [apply stays_gentle_clean, drop_duplicates_appends
      |intros _; apply stays_gentle_show]. }
  apply stays_gentle_bind;
    [apply stays_gentle_lift;
       [apply writes_within_get_df|done|apply shows_more_get_df]|intros df'].
  apply stays_gentle_bind; [apply stays_gentle_call|intros summary'].
  apply stays_gentle_bind;
    [apply stays_gentle_for_each; intros x; apply stays_gentle_show|intros _].
  apply stays_gentle_bind; [|intros _].
  { apply stays_gentle_when.
    eapply stays_gentle_raise,
      (proj2 (advisory_raise chat_completion env summary ml_task)). }
  apply stays_gentle_bind; [|intros _].
  { apply stays_gentle_when, run_additional_checks_gentle. }
  apply export_options_gentle.
Qed.

(** X18. In a session that holds no code, no run of [main] -- with or
    without an upload, whatever is ticked or pressed, whether or not the
    file parses, a call raises or a write fails -- does more than this:
    it appends entries to the transformation log, adds to what the page
    shows, writes at the three export paths, and initialises the
    session's [llm_code] to [None] if the key was missing. Every other
    file is as it was, and the session still holds no code afterwards. *)
Theorem main_only_appends_and_exports
    (exec_code :
       string ->
       Py.result (option (pd.DataFrame -> Py.result unit * pd.DataFrame)))
    (uploaded_file : option app.UploadedFile) (w : main.world) :
  Notions.no_code (main.session_code w) ->
  let w' :=
    (main.main ml_task checkbox button env chat_completion generate_summary
       exec_code datetime strftime to_csv describe_to_html template_render
       parse_csv uploaded_file t1 t2 t3 w).1 in
  main.session_code w' = main.init_llm_code (main.session_code w)
  /\ Notions.no_code (main.session_code w')
  /\ (exists more,
        main.transformation_log w' = main.transformation_log w ++ more)
  /\ (exists events, main.ui w' = main.ui w ++ events)
  /\ (forall path, ~ In path export_paths ->
        app.files (main.fs w') path = app.files (main.fs w) path).
Proof.
  intros Hno. pose proof (no_code_init _ Hno) as Hinit. unfold main.main.
  destruct uploaded_file as [f|]; simpl.
  2: { split; [done|]. split; [done|].
       split; [exists []; by rewrite app_nil_r|].
       split; [exists []; by rewrite app_nil_r|done]. }
  destruct (app.ingest parse_csv f) as [[[df|e] f'] notices]; simpl.
  2: { split; [done|]. split; [done|].
       split; [exists []; by rewrite app_nil_r|]. split; [by eexists|done]. }
  match goal with
  | |- context [main.try_except ?b ?h ?p] =>
      destruct (stays_gentle_try export_paths b h
                  (analysis_gentle exec_code)
                  (fun e => stays_gentle_show _ _) p Hinit)
        as (Hc & Hl & [events Hu] & Hf)
  end.
  simpl in Hc, Hl, Hu, Hf.
  split; [done|]. split; [by rewrite Hc|]. split; [done|].
  split; [|done]. exists (notices ++ events). by rewrite Hu, app_assoc.
Qed.
End Never.

Lemma main_only_appends_and_exports_witness :
  main.session_code
    (Scenario.run (String.eqb "Export Cleaned Data as CSV")).1 = Some None
  /\ app.files
       (main.fs (Scenario.run (String.eqb "Export Cleaned Data as CSV")).1)
       "data/raw.csv"
     = None.
Proof.
  destruct (main_only_appends_and_exports "Other" (fun _ => true)
              (String.eqb "Export Cleaned Data as CSV") []
              (fun _ _ _ _ => Return "") (fun _ => Return "summary") unit
              (fun _ _ => "20240501_100000") (fun _ => "csv")
              (fun _ => "<table>") (fun _ _ _ => "<html>")
              Scenario.orders_parser tt tt tt (fun _ => Return None)
              (Some Scenario.orders_file) Scenario.fresh eq_refl)
    as (Hcode & _ & _ & _ & Hfiles).
  split; [exact Hcode|].
  unfold Scenario.run, Scenario.run_with. rewrite Hfiles; [reflexivity|].
  simpl.
  intros [H|[H|[H|[]]]]; discriminate H.
Defined.

(* ===================================================================== *)
(** * Generated code is never run                                         *)
(* ===================================================================== *)

Section SameWithoutCode.
Context {A B : Type}.

Lemma same_without_code_refl (m : main.P A) : Notions.same_without_code m m.
Proof. by intros p _. Qed.

Lemma same_without_code_bind (paths : list string) (m : main.P A)
    (k1 k2 : A -> main.P B) :
  Notions.stays_gentle paths m ->
  (forall a, Notions.same_without_code (k1 a) (k2 a)) ->
  Notions.same_without_code (main.bind m k1) (main.bind m k2).
Proof.
  intros Hm Hk p Hno. unfold main.bind.
  destruct (Hm p Hno) as (Hc & _).
  destruct (m p) as [[a|e] p']; simpl in *; [|done].
  apply Hk. unfold Notions.no_code. by rewrite Hc.
Qed.
End SameWithoutCode.

Lemma same_without_code_try (body1 body2 : main.P unit)
    (h : Py.exn -> main.P unit) :
  Notions.same_without_code body1 body2 ->
  Notions.same_without_code (main.try_except body1 h)
    (main.try_except body2 h).
Proof. intros Hb p Hno. unfold main.try_except. by rewrite (Hb p Hno). Qed.

Section NeverRuns.
Variable ml_task : string.
Variable checkbox : string -> bool.
Variable button : string -> bool.
Variable env : os.environ.
Variable chat_completion :
  string -> string -> string -> nat -> Py.result string.
Variable generate_summary : pd.DataFrame -> Py.result string.
Variable datetime : Type.
Variable strftime : datetime -> string -> string.
Variable to_csv : pd.DataFrame -> string.
Variable describe_to_html : pd.DataFrame -> string.
Variable template_render : string -> string -> list string -> string.
Variable parse_csv : string -> option (list string) -> Py.result pd.DataFrame.
Variables exec_code exec_code' :
  string -> Py.result (option (pd.DataFrame -> Py.result unit * pd.DataFrame)).

Lemma analysis_same_without_code (t1 t2 t3 : datetime) :
  Notions.same_without_code
    (main.analysis ml_task checkbox button env chat_completion
       generate_summary exec_code datetime strftime to_csv describe_to_html
       template_render t1 t2 t3)
    (main.analysis ml_task checkbox button env chat_completion
       generate_summary exec_code' datetime strftime to_csv describe_to_html
       template_render t1 t2 t3).
Proof.
  unfold main.analysis.
  apply (same_without_code_bind []);
    [apply stays_gentle_lift;
       [apply writes_within_get_df|done|apply shows_more_get_df]|intros df].
  apply (same_without_code_bind []); [apply stays_gentle_call|intros summary].
  apply (same_without_code_bind []);
    [apply stays_gentle_for_each; intros x; apply stays_gentle_show|intros _].
  apply (same_without_code_bind []); [|intros _].
  { apply stays_gentle_when.
    eapply stays_gentle_raise,
      (proj1 (advisory_raise chat_completion env summary ml_task)). }
  apply (same_without_code_bind []); [|intros _].
  { apply stays_gentle_when, stays_gentle_bind;
      [apply stays_gentle_clean, impute_appends
      |intros _; apply stays_gentle_show]. }
  apply (same_without_code_bind []); [|intros _].
  { apply stays_gentle_when, stays_gentle_bind;
      [apply stays_gentle_clean, drop_duplicates_appends
      |intros _; apply stays_gentle_show]. }
  apply (same_without_code_bind []);
    [apply stays_gentle_lift;
       [apply writes_within_get_df|done|apply shows_more_get_df]|intros df'].
  apply (same_without_code_bind []); [apply stays_gentle_call|intros summary'].
  apply (same_without_code_bind []);
    [apply stays_gentle_for_each; intros x; apply stays_gentle_show|intros _].
  apply (same_without_code_bind []); [|intros _].
  { apply stays_gentle_when.
    eapply stays_gentle_raise,
      (proj2 (advisory_raise chat_completion env summary ml_task)). }
  intros p Hno.
  assert (Hrun :
            main.when (button "Run Additional Checks Code")
              (main.run_additional_checks exec_code) p
            = main.when (button "Run Additional Checks Code")
                (main.run_additional_checks exec_code') p).
  { destruct (button "Run Additional Checks Code"); [|done].
    unfold main.when, main.run_additional_checks. by rewrite Hno. }
  unfold main.bind. by rewrite Hrun.
Qed.

(** X19. In a session that holds no code, what [exec] would do with a
    piece of code has no bearing on a run of [main]: the run never reaches
    [exec]. Both advisory calls raise before any code is stored, and the
    button that runs stored code finds none. *)
Theorem generated_code_never_runs
    (uploaded_file : option app.UploadedFile) (t1 t2 t3 : datetime)
    (w : main.world) :
  Notions.no_code (main.session_code w) ->
  main.main ml_task checkbox button env chat_completion generate_summary
    exec_code datetime strftime to_csv describe_to_html template_render
    parse_csv uploaded_file t1 t2 t3 w
  = main.main ml_task checkbox button env chat_completion generate_summary
      exec_code' datetime strftime to_csv describe_to_html template_render
      parse_csv uploaded_file t1 t2 t3 w.
Proof.
  intros Hno. unfold main.main.
  destruct uploaded_file as [f|]; [|done].
  destruct (app.ingest parse_csv f) as [[[df|e] f'] notices]; [|done].
  cbv zeta. f_equal. f_equal. f_equal.
  apply (same_without_code_try _ _ _ (analysis_same_without_code t1 t2 t3)).
  exact (no_code_init _ Hno).
Qed.
End NeverRuns.

Lemma generated_code_never_runs_witness :
  Scenario.run_with
    (fun _ => Return (Some (fun _ => (Return tt, Samples.blank))))
    (String.eqb "Run Additional Checks Code") Scenario.fresh
  = Scenario.run (String.eqb "Run Additional Checks Code").
Proof.
  exact (generated_code_never_runs "Other" (fun _ => true)
           (String.eqb "Run Additional Checks Code") []
           (fun _ _ _ _ => Return "") (fun _ => Return "summary") unit
           (fun _ _ => "20240501_100000") (fun _ => "csv")
           (fun _ => "<table>") (fun _ _ _ => "<html>")
           Scenario.orders_parser
           (fun _ => Return (Some (fun _ => (Return tt, Samples.blank))))
           (fun _ => Return None)
           (Some Scenario.orders_file) tt tt tt Scenario.fresh eq_refl).
Defined.
